(** * The request layer of the Arium API client

    A shallow embedding of [api_call/arium/api/request.py]: the [retry]
    decorator, the response decoder [get_content] with [read_csv], the asset
    verbs [asset_get], [asset_list] and [asset_post], and the pollers
    [asset_polling] and [_assets_db_polling].

    Python values are modelled as follows.
    - [bytes] is a list of bytes; [str] is a Rocq [string] holding the UTF-8
      encoding of the text, so that [str.encode("utf-8")] is the list of its
      bytes and [bytes.decode("utf-8")] is a validity check.
    - What the code does to the outside (HTTP requests, [time.sleep]) is a
      state transformer on a [World]: an environment the requests act upon
      and a trace recording every request and every sleep, in order.
    - An exception is a value of [exn]; a computation ends in [Ret], in
      [Raise], or runs out of the fuel given to an unbounded [while] loop.
    - Logging is not observable and is left out, except that the arguments
      of a log line are evaluated, since evaluating them can raise.
    - Of the libraries, [bytes.splitlines], [bytes.strip], the UTF-8 codec,
      [codecs.iterdecode], [csv.reader] and [urlencode] are written out;
      [json.loads], [zipfile.ZipFile] and [str()] are parameters, see
      [PyLib]. *)

From Stdlib Require Import ZArith NArith List Strings.String Strings.Ascii Strings.Byte Bool Lia.
From Stdlib Require DecimalString.
Import ListNotations.

Set Warnings "-register-all".

Local Open Scope string_scope.
Local Open Scope list_scope.

(** ** Values *)

Definition bytes := list byte.

(** The result of [json.loads]: Python's [None], [bool], [int], [float]
    (kept as its lexeme), [str], [list] and [dict] (in insertion order,
    keys distinct). *)
Inductive json : Type :=
| JNull
| JBool (b : bool)
| JInt (z : Z)
| JFloat (lexeme : string)
| JString (s : string)
| JArray (items : list json)
| JObject (fields : list (string * json)).

(** The four shapes [get_content] can return. *)
Inductive Content : Type :=
| RawBytes (b : bytes)
| Text (s : string)
| Structured (j : json)
| Tabular (rows : list (list string)).

(** [requests.Response]: the attributes the code reads.  Header names are
    compared without regard to case, see [headers_get]. *)
Record Response : Type := mkResponse {
  status_code : Z;
  headers : list (string * string);
  content : bytes
}.

(** The [data] argument of [asset_post]: [Union[str, Dict]]. *)
Inductive payload : Type :=
| PStr (s : string)
| PJson (j : json).

(** The calls that leave the process: the four verbs of the [APIClient]
    and the two direct uses of the [requests] library. *)
Inductive request : Type :=
| ClientGet (endpoint : string)
| ClientPost (endpoint : string) (json_body : option payload)
| ClientPut (endpoint : string) (data : option string)
| ClientDelete (endpoint : string)
| RequestsGet (url : string) (verify : bool)
| RequestsPut (url : string) (data : bytes) (verify : bool).

(** The exceptions met.  [AriumAPACResponseException] is what
    [get_content] raises on a status it does not accept, with the
    response as argument; its class is declared in
    [api_call.arium.api.exceptions], outside the sources, and is the
    UnexpectedStatus of the specification.  [Exception] with a message is
    what [asset_list] raises on content of the wrong type. *)
Inductive exn : Type :=
| ConnectionError                      (* requests.exceptions.ConnectionError *)
| RequestException (kind : string)     (* any other failure of the transport *)
| AriumAPACResponseException (response : Response)
| UnicodeDecodeError
| KeyError (key : string)
| TypeError
| AttributeError
| Exception (message : string).

Inductive outcome (A : Type) : Type :=
| Ret (a : A)
| Raise (e : exn)
| OutOfFuel.

Arguments Ret {A} a.
Arguments Raise {A} e.
Arguments OutOfFuel {A}.

Inductive event : Type :=
| EvCall                       (* one invocation of a wrapped operation *)
| EvSleep (seconds : Z)        (* time.sleep *)
| EvRequest (rq : request).

(** ** Effects *)

Record World (Env : Type) : Type := mkWorld {
  env : Env;
  trace : list event
}.

Arguments mkWorld {Env} env trace.
Arguments env {Env} w.
Arguments trace {Env} w.

Definition M (Env A : Type) : Type := World Env -> outcome A * World Env.

Section Effects.
Context {Env : Type}.

Definition ret {A} (a : A) : M Env A := fun w => (Ret a, w).

Definition raise {A} (e : exn) : M Env A := fun w => (Raise e, w).

Definition bind {A B} (m : M Env A) (k : A -> M Env B) : M Env B :=
  fun w =>
    match m w with
    | (Ret a, w') => k a w'
    | (Raise e, w') => (Raise e, w')
    | (OutOfFuel, w') => (OutOfFuel, w')
    end.

(** [try: m except <class>: handler], the class given by [caught]. *)
Definition try_except {A} (m : M Env A) (caught : exn -> bool)
           (handler : exn -> M Env A) : M Env A :=
  fun w =>
    match m w with
    | (Raise e, w') => if caught e then handler e w' else (Raise e, w')
    | r => r
    end.

Definition record (ev : event) (w : World Env) : World Env :=
  mkWorld (env w) (trace w ++ [ev]).

Definition sleep (seconds : Z) : M Env unit :=
  fun w => (Ret tt, record (EvSleep seconds) w).

(** Lifting an operation on the environment: the invocation is recorded. *)
Definition invoke {A} (op : Env -> outcome A * Env) : M Env A :=
  fun w => let (o, e') := op (env w) in
           (o, mkWorld e' (trace w ++ [EvCall])).

End Effects.

Declare Scope py_scope.
Delimit Scope py_scope with py.
Notation "x <- m ;; k" := (bind m (fun x => k))
  (at level 61, m at next level, right associativity) : py_scope.
Notation "m ;; k" := (bind m (fun _ => k))
  (at level 61, right associativity) : py_scope.
Local Open Scope py_scope.

(** ** [retry] *)

(** [except requests.exceptions.ConnectionError]. *)
Definition is_ConnectionError (e : exn) : bool :=
  match e with ConnectionError => true | _ => false end.

Section Retry.
Context {Env A : Type}.

(** The loop [while attempt < times] of the wrapper, followed by the
    call after the loop.  [remaining] is [times - attempt]: a pass that
    catches the connection error sleeps [delay], doubles it and leaves
    one pass less; a pass that returns, or raises anything else, ends
    the call; with no pass left, [func] is called outside any [try]. *)
Fixpoint retry_loop (remaining : nat) (delay : Z) (func : M Env A) : M Env A :=
  match remaining with
  | O => func
  | S remaining' =>
      try_except func is_ConnectionError
        (fun _ => sleep delay ;; retry_loop remaining' (delay * 2) func)
  end.

(** [retry(times)(func)], with [delay = 1] and [attempt = 0] at the start. *)
Definition retry (times : nat) (func : M Env A) : M Env A :=
  retry_loop times 1 func.

(** The environment after [k] invocations of [op]. *)
Definition env_after (op : Env -> outcome A * Env) (k : nat) (e : Env) : Env :=
  Nat.iter k (fun e' => snd (op e')) e.

End Retry.

(** What [n] failed attempts leave in the trace when the first of them
    sleeps [delay]. *)
Fixpoint backoff (n : nat) (delay : Z) : list event :=
  match n with
  | O => []
  | S n' => EvCall :: EvSleep delay :: backoff n' (delay * 2)
  end.

(** [N] invocations, the [k]-th of the first [N-1] followed by a sleep of
    [2^k] (k counted from 0): delays 1, 2, 4, ..., 2^(N-2). *)
Definition attempts (N : nat) : list event :=
  flat_map (fun k => [EvCall; EvSleep (2 ^ Z.of_nat k)]) (seq 0 (N - 1)) ++ [EvCall].

(** The invocations and the sleeps a trace records. *)
Definition calls_in (tr : list event) : nat :=
  List.length (filter (fun ev => match ev with EvCall => true | _ => false end) tr).

Fixpoint sleeps_in (tr : list event) : list Z :=
  match tr with
  | [] => []
  | EvSleep d :: tr' => d :: sleeps_in tr'
  | _ :: tr' => sleeps_in tr'
  end.

(** ** Bytes and text *)

Definition encode (s : string) : bytes := list_byte_of_string s.

Definition code (b : byte) : N := Byte.to_N b.

Definition between (lo hi : N) (b : byte) : bool :=
  (N.leb lo (code b) && N.leb (code b) hi)%bool.

(** The length of the UTF-8 sequence a byte starts; 0 when it starts none. *)
Definition utf8_length (b1 : byte) : nat :=
  if between 0 127 b1 then 1
  else if between 194 223 b1 then 2
  else if between 224 239 b1 then 3
  else if between 240 244 b1 then 4
  else 0.

(** The second byte allowed after the lead byte [b1]: no overlong forms,
    no surrogates, nothing above U+10FFFF. *)
Definition utf8_second (b1 b2 : byte) : bool :=
  match code b1 with
  | 224%N => between 160 191 b2
  | 237%N => between 128 159 b2
  | 240%N => between 144 191 b2
  | 244%N => between 128 143 b2
  | _ => between 128 191 b2
  end.

Definition utf8_continuation (b : byte) : bool := between 128 191 b.

Definition emit (seq : bytes) (r : option (bytes * bytes)) : option (bytes * bytes) :=
  match r with
  | Some (out, pending) => Some (seq ++ out, pending)
  | None => None
  end.

(** The incremental UTF-8 decoder on one chunk: the decoded text and the
    bytes of an unfinished trailing sequence, or [None] on bytes that are
    not UTF-8. *)
Fixpoint utf8_scan (bs : bytes) : option (bytes * bytes) :=
  match bs with
  | [] => Some ([], [])
  | b1 :: r1 =>
      match utf8_length b1 with
      | 1 => emit [b1] (utf8_scan r1)
      | 2 =>
          match r1 with
          | [] => Some ([], [b1])
          | b2 :: r2 =>
              if utf8_second b1 b2 then emit [b1; b2] (utf8_scan r2) else None
          end
      | 3 =>
          match r1 with
          | [] => Some ([], [b1])
          | b2 :: r2 =>
              if utf8_second b1 b2 then
                match r2 with
                | [] => Some ([], [b1; b2])
                | b3 :: r3 =>
                    if utf8_continuation b3
                    then emit [b1; b2; b3] (utf8_scan r3) else None
                end
              else None
          end
      | 4 =>
          match r1 with
          | [] => Some ([], [b1])
          | b2 :: r2 =>
              if utf8_second b1 b2 then
                match r2 with
                | [] => Some ([], [b1; b2])
                | b3 :: r3 =>
                    if utf8_continuation b3 then
                      match r3 with
                      | [] => Some ([], [b1; b2; b3])
                      | b4 :: r4 =>
                          if utf8_continuation b4
                          then emit [b1; b2; b3; b4] (utf8_scan r4) else None
                      end
                    else None
                end
              else None
          end
      | _ => None
      end
  end.

(** [bytes.decode("utf-8")]: [None] stands for [UnicodeDecodeError]. *)
Definition decode (b : bytes) : option string :=
  match utf8_scan b with
  | Some (out, []) => Some (string_of_list_byte out)
  | _ => None
  end.

(** [codecs.iterdecode(data, "utf-8")]: each chunk goes through one
    incremental decoder, which keeps an unfinished sequence for the next
    chunk; a chunk that decodes to nothing is not yielded; what is left
    unfinished at the end is an error. *)
Fixpoint iterdecode_from (buffer : bytes) (data : list bytes) : option (list string) :=
  match data with
  | [] => match buffer with [] => Some [] | _ :: _ => None end
  | chunk :: data' =>
      match utf8_scan (buffer ++ chunk) with
      | None => None
      | Some (out, pending) =>
          match iterdecode_from pending data' with
          | None => None
          | Some rest =>
              Some (match out with
                    | [] => rest
                    | _ :: _ => string_of_list_byte out :: rest
                    end)
          end
      end
  end.

Definition iterdecode (data : list bytes) : option (list string) :=
  iterdecode_from [] data.

(** [bytes.splitlines()]: lines end at LF, CR or CR LF; the line ends are
    dropped and a final line end opens no further line. *)
Fixpoint splitlines_from (line : bytes) (bs : bytes) : list bytes :=
  match bs with
  | [] => match line with [] => [] | _ :: _ => [rev line] end
  | b :: r =>
      match b with
      | x0a => rev line :: splitlines_from [] r
      | x0d =>
          rev line ::
          match r with
          | x0a :: r' => splitlines_from [] r'
          | _ => splitlines_from [] r
          end
      | _ => splitlines_from (b :: line) r
      end
  end.

Definition splitlines (bs : bytes) : list bytes := splitlines_from [] bs.

(** [bytes.strip()]: ASCII whitespace removed at both ends. *)
Definition is_space (b : byte) : bool :=
  match b with
  | x20 | x09 | x0a | x0d | x0b | x0c => true
  | _ => false
  end.

Fixpoint lstrip (bs : bytes) : bytes :=
  match bs with
  | b :: r => if is_space b then lstrip r else bs
  | [] => []
  end.

Definition strip (bs : bytes) : bytes := rev (lstrip (rev (lstrip bs))).

(** [str.lower()] on the ASCII letters, which is all a header name has. *)
Definition lower_ascii (c : ascii) : ascii :=
  let n := nat_of_ascii c in
  if (Nat.leb 65 n && Nat.leb n 90)%bool then ascii_of_nat (n + 32) else c.

Fixpoint lower (s : string) : string :=
  match s with
  | EmptyString => EmptyString
  | String c s' => String (lower_ascii c) (lower s')
  end.

(** [response.headers.get(name, None)] on the case-insensitive mapping. *)
Fixpoint headers_get (h : list (string * string)) (name : string) : option string :=
  match h with
  | [] => None
  | (k, v) :: h' =>
      if String.eqb (lower k) (lower name) then Some v else headers_get h' name
  end.

(** [d.get(key)] and [d[key] = value] on a dict in insertion order. *)
Fixpoint dict_get {V : Type} (d : list (string * V)) (key : string) : option V :=
  match d with
  | [] => None
  | (k, v) :: d' => if String.eqb k key then Some v else dict_get d' key
  end.

Fixpoint dict_set {V : Type} (d : list (string * V)) (key : string) (value : V)
  : list (string * V) :=
  match d with
  | [] => [(key, value)]
  | (k, v) :: d' =>
      if String.eqb k key then (k, value) :: d' else (k, v) :: dict_set d' key value
  end.

(** [d.update(other)]. *)
Definition dict_update {V : Type} (d other : list (string * V)) : list (string * V) :=
  fold_left (fun acc kv => dict_set acc (fst kv) (snd kv)) other d.

(** ** [csv.reader]

    The reader of the [csv] module in its default dialect, which is the
    one [read_csv] asks for apart from the delimiter: the double quote
    as quote character, written twice inside a quoted field, no escape
    character, no skipping of initial spaces, not strict; a NUL in a line
    is a character like any other (Python 3.11 and later).  The text is
    scanned byte by byte: the characters the reader tells apart are
    ASCII, and no byte of a longer UTF-8 sequence is. *)

Inductive csv_state : Type :=
| START_RECORD
| START_FIELD
| IN_FIELD
| IN_QUOTED_FIELD
| QUOTE_IN_QUOTED_FIELD
| EAT_CRNL.

Definition csv_state_eqb (a b : csv_state) : bool :=
  match a, b with
  | START_RECORD, START_RECORD | START_FIELD, START_FIELD | IN_FIELD, IN_FIELD
  | IN_QUOTED_FIELD, IN_QUOTED_FIELD
  | QUOTE_IN_QUOTED_FIELD, QUOTE_IN_QUOTED_FIELD | EAT_CRNL, EAT_CRNL => true
  | _, _ => false
  end.

(** The reader object: [field] holds the characters of the field being
    read, last first, [field_len] how many characters that is, [fields]
    the fields of the record so far, last first. *)
Record Reader : Type := mkReader {
  state : csv_state;
  field : list ascii;
  field_len : N;
  fields : list string
}.

Definition parse_reset : Reader := mkReader START_RECORD [] 0 [].

Definition field_limit : N := 131072.

Definition set_state (st : csv_state) (r : Reader) : Reader :=
  mkReader st (field r) (field_len r) (fields r).

Definition parse_save_field (r : Reader) : Reader :=
  mkReader (state r) [] 0 (string_of_list_ascii (rev (field r)) :: fields r).

(** A byte that starts a character counts towards the field limit. *)
Definition starts_char (c : ascii) : bool :=
  negb (Nat.leb 128 (nat_of_ascii c) && Nat.leb (nat_of_ascii c) 191)%bool.

Definition parse_add_char (r : Reader) (c : ascii) : option Reader :=
  if starts_char c then
    if N.leb field_limit (field_len r) then None
    else Some (mkReader (state r) (c :: field r) (field_len r + 1) (fields r))
  else Some (mkReader (state r) (c :: field r) (field_len r) (fields r)).

(** What the reader is fed: a character of the line, or the end of it. *)
Inductive csv_char : Type :=
| Chr (c : ascii)
| EOL.

Definition is_newline (c : ascii) : bool :=
  (Ascii.eqb c "010" || Ascii.eqb c "013")%bool.

Definition quotechar : ascii := "034".

Definition start_field (delimiter : ascii) (r : Reader) (c : csv_char) : option Reader :=
  match c with
  | EOL => Some (set_state START_RECORD (parse_save_field r))
  | Chr a =>
      if is_newline a then Some (set_state EAT_CRNL (parse_save_field r))
      else if Ascii.eqb a quotechar then Some (set_state IN_QUOTED_FIELD r)
      else if Ascii.eqb a delimiter then Some (parse_save_field r)
      else option_map (set_state IN_FIELD) (parse_add_char r a)
  end.

Definition parse_process_char (delimiter : ascii) (r : Reader) (c : csv_char)
  : option Reader :=
  match state r with
  | START_RECORD =>
      match c with
      | EOL => Some r
      | Chr a =>
          if is_newline a then Some (set_state EAT_CRNL r)
          else start_field delimiter (set_state START_FIELD r) c
      end
  | START_FIELD => start_field delimiter r c
  | IN_FIELD =>
      match c with
      | EOL => Some (set_state START_RECORD (parse_save_field r))
      | Chr a =>
          if is_newline a then Some (set_state EAT_CRNL (parse_save_field r))
          else if Ascii.eqb a delimiter
               then Some (set_state START_FIELD (parse_save_field r))
               else parse_add_char r a
      end
  | IN_QUOTED_FIELD =>
      match c with
      | EOL => Some r
      | Chr a =>
          if Ascii.eqb a quotechar then Some (set_state QUOTE_IN_QUOTED_FIELD r)
          else parse_add_char r a
      end
  | QUOTE_IN_QUOTED_FIELD =>
      match c with
      | EOL => Some (set_state START_RECORD (parse_save_field r))
      | Chr a =>
          if Ascii.eqb a quotechar
          then option_map (set_state IN_QUOTED_FIELD) (parse_add_char r a)
          else if Ascii.eqb a delimiter
               then Some (set_state START_FIELD (parse_save_field r))
               else if is_newline a
                    then Some (set_state EAT_CRNL (parse_save_field r))
                    else option_map (set_state IN_FIELD) (parse_add_char r a)
      end
  | EAT_CRNL =>
      match c with
      | EOL => Some (set_state START_RECORD r)
      | Chr a => if is_newline a then Some r else None
      end
  end.

(** One line through the reader, its end included. *)
Fixpoint parse_line (delimiter : ascii) (r : Reader) (line : string) : option Reader :=
  match line with
  | EmptyString => parse_process_char delimiter r EOL
  | String a line' =>
      match parse_process_char delimiter r (Chr a) with
      | Some r' => parse_line delimiter r' line'
      | None => None
      end
  end.

(** All the rows the reader yields: a record is complete when a line
    leaves the reader at the start of a record; input that ends inside a
    record closes it.  [None] stands for [csv.Error]. *)
Fixpoint reader_rows (delimiter : ascii) (r : Reader) (lines : list string)
  : option (list (list string)) :=
  match lines with
  | [] =>
      if (negb (N.eqb (field_len r) 0) || csv_state_eqb (state r) IN_QUOTED_FIELD)%bool
      then Some [rev (fields (parse_save_field r))]
      else Some []
  | line :: lines' =>
      match parse_line delimiter r line with
      | None => None
      | Some r' =>
          if csv_state_eqb (state r') START_RECORD
          then option_map (cons (rev (fields r')))
                          (reader_rows delimiter parse_reset lines')
          else reader_rows delimiter r' lines'
      end
  end.

Definition csv_reader (lines : list string) (delimiter : ascii)
  : option (list (list string)) :=
  reader_rows delimiter parse_reset lines.

(** [read_csv], consumed whole as [list(read_csv(...))] does; [None] is
    any exception raised on the way. *)
Definition read_csv (data : list bytes) (delimiter : ascii)
  : option (list (list string)) :=
  match iterdecode data with
  | Some lines => csv_reader lines delimiter
  | None => None
  end.

(** ** [urllib.parse.urlencode] on a dict of strings *)

Definition hex_digit (n : N) : ascii :=
  ascii_of_N (if N.ltb n 10 then 48 + n else 55 + n).

Definition always_safe (c : ascii) : bool :=
  let n := nat_of_ascii c in
  ((Nat.leb 65 n && Nat.leb n 90) || (Nat.leb 97 n && Nat.leb n 122)
   || (Nat.leb 48 n && Nat.leb n 57)
   || Ascii.eqb c "_" || Ascii.eqb c "." || Ascii.eqb c "-" || Ascii.eqb c "~")%bool.

Fixpoint quote_plus (s : string) : string :=
  match s with
  | EmptyString => EmptyString
  | String c s' =>
      if always_safe c then String c (quote_plus s')
      else if Ascii.eqb c " " then String "+" (quote_plus s')
      else String "%" (String (hex_digit (N_of_ascii c / 16))
                         (String (hex_digit (N_of_ascii c mod 16)) (quote_plus s')))
  end.

Definition urlencode (query : list (string * string)) : string :=
  String.concat "&"
    (map (fun kv => (quote_plus (fst kv) ++ "=" ++ quote_plus (snd kv))%string) query).

(** ** The libraries the module calls

    [json.loads] and [zipfile.ZipFile] on the bytes of a body, with
    [None] for any exception they raise, and [str()] of a value as an
    f-string renders it.  An archive is the list of its entries, name and
    extracted data, in the order of the archive. *)
Class PyLib : Type := {
  json_loads : bytes -> option json;
  ZipFile : bytes -> option (list (string * bytes));
  py_str : json -> string
}.

Definition namelist (archive : list (string * bytes)) : list string :=
  map fst archive.

(** [ZipFile.read(name)]: of two entries of one name the later is read. *)
Definition zip_read (archive : list (string * bytes)) (name : string) : option bytes :=
  option_map snd (find (fun entry => String.eqb (fst entry) name) (rev archive)).

(** ** The server *)

Inductive reply : Type :=
| Served (r : Response)
| Refused                    (* the transport raises ConnectionError *)
| Failed (kind : string).    (* the transport raises something else *)

(** The environment of the client: how the other side answers its
    [n]-th request, and how many requests it has had. *)
Record Net : Type := mkNet {
  server : nat -> request -> reply;
  served : nat
}.

Definition answer (w : World Net) (rq : request) : reply :=
  server (env w) (served (env w)) rq.

Definition after (rq : request) (w : World Net) : World Net :=
  mkWorld (mkNet (server (env w)) (S (served (env w)))) (trace w ++ [EvRequest rq]).

Definition send (rq : request) : M Net Response :=
  fun w =>
    (match answer w rq with
     | Served r => Ret r
     | Refused => Raise ConnectionError
     | Failed kind => Raise (RequestException kind)
     end, after rq w).

Definition out_of_fuel {A : Type} : M Net A := fun w => (OutOfFuel, w).

Definition lift {A : Type} (o : outcome A) : M Net A := fun w => (o, w).

(** [from w] the server answers the request [rq] with the responses [rs],
    one after the other. *)
Fixpoint answers (sv : nat -> request -> reply) (k : nat) (rq : request)
         (rs : list Response) : Prop :=
  match rs with
  | [] => True
  | r :: rs' => sv k rq = Served r /\ answers sv (S k) rq rs'
  end.

(** Modelled from the spec: the decorator [exception_handler] of
    [api_call.arium.api.exceptions], which is not among the sources.  It is
    the outer collaborator that presents and logs a failure of the call it
    wraps; the failure still surfaces to the caller. *)
Definition exception_handler {A : Type} (f : M Net A) : M Net A := f.

(** ** [get_content] *)

(** The keyword arguments of [get_content]. *)
Record options : Type := mkOptions {
  accept : option (list Z);
  load : bool;
  get_from_location : bool;
  verify : bool;
  csv_content : bool;
  unzip : bool
}.

Definition defaults : options := mkOptions None true true true false true.

Definition with_accept (a : list Z) (o : options) : options :=
  mkOptions (Some a) (load o) (get_from_location o) (verify o) (csv_content o) (unzip o).

Definition with_get_from_location (b : bool) (o : options) : options :=
  mkOptions (accept o) (load o) b (verify o) (csv_content o) (unzip o).

Definition OK : Z := 200.
Definition ACCEPTED : Z := 202.
Definition NO_CONTENT : Z := 204.
Definition PROCESSING : Z := 102.

Definition accepted (response : Response) (o : options) : bool :=
  existsb (Z.eqb (status_code response))
          (match accept o with None => [OK; NO_CONTENT] | Some a => a end).

(** The [Location] header when the response has one that is not empty:
    [response.headers.get("Location", None)] under [if location_header:]. *)
Definition location_of (response : Response) : option string :=
  match headers_get (headers response) "Location" with
  | Some location_header =>
      if String.eqb location_header "" then None else Some location_header
  | None => None
  end.

Section Client.
Context {lib : PyLib}.

(** The body of the [try] in [get_content]; [None] when it raises. *)
Definition parse (response : Response) (o : options) : option Content :=
  if negb (csv_content o) then
    option_map Structured (json_loads (content response))
  else
    match (if unzip o then
             match ZipFile (content response) with
             | Some input_zip =>
                 match namelist input_zip with
                 | name :: _ => zip_read input_zip name
                 | [] => None
                 end
             | None => None
             end
           else Some (content response)) with
    | Some content => option_map Tabular (read_csv (splitlines content) ",")
    | None => None
    end.

(** What [get_content] does with the response it ends up with. *)
Definition decode_response (response : Response) (o : options) : outcome Content :=
  if negb (load o) then Ret (RawBytes (content response))
  else
    match parse response o with
    | Some content => Ret content
    | None =>
        match decode (content response) with
        | Some text => Ret (Text text)
        | None => Raise UnicodeDecodeError
        end
    end.

(** The function [get_content] as written, under its decorators. *)
Definition get_content_body (response : Response) (o : options) : M Net Content :=
  if accepted response o then
    response <- (if get_from_location o then
                   match location_of response with
                   | Some location_header =>
                       send (RequestsGet location_header (verify o))
                   | None => ret response
                   end
                 else ret response) ;;
    lift (decode_response response o)
  else raise (AriumAPACResponseException response).

Definition get_content (response : Response) (o : options) : M Net Content :=
  exception_handler (retry 10 (get_content_body response o)).

(** ** Reading a decoded value *)

(** [content[key]]. *)
Definition getitem (content : Content) (key : string) : outcome json :=
  match content with
  | Structured (JObject fields) =>
      match dict_get fields key with
      | Some v => Ret v
      | None => Raise (KeyError key)
      end
  | _ => Raise TypeError
  end.

(** An f-string field: a [str] as it is, anything else through [str()]. *)
Definition format (v : json) : string :=
  match v with
  | JString s => s
  | _ => py_str v
  end.

(** [type(content)] as [str.format] prints it. *)
Definition type_name (content : Content) : string :=
  ("<class '" ++
  match content with
  | RawBytes _ => "bytes"
  | Text _ => "str"
  | Tabular _ => "list"
  | Structured JNull => "NoneType"
  | Structured (JBool _) => "bool"
  | Structured (JInt _) => "int"
  | Structured (JFloat _) => "float"
  | Structured (JString _) => "str"
  | Structured (JArray _) => "list"
  | Structured (JObject _) => "dict"
  end ++ "'>")%string.

(** [v in ("uploading", "processing")]. *)
Definition in_flight (v : json) : bool :=
  match v with
  | JString s => (String.eqb s "uploading" || String.eqb s "processing")%bool
  | _ => false
  end.

(** ** The asset verbs

    The [client] argument of the source is the [World] itself. *)

Definition asset_endpoint (collection : string) (asset_id : json) : string :=
  ("/{tenant}/" ++ collection ++ "/assets/" ++ format asset_id)%string.

Definition asset_get (collection : string) (asset_id : json) (status : bool)
  : M Net Content :=
  exception_handler
    (let endpoint := asset_endpoint collection asset_id in
     response <- send (ClientGet endpoint) ;;
     content <- get_content response defaults ;;
     ret content).

Definition list_endpoint (collection : string) (latest : bool) : string :=
  ("/{tenant}/" ++ collection ++ "/assets?latest="
     ++ (if latest then "true" else "false"))%string.

Definition asset_list (collection : string) (latest : bool) : M Net json :=
  exception_handler
    (let endpoint := list_endpoint collection latest in
     response <- send (ClientGet endpoint) ;;
     content <- get_content response defaults ;;
     match content with
     | Structured (JObject _) =>
         _ <- lift (getitem content "count") ;;
         _ <- lift (getitem content "total") ;;
         lift (getitem content "content")
     | _ => raise (Exception ("Unexpected content type: " ++ type_name content ++ ".")%string)
     end).

(** The [while] loop of [asset_polling]; [fuel] bounds its passes. *)
Fixpoint asset_polling_loop (fuel : nat) (collection : string) (asset_id : json)
         (asset : Content) : M Net Content :=
  status <- lift (getitem asset "status") ;;
  if in_flight status then
    match fuel with
    | O => out_of_fuel
    | S fuel' =>
        asset <- asset_get collection asset_id false ;;
        sleep 1 ;;
        asset_polling_loop fuel' collection asset_id asset
    end
  else ret asset.

Definition asset_polling (fuel : nat) (collection : string) (asset_id : json)
  : M Net json :=
  asset <- asset_get collection asset_id false ;;
  asset <- asset_polling_loop fuel collection asset_id asset ;;
  lift (getitem asset "status").

Definition db_endpoint (db collection : string) (copy_id : json) : string :=
  ("/{tenant}/" ++ collection ++ "/assets/" ++ db ++ "/" ++ format copy_id)%string.

Definition db_accept : list Z := [OK; ACCEPTED; PROCESSING].

Fixpoint _assets_db_polling_loop (fuel : nat) (db collection : string) (copy_id : json)
         (content : Content) : M Net Content :=
  state <- lift (getitem content "state") ;;
  if in_flight state then
    match fuel with
    | O => out_of_fuel
    | S fuel' =>
        response <- send (ClientGet (db_endpoint db collection copy_id)) ;;
        content <- get_content response (with_accept db_accept defaults) ;;
        sleep 1 ;;
        _assets_db_polling_loop fuel' db collection copy_id content
    end
  else ret content.

Definition _assets_db_polling (fuel : nat) (db collection : string) (copy_id : json)
  : M Net Content :=
  response <- send (ClientGet (db_endpoint db collection copy_id)) ;;
  content <- get_content response (with_accept db_accept defaults) ;;
  _assets_db_polling_loop fuel db collection copy_id content.

Definition copy_workspace_polling (fuel : nat) (collection : string) (copy_id : json)
  : M Net Content :=
  _assets_db_polling fuel "copy" collection copy_id.

Definition import_polling (fuel : nat) (collection : string) (copy_id : json)
  : M Net Content :=
  _assets_db_polling fuel "import" collection copy_id.

(** [data.encode("utf-8")] on a [Union[str, Dict]]. *)
Definition encode_payload (data : payload) : outcome bytes :=
  match data with
  | PStr s => Ret (encode s)
  | PJson _ => Raise AttributeError
  end.

Definition post_endpoint (collection asset_name : string)
           (params : option (list (string * string))) (presigned : bool) : string :=
  let url_params :=
    [("assetName", asset_name)]
      ++ (if presigned then [("assetPayloadMode", "True")] else []) in
  let url_params :=
    match params with
    | Some params => dict_update url_params params
    | None => url_params
    end in
  ("/{tenant}/" ++ collection ++ "/assets?" ++ urlencode url_params)%string.

Definition asset_post_body (fuel : nat) (collection asset_name : string) (data : payload)
           (params : option (list (string * string))) (presigned wait verify : bool)
  : M Net Content :=
  let endpoint := post_endpoint collection asset_name params presigned in
  let json_data := if negb presigned then Some data else None in
  response <- send (ClientPost endpoint json_data) ;;
  let location_header := headers_get (headers response) "Location" in
  content <- get_content response (with_get_from_location false defaults) ;;
  match location_header with
  | None =>
      _ <- lift (getitem content "id") ;;
      ret content
  | Some location_header =>
      stream <- lift (encode_payload data) ;;
      _ <- send (RequestsPut location_header (strip stream) verify) ;;
      (if wait then
         asset_id <- lift (getitem content "id") ;;
         _ <- asset_polling fuel collection asset_id ;;
         ret tt
       else ret tt) ;;
      asset_id <- lift (getitem content "id") ;;
      asset_get collection asset_id false
  end.

Definition asset_post (fuel : nat) (collection asset_name : string) (data : payload)
           (params : option (list (string * string))) (presigned wait verify : bool)
  : M Net Content :=
  exception_handler
    (retry 10 (asset_post_body fuel collection asset_name data params presigned wait verify)).

End Client.

(** ** Vocabulary of the statements *)

(** The response whose body [get_content] decodes, and the world it is
    decoded in: the response it was given, or the one a GET of its
    [Location] has just returned. *)
Inductive fetched (o : options) (r : Response) (w : World Net)
  : Response -> World Net -> Prop :=
| fetched_direct :
    get_from_location o = false \/ location_of r = None ->
    fetched o r w r w
| fetched_redirect (url : string) (r' : Response) :
    get_from_location o = true ->
    location_of r = Some url ->
    answer w (RequestsGet url (verify o)) = Served r' ->
    fetched o r w r' (after (RequestsGet url (verify o)) w).

(** The ways a call of [get_content] on an accepted response can end. *)
Definition decoder_outcome (r : Response) (o : options) (out : outcome Content) : Prop :=
  match out with
  | Ret _ => True
  | Raise UnicodeDecodeError => load o = true
  | Raise ConnectionError | Raise (RequestException _) =>
      get_from_location o = true /\ location_of r <> None
  | _ => False
  end.

Section Observations.
Context {lib : PyLib}.

(** A response that [get_content], called with its defaults, turns into
    the JSON value [j] without a further request. *)
Definition decodes_to (r : Response) (j : json) : Prop :=
  accepted r defaults = true /\ location_of r = None
  /\ json_loads (content r) = Some j.

(** A status check answered by [r] reads the status [s]. *)
Definition observes (r : Response) (s : json) : Prop :=
  exists j, decodes_to r j /\ getitem (Structured j) "status" = Ret s.

(** A status check answered by [r] reads a status that keeps the poller
    going. *)
Definition pending (r : Response) : Prop :=
  exists s, observes r s /\ in_flight s = true.

End Observations.

(** The request [asset_post] opens with. *)
Definition post_request (collection asset_name : string) (data : payload)
           (params : option (list (string * string))) (presigned : bool) : request :=
  ClientPost (post_endpoint collection asset_name params presigned)
             (if negb presigned then Some data else None).

(** The trace of a polling that goes [n] times through its loop. *)
Definition checks (endpoint : string) (n : nat) : list event :=
  EvRequest (ClientGet endpoint)
  :: List.concat (repeat [EvRequest (ClientGet endpoint); EvSleep 1] n).

(** ** The other verbs *)

(** [s.endswith(suffix)]. *)
Definition endswith (s suffix : string) : bool :=
  let n := String.length s in
  let m := String.length suffix in
  (Nat.leb m n && String.eqb (substring (n - m) m s) suffix)%bool.

(** The characters of a text, each the bytes of one UTF-8 sequence. *)
Fixpoint chars_from (current : string) (s : string) : list string :=
  match s with
  | EmptyString =>
      match current with
      | EmptyString => []
      | String _ _ => [current]
      end
  | String c s' =>
      if starts_char c then
        match current with
        | EmptyString => chars_from (String c EmptyString) s'
        | String _ _ => current :: chars_from (String c EmptyString) s'
        end
      else chars_from (current ++ String c EmptyString)%string s'
  end.

Definition chars (s : string) : list string := chars_from EmptyString s.

(** [list(content)]: the elements of a list, the keys of a dict, the
    characters of a text, the numbers of the bytes; [None] and the
    numbers are not iterable. *)
Definition iterate (content : Content) : outcome (list json) :=
  match content with
  | RawBytes b => Ret (map (fun x => JInt (Z.of_N (code x))) b)
  | Text s => Ret (map JString (chars s))
  | Tabular rows => Ret (map (fun row => JArray (map JString row)) rows)
  | Structured (JString s) => Ret (map JString (chars s))
  | Structured (JArray items) => Ret items
  | Structured (JObject fields) => Ret (map (fun kv => JString (fst kv)) fields)
  | Structured _ => Raise TypeError
  end.

(** [l.pop()]; on an empty list Python raises
    [IndexError("pop from empty list")], kept here by its message. *)
Definition pop (l : list json) : outcome json :=
  match rev l with
  | x :: _ => Ret x
  | [] => Raise (Exception "pop from empty list")
  end.

(** [csv.Error], whatever its message. *)
Definition csv_Error : exn := Exception "_csv.Error".

(** [read_csv] as a generator that is consumed to its end: the lines are
    decoded and read one at a time, so that of a line that is not UTF-8
    and a line the reader refuses, the earlier decides which exception
    is raised. *)
Fixpoint read_csv_rows (delimiter : ascii) (buffer : bytes) (r : Reader)
         (data : list bytes) : outcome (list (list string)) :=
  match data with
  | [] =>
      match buffer with
      | _ :: _ => Raise UnicodeDecodeError
      | [] =>
          if (negb (N.eqb (field_len r) 0)
              || csv_state_eqb (state r) IN_QUOTED_FIELD)%bool
          then Ret [rev (fields (parse_save_field r))]
          else Ret []
      end
  | chunk :: data' =>
      match utf8_scan (buffer ++ chunk) with
      | None => Raise UnicodeDecodeError
      | Some ([], pending) => read_csv_rows delimiter pending r data'
      | Some (out, pending) =>
          match parse_line delimiter r (string_of_list_byte out) with
          | None => Raise csv_Error
          | Some r' =>
              if csv_state_eqb (state r') START_RECORD then
                match read_csv_rows delimiter pending parse_reset data' with
                | Ret rows => Ret (rev (fields r') :: rows)
                | failure => failure
                end
              else read_csv_rows delimiter pending r' data'
          end
      end
  end.

(** What a generator of the module yields. *)
Inductive item : Type :=
| ItemResponse (r : Response)
| ItemRow (row : list string)
| ItemContent (c : Content).

Section Verbs.
Context {lib : PyLib}.

Definition reports_endpoint (collection : string) (asset_id : json) : string :=
  ("/{tenant}/" ++ collection ++ "/assets/" ++ format asset_id ++ "/reports")%string.

Definition asset_list_reports (collection : string) (asset_id : json) (status : bool)
  : M Net Content :=
  exception_handler
    (let endpoint := reports_endpoint collection asset_id in
     response <- send (ClientGet endpoint) ;;
     content <- get_content response defaults ;;
     ret content).

Definition report_endpoint (collection : string) (asset_id : json) (file : string)
  : string :=
  ("/{tenant}/" ++ collection ++ "/assets/" ++ format asset_id ++ "/reports/" ++ file)%string.

Definition asset_get_report (collection : string) (asset_id : json) (file : string)
           (status csv_content unzip load : bool) : M Net Content :=
  exception_handler
    (let endpoint := report_endpoint collection asset_id file in
     response <- send (ClientGet endpoint) ;;
     let unzip := (unzip && endswith file ".zip")%bool in
     content <- get_content response (mkOptions None load true true csv_content unzip) ;;
     ret content).

Definition description_endpoint (collection : string) (asset_id : json) : string :=
  ("/{tenant}/" ++ collection ++ "/assets/" ++ format asset_id ++ "/description")%string.

Definition asset_set_description (collection : string) (asset_id : json)
           (description : string) : M Net Content :=
  exception_handler
    (let endpoint := description_endpoint collection asset_id in
     response <- send (ClientPut endpoint (Some description)) ;;
     content <- get_content response defaults ;;
     ret content).

Definition rename_endpoint (collection : string) (asset_id : json) (asset_name : string)
  : string :=
  ("/{tenant}/" ++ collection ++ "/assets/" ++ format asset_id
     ++ "/move?assetName=" ++ asset_name)%string.

Definition asset_rename (collection : string) (asset_id : json) (asset_name : string)
  : M Net json :=
  exception_handler
    (let endpoint := rename_endpoint collection asset_id asset_name in
     response <- send (ClientPut endpoint None) ;;
     content <- get_content response defaults ;;
     elements <- lift (iterate content) ;;
     lift (pop elements)).

Definition versions_endpoint (collection : string) (asset_id : json) : string :=
  ("/{tenant}/" ++ collection ++ "/assets/" ++ format asset_id ++ "/versions")%string.

Definition asset_versions (collection : string) (asset_id : json) : M Net Content :=
  exception_handler
    (let endpoint := versions_endpoint collection asset_id in
     response <- send (ClientGet endpoint) ;;
     content <- get_content response defaults ;;
     match content with
     | Structured (JArray _) | Tabular _ => ret content
     | _ => raise (Exception ("Unexpected content type: " ++ type_name content ++ ".")%string)
     end).

Definition asset_get_description (collection : string) (asset_id : json) : M Net json :=
  exception_handler
    (let endpoint := asset_endpoint collection asset_id in
     response <- send (ClientGet endpoint) ;;
     content <- get_content response defaults ;;
     lift (getitem content "description")).

Definition payload_description_endpoint (collection : string) (asset_id : json) : string :=
  ("/{tenant}/" ++ collection ++ "/assets/" ++ format asset_id
     ++ "/payload/description")%string.

Definition asset_get_payload_description (collection : string) (asset_id : json)
  : M Net Content :=
  exception_handler
    (let endpoint := payload_description_endpoint collection asset_id in
     response <- send (ClientGet endpoint) ;;
     content <- get_content response defaults ;;
     ret content).

Definition asset_update_payload_description (collection : string) (asset_id : json)
           (payload_description : string) : M Net Content :=
  exception_handler
    (let endpoint := payload_description_endpoint collection asset_id in
     response <- send (ClientPut endpoint (Some payload_description)) ;;
     content <- get_content response defaults ;;
     ret content).

Definition asset_delete (collection : string) (asset_id : json) : M Net Content :=
  exception_handler
    (let endpoint := asset_endpoint collection asset_id in
     response <- send (ClientDelete endpoint) ;;
     content <- get_content response defaults ;;
     ret content).

Definition copy_endpoint (collection : string) (asset_id : json) (asset_name : string)
  : string :=
  ("/{tenant}/" ++ collection ++ "/assets/" ++ format asset_id
     ++ "/copy?assetName=" ++ asset_name)%string.

Definition asset_copy (collection : string) (asset_id : json) (asset_name : string)
  : M Net Content :=
  exception_handler
    (let endpoint := copy_endpoint collection asset_id asset_name in
     response <- send (ClientPost endpoint None) ;;
     content <- get_content response defaults ;;
     ret content).

Definition lock_endpoint (collection : string) (asset_id : json) (locked : bool) : string :=
  let url_locked := if locked then "lock" else "unlock" in
  ("/{tenant}/" ++ collection ++ "/assets/" ++ format asset_id ++ "/" ++ url_locked)%string.

Definition asset_lock (collection : string) (asset_id : json) (locked : bool)
  : M Net Content :=
  exception_handler
    (let endpoint := lock_endpoint collection asset_id locked in
     response <- send (ClientPut endpoint None) ;;
     content <- get_content response defaults ;;
     ret content).

Definition empty_endpoint (collection : string) : string :=
  ("/{tenant}/" ++ collection ++ "/assets/empty")%string.

Definition asset_is_empty (collection : string) : M Net json :=
  exception_handler
    (let endpoint := empty_endpoint collection in
     response <- send (ClientGet endpoint) ;;
     content <- get_content response defaults ;;
     _ <- lift (getitem content "empty") ;;
     lift (getitem content "empty")).

(** The JSON body of the copy request: [asset_ids] that is [None] or
    empty adds no key. *)
Definition copy_workspace_request (from_tenant to_tenant : string)
           (asset_ids : option (list string)) : json :=
  JObject ([("from_tenant", JString from_tenant); ("to_tenant", JString to_tenant)]
             ++ match asset_ids with
                | Some (id :: ids) => [("assets", JArray (map JString (id :: ids)))]
                | _ => []
                end).

Definition copy_workspace_endpoint (collection : string) : string :=
  ("/{tenant}/" ++ collection ++ "/assets/copy")%string.

Definition asset_copy_workspace (fuel : nat) (collection from_tenant to_tenant : string)
           (asset_ids : option (list string)) (wait : bool) : M Net Content :=
  exception_handler
    (let request := copy_workspace_request from_tenant to_tenant asset_ids in
     let endpoint := copy_workspace_endpoint collection in
     response <- send (ClientPost endpoint (Some (PJson request))) ;;
     content <- get_content response defaults ;;
     if wait then
       copy_id <- lift (getitem content "id") ;;
       copy_workspace_polling fuel collection copy_id
     else ret content).

Definition data_endpoint (collection : string) (asset_id : json) (get_from_location : bool)
  : string :=
  let url_mode := if get_from_location then "presigned" else "auto" in
  ("/{tenant}/" ++ collection ++ "/assets/" ++ format asset_id
     ++ "/payload?assetPayloadMode=" ++ url_mode)%string.

(** [asset_get_data]; [client_verify] is the [verify] of the client. *)
Definition asset_get_data (client_verify : bool) (collection : string) (asset_id : json)
           (get_from_location : bool) : M Net Content :=
  exception_handler
    (let endpoint := data_endpoint collection asset_id get_from_location in
     response <- send (ClientGet endpoint) ;;
     let get_from_location :=
       match headers_get (headers response) "Location" with
       | Some _ => true
       | None => false
       end in
     content <- get_content response
                            (mkOptions None false get_from_location client_verify false true) ;;
     ret content).

(** [get_csv_content], consumed to its end. *)
Definition get_csv_content (response : Response) (raw : bool) (delimiter : ascii)
  : M Net (list item) :=
  exception_handler
    (if raw then ret [ItemResponse response]
     else
       rows <- lift (read_csv_rows delimiter [] parse_reset
                                   (splitlines (content response))) ;;
       ret (map ItemRow rows)).

(** The body of the generator [get_content_from_url], which runs when the
    generator is consumed. *)
Definition get_content_from_url_body (url : string) (csv_output raw : bool)
           (delimiter : ascii) (verify : bool) : M Net (list item) :=
  if csv_output then
    resp <- send (RequestsGet url verify) ;;
    get_csv_content resp raw delimiter
  else
    resp <- send (RequestsGet url verify) ;;
    if raw then ret [ItemResponse resp]
    else
      content <- get_content resp defaults ;;
      ret [ItemContent content].

(** The call of [get_content_from_url]: what [retry] wraps is a generator
    function, and calling one runs nothing of its body; it returns the
    generator. *)
Definition get_content_from_url (url : string) (csv_output raw : bool)
           (delimiter : ascii) (verify : bool) : M Net (M Net (list item)) :=
  retry 10 (ret (get_content_from_url_body url csv_output raw delimiter verify)).

End Verbs.

(** ** More vocabulary *)

(** The trace of a request that is repeated after [n] refusals, the
    first of them followed by a sleep of [delay]. *)
Fixpoint retried (rq : request) (n : nat) (delay : Z) : list event :=
  match n with
  | O => [EvRequest rq]
  | S n' => EvRequest rq :: EvSleep delay :: retried rq n' (delay * 2)
  end.

Definition total (durations : list Z) : Z := fold_right Z.add 0%Z durations.

(** How a call of [get_content] that follows a [Location] ends on the
    answer to its GET. *)
Definition reply_outcome {lib : PyLib} (o : options) (answer : reply) : outcome Content :=
  match answer with
  | Served r' => decode_response r' o
  | Refused => Raise ConnectionError
  | Failed kind => Raise (RequestException kind)
  end.

(** A verb that opens with the request [rq] and passes on the refusal
    of a status: answered with a status outside 200 and 204 it raises
    [AriumAPACResponseException] with the response, having sent that one
    request. *)
Definition rejects {A : Type} (verb : M Net A) (rq : request) : Prop :=
  forall (sv : nat -> request -> reply) (k : nat) (tr : list event) (r : Response),
    sv k rq = Served r ->
    accepted r defaults = false ->
    verb (mkWorld (mkNet sv k) tr)
    = (Raise (AriumAPACResponseException r),
       mkWorld (mkNet sv (S k)) (tr ++ [EvRequest rq])).

(** A verb that does not try again: when its request [rq] fails to
    connect, the error reaches the caller after that one request and no
    sleep. *)
Definition gives_way {A : Type} (verb : M Net A) (rq : request) : Prop :=
  forall (sv : nat -> request -> reply) (k : nat) (tr : list event),
    sv k rq = Refused ->
    verb (mkWorld (mkNet sv k) tr)
    = (Raise ConnectionError, mkWorld (mkNet sv (S k)) (tr ++ [EvRequest rq])).

Section JobObservations.
Context {lib : PyLib}.

(** A response that the poller of the copy and import jobs, which
    accepts 200, 202 and 102, turns into the JSON value [j] without a
    further request. *)
Definition job_decodes_to (r : Response) (j : json) : Prop :=
  accepted r (with_accept db_accept defaults) = true /\ location_of r = None
  /\ json_loads (content r) = Some j.

(** A check of a job answered by [r] reads the state [s]. *)
Definition job_observes (r : Response) (s : json) : Prop :=
  exists j, job_decodes_to r j /\ getitem (Structured j) "state" = Ret s.

Definition job_pending (r : Response) : Prop :=
  exists s, job_observes r s /\ in_flight s = true.

End JobObservations.

(** ** Plain tables

    The tables whose CSV text needs no quoting: a character of a line is
    ASCII and neither CR nor LF; a character of a plain field is moreover
    neither the double quote nor the comma. *)

Definition line_char (c : ascii) : bool :=
  (negb (is_newline c) && Nat.ltb (nat_of_ascii c) 128)%bool.

Definition plain_char (c : ascii) : bool :=
  (line_char c && negb (Ascii.eqb c quotechar) && negb (Ascii.eqb c ","))%bool.

Fixpoint all_chars (p : ascii -> bool) (s : string) : bool :=
  match s with
  | EmptyString => true
  | String c s' => (p c && all_chars p s')%bool
  end.

(** A field of plain characters, no longer than the reader allows. *)
Definition plain_field (f : string) : Prop :=
  all_chars plain_char f = true /\ (N.of_nat (String.length f) <= field_limit)%N.

(** A row of plain fields whose line is not empty: at least one field,
    and not the empty field alone. *)
Definition plain_row (row : list string) : Prop :=
  row <> [] /\ row <> [EmptyString] /\ Forall plain_field row.

(** The text of a table: the fields of a row joined by commas, each row
    ended by LF. *)
Definition csv_line (row : list string) : string := String.concat "," row.

Fixpoint csv_document (rows : list (list string)) : string :=
  match rows with
  | [] => EmptyString
  | row :: rows' => (csv_line row ++ String "010" (csv_document rows'))%string
  end.

(** How often a character occurs in a text. *)
Fixpoint count_char (c : ascii) (s : string) : nat :=
  match s with
  | EmptyString => 0
  | String a s' => (if Ascii.eqb a c then 1 else 0) + count_char c s'
  end.

(** The trace of [n] refusals of a request, the first followed by a
    sleep of [delay]. *)
Fixpoint refused (rq : request) (n : nat) (delay : Z) : list event :=
  match n with
  | O => []
  | S n' => EvRequest rq :: EvSleep delay :: refused rq n' (delay * 2)
  end.

(** ** Examples *)

(** An operation that fails twice and then answers 42. *)
Definition flaky (calls : nat) : outcome Z * nat :=
  (if Nat.ltb calls 2 then Raise ConnectionError else Ret 42%Z, S calls).

(** An operation that never connects. *)
Definition unreachable (calls : nat) : outcome Z * nat :=
  (Raise ConnectionError, S calls).

(** An operation that fails once and then raises a [KeyError]. *)
Definition broken (calls : nat) : outcome Z * nat :=
  (if Nat.ltb calls 1 then Raise ConnectionError else Raise (KeyError "id"), S calls).

Definition nl : string := String "010" EmptyString.

Definition quoted (s : string) : string :=
  (String "034" s ++ String "034" EmptyString)%string.

(** The CSV text of the round trip: a,b / 1,2, each line ended by LF. *)
Definition csv_text : string := ("a,b" ++ nl ++ "1,2" ++ nl)%string.

(** A zip archive whose single entry, [data.csv], stores [csv_text]. *)
Definition csv_zip : bytes :=
  [x50; x4b; x03; x04; x14; x00; x00; x00; x00; x00; x00; x00; x21; x50; x7b;
   x07; x97; x0a; x08; x00; x00; x00; x08; x00; x00; x00; x08; x00; x00; x00;
   x64; x61; x74; x61; x2e; x63; x73; x76; x61; x2c; x62; x0a; x31; x2c; x32;
   x0a; x50; x4b; x01; x02; x14; x03; x14; x00; x00; x00; x00; x00; x00; x00;
   x21; x50; x7b; x07; x97; x0a; x08; x00; x00; x00; x08; x00; x00; x00; x08;
   x00; x00; x00; x00; x00; x00; x00; x00; x00; x00; x00; x80; x01; x00; x00;
   x00; x00; x64; x61; x74; x61; x2e; x63; x73; x76; x50; x4b; x05; x06; x00;
   x00; x00; x00; x01; x00; x01; x00; x36; x00; x00; x00; x2e; x00; x00; x00;
   x00; x00].

(** The JSON text of an asset record and the value it stands for. *)
Definition record_text (id status : string) : string :=
  ("{" ++ quoted "id" ++ ": " ++ quoted id ++ ", "
       ++ quoted "status" ++ ": " ++ quoted status ++ "}")%string.

Definition record_value (id status : string) : json :=
  JObject [("id", JString id); ("status", JString status)].

(** The record of a copy job, with its [state]. *)
Definition job_text (id state : string) : string :=
  ("{" ++ quoted "id" ++ ": " ++ quoted id ++ ", "
       ++ quoted "state" ++ ": " ++ quoted state ++ "}")%string.

Definition job_value (id state : string) : json :=
  JObject [("id", JString id); ("state", JString state)].

(** The envelope [asset_list] expects, here with two assets. *)
Definition listing_text : string :=
  ("{" ++ quoted "count" ++ ": 2, " ++ quoted "total" ++ ": 10, "
       ++ quoted "content" ++ ": [" ++ record_text "a1" "ready" ++ ", "
       ++ record_text "a2" "ready" ++ "]}")%string.

Definition listing_value : json :=
  JObject [("count", JInt 2); ("total", JInt 10);
           ("content", JArray [record_value "a1" "ready"; record_value "a2" "ready"])].

Definition json_table : list (string * json) :=
  [ (record_text "a1" "uploading", record_value "a1" "uploading");
    (record_text "a1" "processing", record_value "a1" "processing");
    (record_text "a1" "ready", record_value "a1" "ready");
    (listing_text, listing_value);
    (job_text "c1" "uploading", job_value "c1" "uploading");
    (job_text "c1" "processing", job_value "c1" "processing");
    (job_text "c1" "done", job_value "c1" "done");
    ("[]", JArray []);
    ("{}", JObject []) ].

(** [str()] of the scalars; inside a list or a dict a string is shown
    between single quotes. *)
Fixpoint show (inner : bool) (v : json) : string :=
  match v with
  | JNull => "None"
  | JBool b => if b then "True" else "False"
  | JInt z => DecimalString.NilZero.string_of_int (Z.to_int z)
  | JFloat lexeme => lexeme
  | JString s => if inner then ("'" ++ s ++ "'")%string else s
  | JArray items =>
      ("[" ++ String.concat ", " (map (show true) items) ++ "]")%string
  | JObject fields =>
      ("{" ++ String.concat ", "
                (map (fun kv => ("'" ++ fst kv ++ "': " ++ show true (snd kv))%string)
                     fields) ++ "}")%string
  end.

(** The libraries on the bodies the examples use; any other body is
    reported as one the library rejects. *)
#[local] Instance examples_lib : PyLib := {|
  json_loads := fun b => dict_get json_table (string_of_list_byte b);
  ZipFile := fun b =>
    if String.eqb (string_of_list_byte b) (string_of_list_byte csv_zip)
    then Some [("data.csv", encode csv_text)] else None;
  py_str := show false
|}.

(** A server that answers its requests from a script, whatever they ask,
    and is out of reach once the script is over. *)
Definition scripted (script : list reply) : nat -> request -> reply :=
  fun n _ => nth n script Refused.

Definition world_of (script : list reply) : World Net :=
  mkWorld (mkNet (scripted script) 0) [].

Definition plain (body : bytes) : Response := mkResponse OK [] body.

Definition redirect (url : string) : Response :=
  mkResponse OK [("location", url)] [].

(** [get_content(response, load=False)] and
    [get_content(response, csv_content=True, unzip=...)]. *)
Definition raw_options : options := mkOptions None false true true false true.

Definition csv_options (unzip : bool) : options :=
  mkOptions None true true true true unzip.

(** The word café in Latin-1: its last byte, alone, is not UTF-8. *)
Definition latin1_body : bytes := [x63; x61; x66; xe9].

(** An archive cut short. *)
Definition truncated_zip : bytes := firstn 60 csv_zip.

Definition record_response (id status : string) : Response :=
  plain (encode (record_text id status)).

(** Three status checks: uploading, processing, ready. *)
Definition polling_world : World Net :=
  world_of [Served (record_response "a1" "uploading");
            Served (record_response "a1" "processing");
            Served (record_response "a1" "ready")].

(** A creation answered with a place to upload to, the upload, three
    status checks and the final fetch. *)
Definition upload_world : World Net :=
  world_of [Served (mkResponse OK [("Location", "https://upload/a1")]
                               (encode (record_text "a1" "uploading")));
            Served (plain []);
            Served (record_response "a1" "uploading");
            Served (record_response "a1" "processing");
            Served (record_response "a1" "ready");
            Served (record_response "a1" "ready")].

(** A creation answered with the asset itself, and one answered with an
    empty object. *)
Definition direct_world : World Net :=
  world_of [Served (record_response "a1" "ready")].

Definition empty_object_world : World Net :=
  world_of [Served (plain (encode "{}"))].

Definition listing_world : World Net :=
  world_of [Served (plain (encode listing_text))].

Definition array_world : World Net :=
  world_of [Served (plain (encode "[]"))].

Definition copy_world : World Net :=
  world_of [Served (mkResponse ACCEPTED [] (encode (job_text "c1" "uploading")));
            Served (mkResponse ACCEPTED [] (encode (job_text "c1" "processing")));
            Served (plain (encode (job_text "c1" "done")))].

(** A list of two names, as [asset_rename] may get it. *)
Definition names_text : string :=
  ("[" ++ quoted "draft" ++ ", " ++ quoted "final" ++ "]")%string.

Definition names_value : json := JArray [JString "draft"; JString "final"].

(** The libraries of the examples, knowing one more body. *)
Definition more_lib : PyLib := {|
  json_loads := fun b =>
    dict_get ((names_text, names_value)
                :: (record_text "a2" "uploading", record_value "a2" "uploading")
                :: (record_text "a2" "ready", record_value "a2" "ready")
                :: json_table)
             (string_of_list_byte b);
  ZipFile := @ZipFile examples_lib;
  py_str := show false
|}.

Definition names_world : World Net :=
  world_of [Served (plain (encode names_text))].

(** A server on which the asset never leaves uploading. *)
Definition stuck_server : nat -> request -> reply :=
  fun _ _ => Served (record_response "a1" "uploading").

(** A copy: the job is created, then checked three times. *)
Definition copy_workspace_world : World Net :=
  world_of [Served (plain (encode (job_text "c1" "uploading")));
            Served (mkResponse ACCEPTED [] (encode (job_text "c1" "uploading")));
            Served (mkResponse ACCEPTED [] (encode (job_text "c1" "processing")));
            Served (plain (encode (job_text "c1" "done")))].

Definition report_world : World Net :=
  world_of [Served (plain (encode csv_text))].

Definition presigned_world : World Net :=
  world_of [Served (redirect "https://files/a1"); Served (plain latin1_body)].

(** A creation whose upload fails to connect, and the creation again. *)
Definition upload_again_world : World Net :=
  world_of [Served (mkResponse OK [("Location", "https://upload/a1")]
                               (encode (record_text "a1" "uploading")));
            Refused;
            Served (mkResponse OK [("Location", "https://upload/a2")]
                               (encode (record_text "a2" "uploading")));
            Served (plain []);
            Served (record_response "a2" "ready")].

Definition not_found_csv_world : World Net :=
  world_of [Served (mkResponse 404 [] (encode csv_text))].

(** A table with an empty field and a field with a space. *)
Definition people : list (list string) :=
  [["id"; "name"; "team"]; ["1"; "Ann Lee"; ""]; ["2"; ""; "ops"]].

Definition people_world : World Net :=
  world_of [Served (mkResponse 404 [] (encode (csv_document people)))].


(** A server out of reach twice, which then creates the asset. *)
Definition late_world : World Net :=
  world_of [Refused; Refused; Served (record_response "a1" "ready")].

(** * Properties *)

Section RetryFacts.
Context {Env A : Type}.
Variable op : Env -> outcome A * Env.

Lemma env_after_S (k : nat) (e : Env) :
  env_after op (S k) e = env_after op k (snd (op e)).
Proof. unfold env_after. apply Nat.iter_succ_r. Qed.

Lemma backoff_pow (n : nat) (j : nat) :
  backoff n (2 ^ Z.of_nat j) =
  flat_map (fun k => [EvCall; EvSleep (2 ^ Z.of_nat k)]) (seq j n).
Proof.
  revert j. induction n as [|n IH]; intro j; simpl; [reflexivity|].
  do 2 f_equal. rewrite <- IH. f_equal.
  rewrite Nat2Z.inj_succ, Z.pow_succ_r by lia. lia.
Qed.

Lemma invoke_eq (e : Env) (tr : list event) :
  invoke op (mkWorld e tr) = (fst (op e), mkWorld (snd (op e)) (tr ++ [EvCall])).
Proof. unfold invoke; simpl. destruct (op e); reflexivity. Qed.

Lemma retry_loop_S (r : nat) (delay : Z) (func : M Env A) (w : World Env) :
  retry_loop (S r) delay func w =
  match func w with
  | (Raise e, w') =>
      if is_ConnectionError e
      then retry_loop r (delay * 2) func (record (EvSleep delay) w')
      else (Raise e, w')
  | res => res
  end.
Proof.
  simpl. unfold try_except. destruct (func w) as [[a|e|] w']; try reflexivity.
Qed.

(** The loop, run on an operation whose first [n] invocations fail to
    connect and whose next one either ends otherwise or is the last one
    the loop has left. *)
Lemma retry_loop_run (n : nat) :
  forall (remaining : nat) (delay : Z) (e : Env) (tr : list event),
    (n <= remaining)%nat ->
    (forall k, (k < n)%nat -> fst (op (env_after op k e)) = Raise ConnectionError) ->
    (fst (op (env_after op n e)) <> Raise ConnectionError \/ n = remaining) ->
    retry_loop remaining delay (invoke op) (mkWorld e tr) =
    (fst (op (env_after op n e)),
     mkWorld (env_after op (S n) e) (tr ++ backoff n delay ++ [EvCall])).
Proof.
  induction n as [|n IH]; intros remaining delay e tr Hle Hfail Hlast.
  - change (env_after op 0 e) with e in *.
    change (env_after op 1 e) with (snd (op e)). simpl backoff. simpl app.
    destruct remaining as [|r].
    + simpl. apply invoke_eq.
    + destruct Hlast as [Hne|Heq]; [|discriminate].
      rewrite retry_loop_S, invoke_eq.
      destruct (fst (op e)) as [a|x|]; try reflexivity.
      destruct x; simpl; try reflexivity. congruence.
  - destruct remaining as [|r]; [lia|].
    pose proof (Hfail 0%nat ltac:(lia)) as H0.
    change (env_after op 0 e) with e in H0.
    rewrite retry_loop_S, invoke_eq, H0. simpl is_ConnectionError. cbv iota.
    unfold record; simpl env; simpl trace.
    rewrite (IH r (delay * 2)%Z (snd (op e)) ((tr ++ [EvCall]) ++ [EvSleep delay])).
    + rewrite <- !env_after_S. f_equal. f_equal.
      simpl backoff. rewrite <- !app_assoc. reflexivity.
    + lia.
    + intros k Hk. rewrite <- env_after_S. apply Hfail. lia.
    + rewrite <- env_after_S.
      destruct Hlast as [Hne|Heq]; [left; exact Hne | right; lia].
Qed.

Lemma retry_run (times n : nat) (e : Env) (tr : list event) :
  (n <= times)%nat ->
  (forall k, (k < n)%nat -> fst (op (env_after op k e)) = Raise ConnectionError) ->
  (fst (op (env_after op n e)) <> Raise ConnectionError \/ n = times) ->
  retry times (invoke op) (mkWorld e tr) =
  (fst (op (env_after op n e)),
   mkWorld (env_after op (S n) e) (tr ++ attempts (S n))).
Proof.
  intros Hle Hfail Hlast. unfold retry, attempts.
  rewrite (retry_loop_run n times 1 e tr Hle Hfail Hlast).
  change 1%Z with (2 ^ Z.of_nat 0)%Z at 1. rewrite backoff_pow.
  replace (S n - 1)%nat with n by lia. reflexivity.
Qed.

End RetryFacts.

Section RetryClaims.
Context {Env A : Type}.
Variable op : Env -> outcome A * Env.

Lemma attempts_calls (N : nat) : (1 <= N)%nat -> calls_in (attempts N) = N.
Proof.
  intro HN. unfold attempts, calls_in.
  assert (H : forall n j,
             List.length
               (filter (fun ev => match ev with EvCall => true | _ => false end)
                  (flat_map (fun k => [EvCall; EvSleep (2 ^ Z.of_nat k)]) (seq j n)
                     ++ [EvCall])) = S n).
  { induction n as [|n IH]; intro j; simpl; [reflexivity|]. now rewrite IH. }
  rewrite H. lia.
Qed.

Lemma attempts_sleeps (N : nat) :
  sleeps_in (attempts N) = map (fun k => (2 ^ Z.of_nat k)%Z) (seq 0 (N - 1)).
Proof.
  unfold attempts.
  assert (H : forall n j,
             sleeps_in (flat_map (fun k => [EvCall; EvSleep (2 ^ Z.of_nat k)]) (seq j n)
                          ++ [EvCall])
             = map (fun k => (2 ^ Z.of_nat k)%Z) (seq j n)).
  { induction n as [|n IH]; intro j; simpl; [reflexivity|]. now rewrite IH. }
  apply H.
Qed.

(** C1.  An operation that fails to connect on its first N-1 invocations
    and returns [v] on its N-th, for 1 <= N <= 10: under [retry 10] the
    call returns [v]; the operation has been invoked exactly N times, and
    between two invocations the wrapper has slept, 1, 2, 4, ..., 2^(N-2)
    in this order. *)
Theorem retry_returns_on_Nth_invocation (N : nat) (v : A) (e : Env) (tr : list event) :
  (1 <= N <= 10)%nat ->
  (forall k, (k < N - 1)%nat ->
             fst (op (env_after op k e)) = Raise ConnectionError) ->
  fst (op (env_after op (N - 1) e)) = Ret v ->
  retry 10 (invoke op) (mkWorld e tr)
  = (Ret v, mkWorld (env_after op N e) (tr ++ attempts N))
  /\ calls_in (attempts N) = N
  /\ sleeps_in (attempts N) = map (fun k => (2 ^ Z.of_nat k)%Z) (seq 0 (N - 1)).
Proof.
  intros HN Hfail Hret. split; [|split].
  - destruct N as [|n]; [lia|]. replace (S n - 1)%nat with n in * by lia.
    rewrite (retry_run op 10 n e tr); [now rewrite Hret | lia | exact Hfail |].
    left. rewrite Hret. discriminate.
  - apply attempts_calls. lia.
  - apply attempts_sleeps.
Qed.

(** C5.  Under [retry 10]: an error that is not the connection error,
    raised by an invocation after [n <= 10] failures to connect, reaches
    the caller as it is, the trace ending with that invocation (no sleep
    after it, no further invocation); and when the ten guarded
    invocations all fail to connect, there is one more, the eleventh,
    whose outcome, whatever it is, is the outcome of the call. *)
Theorem retry_propagates (e : Env) (tr : list event) :
  (forall (n : nat) (x : exn),
      (n <= 10)%nat ->
      (forall k, (k < n)%nat ->
                 fst (op (env_after op k e)) = Raise ConnectionError) ->
      fst (op (env_after op n e)) = Raise x ->
      x <> ConnectionError ->
      retry 10 (invoke op) (mkWorld e tr)
      = (Raise x, mkWorld (env_after op (S n) e) (tr ++ attempts (S n)))
      /\ calls_in (attempts (S n)) = S n
      /\ List.length (sleeps_in (attempts (S n))) = n)
  /\ ((forall k, (k < 10)%nat ->
                 fst (op (env_after op k e)) = Raise ConnectionError) ->
      retry 10 (invoke op) (mkWorld e tr)
      = (fst (op (env_after op 10 e)),
         mkWorld (env_after op 11 e) (tr ++ attempts 11))
      /\ calls_in (attempts 11) = 11%nat).
Proof.
  split.
  - intros n x Hn Hfail Hx Hne. split; [|split].
    + rewrite (retry_run op 10 n e tr); [now rewrite Hx | lia | exact Hfail |].
      left. rewrite Hx. congruence.
    + apply attempts_calls. lia.
    + rewrite attempts_sleeps, length_map, length_seq. lia.
  - intro Hfail. split.
    + apply (retry_run op 10 10 e tr); [lia | exact Hfail | now right].
    + reflexivity.
Qed.

End RetryClaims.

(** The operation [flaky] answers on its third invocation. *)
Lemma retry_returns_on_Nth_invocation_witness :
  retry 10 (invoke flaky) (mkWorld 0%nat [])
  = (Ret 42%Z, mkWorld 3%nat [EvCall; EvSleep 1; EvCall; EvSleep 2; EvCall])
  /\ calls_in (attempts 3) = 3%nat
  /\ sleeps_in (attempts 3) = [1%Z; 2%Z].
Proof.
  apply (retry_returns_on_Nth_invocation flaky 3 42%Z 0%nat []).
  - lia.
  - intros k Hk. destruct k as [|[|k]]; [reflexivity | reflexivity | lia].
  - reflexivity.
Defined.

(** [broken] raises a [KeyError] on its second invocation; [unreachable]
    is invoked eleven times. *)
Lemma retry_propagates_witness :
  retry 10 (invoke broken) (mkWorld 0%nat [])
  = (Raise (KeyError "id"), mkWorld 2%nat [EvCall; EvSleep 1; EvCall])
  /\ fst (retry 10 (invoke unreachable) (mkWorld 0%nat [])) = Raise ConnectionError
  /\ calls_in (trace (snd (retry 10 (invoke unreachable) (mkWorld 0%nat [])))) = 11%nat.
Proof.
  destruct (retry_propagates broken 0%nat []) as [Hraise _].
  destruct (retry_propagates unreachable 0%nat []) as [_ Hlast].
  split; [|split].
  - apply (Hraise 1%nat (KeyError "id")).
    + lia.
    + intros k Hk. destruct k as [|k]; [reflexivity | lia].
    + reflexivity.
    + discriminate.
  - rewrite (proj1 (Hlast (fun k _ => eq_refl))). reflexivity.
  - rewrite (proj1 (Hlast (fun k _ => eq_refl))). reflexivity.
Defined.

(** ** The decoder *)

Lemma retry_first_try {Env A : Type} (func : M Env A) (times : nat) (w : World Env) :
  fst (func w) <> Raise ConnectionError ->
  retry times func w = func w.
Proof.
  intro H. unfold retry. destruct times as [|n]; [reflexivity|].
  rewrite retry_loop_S. destruct (func w) as [[a|e|] w']; try reflexivity.
  destruct e; try reflexivity. now elim H.
Qed.

Lemma retry_loop_invariant {Env A : Type} (P : outcome A -> Prop) (func : M Env A) :
  (forall w, P (fst (func w))) ->
  forall n delay w, P (fst (retry_loop n delay func w)).
Proof.
  intros H n. induction n as [|n IH]; intros delay w; [apply H|].
  rewrite retry_loop_S. pose proof (H w) as Hw.
  destruct (func w) as [[a|e|] w']; try exact Hw.
  destruct (is_ConnectionError e); [apply IH | exact Hw].
Qed.

Section DecoderFacts.
Context {lib : PyLib}.

Lemma decode_response_outcome (r r' : Response) (o : options) :
  decoder_outcome r o (decode_response r' o).
Proof.
  unfold decode_response. destruct (load o) eqn:Hload; simpl; [|exact I].
  destruct (parse r' o); simpl; [exact I|].
  destruct (decode (content r')); simpl; [exact I | exact Hload].
Qed.

Lemma decode_response_connects (r : Response) (o : options) :
  decode_response r o <> Raise ConnectionError.
Proof.
  unfold decode_response. destruct (negb (load o)); [discriminate|].
  destruct (parse r o); [discriminate|].
  destruct (decode (content r)); discriminate.
Qed.

Lemma get_content_body_fetched (r r' : Response) (o : options) (w w' : World Net) :
  accepted r o = true ->
  fetched o r w r' w' ->
  get_content_body r o w = (decode_response r' o, w').
Proof.
  intros Hacc Hf. unfold get_content_body. rewrite Hacc.
  destruct Hf as [[Hno|Hno] | url r' Hgfl Hloc Hans].
  - rewrite Hno. reflexivity.
  - rewrite Hno. destruct (get_from_location o); reflexivity.
  - rewrite Hgfl, Hloc. unfold bind, send. rewrite Hans. reflexivity.
Qed.

Lemma get_content_fetched (r r' : Response) (o : options) (w w' : World Net) :
  accepted r o = true ->
  fetched o r w r' w' ->
  get_content r o w = (decode_response r' o, w').
Proof.
  intros Hacc Hf. unfold get_content, exception_handler.
  rewrite retry_first_try; rewrite (get_content_body_fetched r r' o w w' Hacc Hf);
    [reflexivity | apply decode_response_connects].
Qed.

Lemma get_content_rejected (r : Response) (o : options) (w : World Net) :
  accepted r o = false ->
  get_content r o w = (Raise (AriumAPACResponseException r), w).
Proof.
  intro Hacc. unfold get_content, exception_handler.
  rewrite retry_first_try; unfold get_content_body; rewrite Hacc;
    [reflexivity | discriminate].
Qed.

Lemma get_content_body_outcome (r : Response) (o : options) (w : World Net) :
  accepted r o = true ->
  decoder_outcome r o (fst (get_content_body r o w)).
Proof.
  intro Hacc. unfold get_content_body. rewrite Hacc.
  destruct (get_from_location o) eqn:Hgfl;
    [destruct (location_of r) as [url|] eqn:Hloc|];
    try (apply decode_response_outcome).
  unfold bind, send.
  destruct (answer w (RequestsGet url (verify o))); simpl.
  - apply decode_response_outcome.
  - rewrite Hgfl, Hloc. split; [reflexivity | discriminate].
  - rewrite Hgfl, Hloc. split; [reflexivity | discriminate].
Qed.

(** C2, as the code has it.  A response whose status is not accepted makes
    [get_content] raise [AriumAPACResponseException] carrying it, at once;
    a response whose status is accepted never does: the call returns one
    of the four shapes of [Content], or raises [UnicodeDecodeError] (only
    with [load] set), or lets through the failure of the GET of the
    [Location] (only when it had one to follow). *)
Theorem get_content_status_gate (r : Response) (o : options) (w : World Net) :
  ((exists x, fst (get_content r o w) = Raise (AriumAPACResponseException x))
   <-> accepted r o = false)
  /\ (if accepted r o
      then decoder_outcome r o (fst (get_content r o w))
      else get_content r o w = (Raise (AriumAPACResponseException r), w)).
Proof.
  assert (H : if accepted r o
              then decoder_outcome r o (fst (get_content r o w))
              else get_content r o w = (Raise (AriumAPACResponseException r), w)).
  { destruct (accepted r o) eqn:Hacc.
    - unfold get_content, exception_handler, retry.
      apply (retry_loop_invariant (decoder_outcome r o)).
      intro w0. now apply get_content_body_outcome.
    - now apply get_content_rejected. }
  split; [|exact H].
  destruct (accepted r o); split.
  - intros [x Hx]. rewrite Hx in H. contradiction.
  - discriminate.
  - reflexivity.
  - intros _. exists r. now rewrite H.
Qed.

(** C4, as the code has it.  With [load] set and [csv_content] not, on an
    accepted response: a body that [json.loads] parses comes back as the
    value parsed; a body it rejects comes back as its text provided the
    body is UTF-8. *)
Theorem get_content_json_or_text (r r' : Response) (o : options) (w w' : World Net) :
  accepted r o = true ->
  fetched o r w r' w' ->
  load o = true ->
  csv_content o = false ->
  (forall j, json_loads (content r') = Some j ->
             get_content r o w = (Ret (Structured j), w'))
  /\ (forall text, json_loads (content r') = None ->
                   decode (content r') = Some text ->
                   get_content r o w = (Ret (Text text), w')).
Proof.
  intros Hacc Hf Hload Hcsv.
  rewrite (get_content_fetched r r' o w w' Hacc Hf).
  unfold decode_response, parse. rewrite Hload, Hcsv. simpl.
  split.
  - intros j Hj. now rewrite Hj.
  - intros text Hj Ht. now rewrite Hj, Ht.
Qed.

(** C6.  With [load] unset, an accepted response comes back as the bytes
    of its body, or, when its [Location] was followed, as the bytes of
    the body the GET returned. *)
Theorem get_content_raw (r r' : Response) (o : options) (w w' : World Net) :
  accepted r o = true ->
  fetched o r w r' w' ->
  load o = false ->
  get_content r o w = (Ret (RawBytes (content r')), w').
Proof.
  intros Hacc Hf Hload.
  rewrite (get_content_fetched r r' o w w' Hacc Hf).
  unfold decode_response. now rewrite Hload.
Qed.

(** C7.  The text a,b / 1,2 with LF line ends, as the body itself or as
    the single entry of the archive the body is, decodes under [load] and
    [csv_content] to the two rows a,b and 1,2. *)
Theorem get_content_csv_round_trip (r r' : Response) (o : options) (w w' : World Net) :
  accepted r o = true ->
  fetched o r w r' w' ->
  load o = true ->
  csv_content o = true ->
  (if unzip o
   then exists name, ZipFile (content r') = Some [(name, encode csv_text)]
   else content r' = encode csv_text) ->
  get_content r o w = (Ret (Tabular [["a"; "b"]; ["1"; "2"]]), w').
Proof.
  intros Hacc Hf Hload Hcsv Hbody.
  rewrite (get_content_fetched r r' o w w' Hacc Hf).
  unfold decode_response, parse. rewrite Hload, Hcsv. simpl.
  destruct (unzip o).
  - destruct Hbody as [name Hzip]. rewrite Hzip. simpl.
    unfold zip_read. simpl. rewrite String.eqb_refl. reflexivity.
  - rewrite Hbody. reflexivity.
Qed.

(** C10, as the code has it.  With [load] and [csv_content] set, when the
    extraction from the archive or the reading of the rows fails, an
    accepted response comes back as the text of its body provided the
    body is UTF-8. *)
Theorem get_content_csv_failure_text (r r' : Response) (o : options) (w w' : World Net)
        (text : string) :
  accepted r o = true ->
  fetched o r w r' w' ->
  load o = true ->
  csv_content o = true ->
  parse r' o = None ->
  decode (content r') = Some text ->
  get_content r o w = (Ret (Text text), w').
Proof.
  intros Hacc Hf Hload Hcsv Hparse Ht.
  rewrite (get_content_fetched r r' o w w' Hacc Hf).
  unfold decode_response. now rewrite Hload, Hparse, Ht.
Qed.

End DecoderFacts.

(** On an accepted response whose body is the single byte FF the call
    raises [UnicodeDecodeError]: not one of the four shapes, and not the
    error of the status gate. *)
Lemma get_content_invalid_byte_escapes :
  accepted (plain [xff]) defaults = true
  /\ get_content (plain [xff]) defaults (world_of [])
     = (Raise UnicodeDecodeError, world_of []).
Proof. split; reflexivity. Qed.

(** A Latin-1 body is rejected by [json.loads], and the call raises
    instead of returning text. *)
Lemma get_content_latin1_raises :
  accepted (plain latin1_body) defaults = true
  /\ load defaults = true /\ csv_content defaults = false
  /\ json_loads latin1_body = None
  /\ get_content (plain latin1_body) defaults (world_of [])
     = (Raise UnicodeDecodeError, world_of []).
Proof. repeat split; reflexivity. Qed.

(** An archive cut short fails to open, and the call raises instead of
    returning text. *)
Lemma get_content_truncated_zip_raises :
  accepted (plain truncated_zip) (csv_options true) = true
  /\ parse (plain truncated_zip) (csv_options true) = None
  /\ get_content (plain truncated_zip) (csv_options true) (world_of [])
     = (Raise UnicodeDecodeError, world_of []).
Proof. repeat split; reflexivity. Qed.

Lemma get_content_json_or_text_witness :
  get_content (plain (encode (record_text "a1" "ready"))) defaults (world_of [])
  = (Ret (Structured (record_value "a1" "ready")), world_of [])
  /\ get_content (plain (encode "not json")) defaults (world_of [])
     = (Ret (Text "not json"), world_of []).
Proof.
  split.
  - refine (proj1 (get_content_json_or_text
                     (plain (encode (record_text "a1" "ready")))
                     (plain (encode (record_text "a1" "ready")))
                     defaults (world_of []) (world_of []) _ _ _ _) _ _);
      [reflexivity | apply fetched_direct; right; reflexivity
       | reflexivity | reflexivity | reflexivity].
  - refine (proj2 (get_content_json_or_text
                     (plain (encode "not json")) (plain (encode "not json"))
                     defaults (world_of []) (world_of []) _ _ _ _) _ _ _);
      [reflexivity | apply fetched_direct; right; reflexivity
       | reflexivity | reflexivity | reflexivity | reflexivity].
Defined.

(** A response that points elsewhere: the bytes are those found there. *)
Lemma get_content_raw_witness :
  get_content (redirect "https://files/a1") raw_options
              (world_of [Served (plain latin1_body)])
  = (Ret (RawBytes latin1_body),
     after (RequestsGet "https://files/a1" true) (world_of [Served (plain latin1_body)])).
Proof.
  apply (get_content_raw (redirect "https://files/a1") (plain latin1_body) raw_options
                          (world_of [Served (plain latin1_body)])).
  - reflexivity.
  - apply (fetched_redirect raw_options _ _ "https://files/a1"); reflexivity.
  - reflexivity.
Defined.

Lemma get_content_csv_round_trip_witness :
  get_content (plain (encode csv_text)) (csv_options false) (world_of [])
  = (Ret (Tabular [["a"; "b"]; ["1"; "2"]]), world_of [])
  /\ get_content (plain csv_zip) (csv_options true) (world_of [])
     = (Ret (Tabular [["a"; "b"]; ["1"; "2"]]), world_of []).
Proof.
  split.
  - apply (get_content_csv_round_trip (plain (encode csv_text)) (plain (encode csv_text))
                                      (csv_options false) (world_of []));
      [reflexivity | apply fetched_direct; right; reflexivity
       | reflexivity | reflexivity | reflexivity].
  - apply (get_content_csv_round_trip (plain csv_zip) (plain csv_zip)
                                      (csv_options true) (world_of []));
      [reflexivity | apply fetched_direct; right; reflexivity
       | reflexivity | reflexivity | exists "data.csv"; reflexivity].
Defined.

(** A body that is no archive, but is text. *)
Lemma get_content_csv_failure_text_witness :
  get_content (plain (encode "not an archive")) (csv_options true) (world_of [])
  = (Ret (Text "not an archive"), world_of []).
Proof.
  apply (get_content_csv_failure_text
           (plain (encode "not an archive")) (plain (encode "not an archive"))
           (csv_options true) (world_of []));
    [reflexivity | apply fetched_direct; right; reflexivity
     | reflexivity | reflexivity | reflexivity | reflexivity].
Defined.

(** ** The asset verbs *)

Lemma bind_Ret {Env A B : Type} (m : M Env A) (f : A -> M Env B)
      (w w' : World Env) (a : A) :
  m w = (Ret a, w') -> bind m f w = f a w'.
Proof. intro H. unfold bind. now rewrite H. Qed.

Lemma bind_lift {A B : Type} (o : outcome A) (f : A -> M Net B) (w : World Net) (a : A) :
  o = Ret a -> bind (lift o) f w = f a w.
Proof. intro H. subst o. reflexivity. Qed.

Lemma send_served (sv : nat -> request -> reply) (k : nat) (tr : list event)
      (rq : request) (r : Response) :
  sv k rq = Served r ->
  send rq (mkWorld (mkNet sv k) tr)
  = (Ret r, mkWorld (mkNet sv (S k)) (tr ++ [EvRequest rq])).
Proof. intro H. unfold send, answer, after. simpl. now rewrite H. Qed.

Section AssetFacts.
Context {lib : PyLib}.

Lemma get_content_decodes (r : Response) (j : json) (w : World Net) :
  decodes_to r j ->
  get_content r defaults w = (Ret (Structured j), w).
Proof.
  intros (Hacc & Hloc & Hjson).
  rewrite (get_content_fetched r r defaults w w Hacc
             (fetched_direct _ _ _ (or_intror Hloc))).
  unfold decode_response, parse. simpl. now rewrite Hjson.
Qed.

Lemma asset_get_decodes (collection : string) (asset_id : json) (status : bool)
      (sv : nat -> request -> reply) (k : nat) (tr : list event)
      (r : Response) (j : json) :
  sv k (ClientGet (asset_endpoint collection asset_id)) = Served r ->
  decodes_to r j ->
  asset_get collection asset_id status (mkWorld (mkNet sv k) tr)
  = (Ret (Structured j),
     mkWorld (mkNet sv (S k))
             (tr ++ [EvRequest (ClientGet (asset_endpoint collection asset_id))])).
Proof.
  intros Hans Hdec. unfold asset_get, exception_handler.
  rewrite (bind_Ret _ _ _ _ _ (send_served sv k tr _ r Hans)).
  rewrite (bind_Ret _ _ _ _ _ (get_content_decodes r j _ Hdec)).
  reflexivity.
Qed.

Lemma asset_polling_loop_eq (fuel : nat) (collection : string) (asset_id : json)
      (asset : Content) :
  asset_polling_loop fuel collection asset_id asset
  = (status <- lift (getitem asset "status") ;;
     if in_flight status then
       match fuel with
       | O => out_of_fuel
       | S fuel' =>
           asset <- asset_get collection asset_id false ;;
           sleep 1 ;;
           asset_polling_loop fuel' collection asset_id asset
       end
     else ret asset).
Proof. destruct fuel; reflexivity. Qed.

(** The loop, entered on a pending asset, when the checks to come read
    pending statuses and then one that is not. *)
Lemma asset_polling_loop_run (collection : string) (asset_id : json)
      (sv : nat -> request -> reply) (r_last : Response) (s_last : json)
      (rs : list Response) :
  observes r_last s_last ->
  in_flight s_last = false ->
  forall (fuel k : nat) (tr : list event) (asset : Content) (s : json),
    getitem asset "status" = Ret s ->
    in_flight s = true ->
    Forall pending rs ->
    answers sv k (ClientGet (asset_endpoint collection asset_id)) (rs ++ [r_last]) ->
    (List.length rs < fuel)%nat ->
    (asset' <- asset_polling_loop fuel collection asset_id asset ;;
     lift (getitem asset' "status")) (mkWorld (mkNet sv k) tr)
    = (Ret s_last,
       mkWorld (mkNet sv (S (List.length rs) + k))
               (tr ++ List.concat
                        (repeat [EvRequest (ClientGet (asset_endpoint collection asset_id));
                                 EvSleep 1] (S (List.length rs))))).
Proof.
  intros (j_last & Hdec_last & Hs_last) Hdone.
  induction rs as [|r rs IH]; intros fuel k tr asset s Hs Hfl Hall Hans Hfuel.
  - destruct fuel as [|fuel]; [simpl in Hfuel; lia|].
    destruct Hans as [Hans _].
    rewrite asset_polling_loop_eq. unfold bind at 1.
    rewrite (bind_lift _ _ _ s Hs). rewrite Hfl.
    rewrite (bind_Ret _ _ _ _ _
               (asset_get_decodes collection asset_id false sv k tr r_last j_last Hans Hdec_last)).
    unfold bind at 1, sleep at 1, record. simpl env. simpl trace.
    rewrite asset_polling_loop_eq.
    rewrite (bind_lift _ _ _ s_last Hs_last). rewrite Hdone.
    unfold ret. rewrite Hs_last. unfold lift. simpl.
    rewrite <- app_assoc. reflexivity.
  - destruct fuel as [|fuel]; [simpl in Hfuel; lia|].
    destruct Hans as [Hans Hrest].
    inversion Hall as [|? ? (s' & (j & Hdec & Hs') & Hfl') Hall']; subst.
    rewrite asset_polling_loop_eq. unfold bind at 1.
    rewrite (bind_lift _ _ _ s Hs). rewrite Hfl.
    rewrite (bind_Ret _ _ _ _ _
               (asset_get_decodes collection asset_id false sv k tr r j Hans Hdec)).
    unfold bind at 1, sleep at 1, record. simpl env. simpl trace.
    specialize (IH fuel (S k)
                   ((tr ++ [EvRequest (ClientGet (asset_endpoint collection asset_id))])
                      ++ [EvSleep 1])
                   (Structured j) s' Hs' Hfl' Hall' Hrest
                   ltac:(simpl in Hfuel; lia)).
    unfold bind in IH. unfold bind. rewrite IH.
    f_equal. f_equal.
    + f_equal. simpl. lia.
    + simpl. rewrite <- !app_assoc. reflexivity.
Qed.

Lemma asset_polling_run (collection : string) (asset_id : json)
      (sv : nat -> request -> reply) (rs : list Response) (r_last : Response)
      (s_last : json) (fuel k : nat) (tr : list event) :
  Forall pending rs ->
  observes r_last s_last ->
  in_flight s_last = false ->
  answers sv k (ClientGet (asset_endpoint collection asset_id)) (rs ++ [r_last]) ->
  (List.length rs <= fuel)%nat ->
  asset_polling fuel collection asset_id (mkWorld (mkNet sv k) tr)
  = (Ret s_last,
     mkWorld (mkNet sv (S (List.length rs) + k))
             (tr ++ checks (asset_endpoint collection asset_id) (List.length rs))).
Proof.
  intros Hall Hlast Hdone Hans Hfuel. unfold asset_polling.
  destruct rs as [|r rs].
  - destruct Hlast as (j_last & Hdec_last & Hs_last). destruct Hans as [Hans _].
    rewrite (bind_Ret _ _ _ _ _
               (asset_get_decodes collection asset_id false sv k tr r_last j_last Hans Hdec_last)).
    rewrite asset_polling_loop_eq. unfold bind at 1.
    rewrite (bind_lift _ _ _ s_last Hs_last). rewrite Hdone.
    unfold ret. rewrite Hs_last. reflexivity.
  - destruct Hans as [Hans Hrest].
    inversion Hall as [|? ? (s' & (j & Hdec & Hs') & Hfl') Hall']; subst.
    rewrite (bind_Ret _ _ _ _ _
               (asset_get_decodes collection asset_id false sv k tr r j Hans Hdec)).
    rewrite (asset_polling_loop_run collection asset_id sv r_last s_last rs Hlast Hdone
               fuel (S k)
               (tr ++ [EvRequest (ClientGet (asset_endpoint collection asset_id))])
               (Structured j) s' Hs' Hfl' Hall' Hrest
               ltac:(simpl in Hfuel; lia)).
    f_equal. f_equal.
    + f_equal. simpl. lia.
    + unfold checks. simpl. rewrite <- !app_assoc. reflexivity.
Qed.

End AssetFacts.

Section AssetClaims.
Context {lib : PyLib}.

Lemma answers_app (sv : nat -> request -> reply) (rq : request) (a b : list Response) :
  forall k, answers sv k rq (a ++ b) ->
            answers sv k rq a /\ answers sv (List.length a + k) rq b.
Proof.
  induction a as [|r a IH]; intros k H; simpl in *; [tauto|].
  destruct H as [Hr H]. destruct (IH (S k) H) as [Ha Hb].
  rewrite <- plus_n_Sm in Hb. tauto.
Qed.

(** C3, as the code has it.  [asset_polling] on checks that read
    uploading, processing, ready: three checks, a sleep of 1 after the
    second and after the third, and the value returned is the status read
    last, ready.  On a first check that reads a status other than
    uploading and processing: one check, no sleep, that status returned.
    With at least two passes of fuel the loop ends in both cases. *)
Theorem asset_polling_checks (fuel : nat) (collection : string) (asset_id : json)
        (sv : nat -> request -> reply) (k : nat) (tr : list event) :
  (forall r1 r2 r3,
      observes r1 (JString "uploading") ->
      observes r2 (JString "processing") ->
      observes r3 (JString "ready") ->
      answers sv k (ClientGet (asset_endpoint collection asset_id)) [r1; r2; r3] ->
      (2 <= fuel)%nat ->
      asset_polling fuel collection asset_id (mkWorld (mkNet sv k) tr)
      = (Ret (JString "ready"),
         mkWorld (mkNet sv (3 + k))
                 (tr ++ [EvRequest (ClientGet (asset_endpoint collection asset_id));
                         EvRequest (ClientGet (asset_endpoint collection asset_id));
                         EvSleep 1;
                         EvRequest (ClientGet (asset_endpoint collection asset_id));
                         EvSleep 1])))
  /\ (forall r1 s,
         observes r1 s ->
         in_flight s = false ->
         answers sv k (ClientGet (asset_endpoint collection asset_id)) [r1] ->
         asset_polling fuel collection asset_id (mkWorld (mkNet sv k) tr)
         = (Ret s,
            mkWorld (mkNet sv (1 + k))
                    (tr ++ [EvRequest (ClientGet (asset_endpoint collection asset_id))]))).
Proof.
  split.
  - intros r1 r2 r3 H1 H2 H3 Hans Hfuel.
    apply (asset_polling_run collection asset_id sv [r1; r2] r3 (JString "ready")
                             fuel k tr); trivial.
    repeat constructor; eexists; (split; [eassumption | reflexivity]).
  - intros r1 s H1 Hdone Hans.
    apply (asset_polling_run collection asset_id sv [] r1 s fuel k tr); trivial.
    simpl. lia.
Qed.

(** C8.  [asset_list] on a decoded mapping that has the keys count, total
    and content returns what is under content; on a decoded sequence it
    raises the exception whose message is Unexpected content type. *)
Theorem asset_list_shapes (collection : string) (latest : bool)
        (sv : nat -> request -> reply) (k : nat) (tr : list event) (r : Response) :
  sv k (ClientGet (list_endpoint collection latest)) = Served r ->
  (forall fields count total items,
      decodes_to r (JObject fields) ->
      dict_get fields "count" = Some count ->
      dict_get fields "total" = Some total ->
      dict_get fields "content" = Some items ->
      asset_list collection latest (mkWorld (mkNet sv k) tr)
      = (Ret items,
         mkWorld (mkNet sv (S k))
                 (tr ++ [EvRequest (ClientGet (list_endpoint collection latest))])))
  /\ (forall items,
         decodes_to r (JArray items) ->
         asset_list collection latest (mkWorld (mkNet sv k) tr)
         = (Raise (Exception "Unexpected content type: <class 'list'>."),
            mkWorld (mkNet sv (S k))
                    (tr ++ [EvRequest (ClientGet (list_endpoint collection latest))]))).
Proof.
  intro Hans. split.
  - intros fields count total items Hdec Hcount Htotal Hitems.
    unfold asset_list, exception_handler.
    rewrite (bind_Ret _ _ _ _ _ (send_served sv k tr _ r Hans)).
    rewrite (bind_Ret _ _ _ _ _ (get_content_decodes r _ _ Hdec)).
    unfold getitem. rewrite Hcount, Htotal, Hitems. reflexivity.
  - intros items Hdec.
    unfold asset_list, exception_handler.
    rewrite (bind_Ret _ _ _ _ _ (send_served sv k tr _ r Hans)).
    rewrite (bind_Ret _ _ _ _ _ (get_content_decodes r _ _ Hdec)).
    reflexivity.
Qed.

Lemma get_content_initial (r : Response) (j : json) (w : World Net) :
  accepted r defaults = true ->
  json_loads (content r) = Some j ->
  get_content r (with_get_from_location false defaults) w = (Ret (Structured j), w).
Proof.
  intros Hacc Hjson.
  rewrite (get_content_fetched r r (with_get_from_location false defaults) w w Hacc
             (fetched_direct (with_get_from_location false defaults) r w (or_introl eq_refl))).
  unfold decode_response, parse. simpl. now rewrite Hjson.
Qed.

Lemma asset_post_returns (fuel : nat) (collection asset_name : string) (data : payload)
      (params : option (list (string * string))) (presigned wait verify : bool)
      (w w' : World Net) (c : Content) :
  asset_post_body fuel collection asset_name data params presigned wait verify w
  = (Ret c, w') ->
  asset_post fuel collection asset_name data params presigned wait verify w
  = (Ret c, w').
Proof.
  intro H. unfold asset_post, exception_handler.
  rewrite retry_first_try; rewrite H; [reflexivity | discriminate].
Qed.

(** C9, as the code has it.  [asset_post], when the answer to its POST is
    accepted and decodes to a mapping with an id.  Without a [Location]
    header the decoded answer is returned.  With one, the UTF-8 bytes of
    the payload, stripped of white space at both ends, are PUT there;
    then, if [wait] is set, the asset is polled until a check reads a
    status other than uploading and processing; then the asset is fetched
    once more and that is the result. *)
Theorem asset_post_create (fuel : nat) (collection asset_name : string) (data : payload)
        (params : option (list (string * string))) (presigned wait verify : bool)
        (sv : nat -> request -> reply) (k : nat) (tr : list event)
        (r0 : Response) (j0 asset_id : json) :
  sv k (post_request collection asset_name data params presigned) = Served r0 ->
  accepted r0 defaults = true ->
  json_loads (content r0) = Some j0 ->
  getitem (Structured j0) "id" = Ret asset_id ->
  (headers_get (headers r0) "Location" = None ->
   asset_post fuel collection asset_name data params presigned wait verify
              (mkWorld (mkNet sv k) tr)
   = (Ret (Structured j0),
      mkWorld (mkNet sv (S k))
              (tr ++ [EvRequest (post_request collection asset_name data params presigned)])))
  /\ (forall url text r_put r_final j_final,
         headers_get (headers r0) "Location" = Some url ->
         data = PStr text ->
         sv (S k) (RequestsPut url (strip (encode text)) verify) = Served r_put ->
         decodes_to r_final j_final ->
         (wait = false ->
          sv (2 + k) (ClientGet (asset_endpoint collection asset_id)) = Served r_final ->
          asset_post fuel collection asset_name data params presigned wait verify
                     (mkWorld (mkNet sv k) tr)
          = (Ret (Structured j_final),
             mkWorld (mkNet sv (3 + k))
                     (tr ++ [EvRequest (post_request collection asset_name data params presigned);
                             EvRequest (RequestsPut url (strip (encode text)) verify);
                             EvRequest (ClientGet (asset_endpoint collection asset_id))])))
         /\ (wait = true ->
             forall rs r_last s_last,
               Forall pending rs ->
               observes r_last s_last ->
               in_flight s_last = false ->
               answers sv (2 + k) (ClientGet (asset_endpoint collection asset_id))
                       (rs ++ [r_last; r_final]) ->
               (List.length rs <= fuel)%nat ->
               asset_post fuel collection asset_name data params presigned wait verify
                          (mkWorld (mkNet sv k) tr)
               = (Ret (Structured j_final),
                  mkWorld (mkNet sv (4 + List.length rs + k))
                          (tr ++ [EvRequest (post_request collection asset_name data
                                                          params presigned);
                                  EvRequest (RequestsPut url (strip (encode text)) verify)]
                              ++ checks (asset_endpoint collection asset_id) (List.length rs)
                              ++ [EvRequest (ClientGet (asset_endpoint collection asset_id))])))).
Proof.
  intros Hpost Hacc Hjson Hid. unfold post_request in *.
  split.
  - intro Hloc. apply asset_post_returns. unfold asset_post_body. cbv zeta.
    rewrite (bind_Ret _ _ _ _ _ (send_served sv k tr _ r0 Hpost)).
    rewrite (bind_Ret _ _ _ _ _ (get_content_initial r0 j0 _ Hacc Hjson)).
    rewrite Hloc. rewrite (bind_lift _ _ _ asset_id Hid). reflexivity.
  - intros url text r_put r_final j_final Hloc Hdata Hput Hfinal. subst data.
    split.
    + intros Hwait Hget. subst wait.
      apply asset_post_returns. unfold asset_post_body. cbv zeta.
      rewrite (bind_Ret _ _ _ _ _ (send_served sv k tr _ r0 Hpost)).
      rewrite (bind_Ret _ _ _ _ _ (get_content_initial r0 j0 _ Hacc Hjson)).
      rewrite Hloc. rewrite (bind_lift _ _ _ (encode text) eq_refl).
      rewrite (bind_Ret _ _ _ _ _ (send_served sv (S k) _ _ r_put Hput)).
      unfold bind at 1, ret at 1.
      rewrite (bind_lift _ _ _ asset_id Hid).
      rewrite (asset_get_decodes collection asset_id false sv (2 + k) _ r_final j_final
                                 Hget Hfinal).
      rewrite <- !app_assoc. reflexivity.
    + intros Hwait rs r_last s_last Hall Hlast Hdone Hans Hfuel. subst wait.
      change (rs ++ [r_last; r_final]) with (rs ++ [r_last] ++ [r_final]) in Hans.
      rewrite app_assoc in Hans.
      destruct (answers_app sv _ _ _ _ Hans) as [Hpoll [Hget _]].
      rewrite length_app in Hget. simpl in Hget.
      apply asset_post_returns. unfold asset_post_body. cbv zeta.
      rewrite (bind_Ret _ _ _ _ _ (send_served sv k tr _ r0 Hpost)).
      rewrite (bind_Ret _ _ _ _ _ (get_content_initial r0 j0 _ Hacc Hjson)).
      rewrite Hloc. rewrite (bind_lift _ _ _ (encode text) eq_refl).
      rewrite (bind_Ret _ _ _ _ _ (send_served sv (S k) _ _ r_put Hput)).
      unfold bind at 1. rewrite (bind_lift _ _ _ asset_id Hid).
      rewrite (bind_Ret _ _ _ _ _
                 (asset_polling_run collection asset_id sv rs r_last s_last fuel (2 + k) _
                                    Hall Hlast Hdone Hpoll Hfuel)).
      unfold ret at 1.
      rewrite (bind_lift _ _ _ asset_id Hid).
      rewrite (asset_get_decodes collection asset_id false sv _ _ r_final j_final).
      * f_equal. f_equal; [f_equal; lia|]. rewrite <- !app_assoc. reflexivity.
      * rewrite <- Hget. f_equal. lia.
      * exact Hfinal.
Qed.

End AssetClaims.

(** The poller returns the status it read last, which is not the record
    it read it in. *)
Lemma asset_polling_returns_the_status :
  decodes_to (record_response "a1" "ready") (record_value "a1" "ready")
  /\ fst (asset_polling 2 "portfolios" (JString "a1") polling_world)
     = Ret (JString "ready")
  /\ JString "ready" <> record_value "a1" "ready".
Proof.
  split; [repeat split | split; [reflexivity | discriminate]].
Qed.

Lemma record_observed (id status : string) :
  In (id, status) [("a1", "uploading"); ("a1", "processing"); ("a1", "ready")] ->
  observes (record_response id status) (JString status).
Proof.
  intro H. exists (record_value id status).
  simpl in H. destruct H as [H|[H|[H|[]]]]; inversion H; subst;
    (split; [repeat split | reflexivity]).
Qed.

Lemma asset_polling_checks_witness :
  asset_polling 2 "portfolios" (JString "a1") polling_world
  = (Ret (JString "ready"),
     mkWorld (mkNet (server (env polling_world)) 3)
             [EvRequest (ClientGet "/{tenant}/portfolios/assets/a1");
              EvRequest (ClientGet "/{tenant}/portfolios/assets/a1");
              EvSleep 1;
              EvRequest (ClientGet "/{tenant}/portfolios/assets/a1");
              EvSleep 1])
  /\ asset_polling 0 "portfolios" (JString "a1") direct_world
     = (Ret (JString "ready"),
        mkWorld (mkNet (server (env direct_world)) 1)
                [EvRequest (ClientGet "/{tenant}/portfolios/assets/a1")]).
Proof.
  split.
  - apply (proj1 (asset_polling_checks 2 "portfolios" (JString "a1")
                                       (server (env polling_world)) 0 [])
                 (record_response "a1" "uploading")
                 (record_response "a1" "processing")
                 (record_response "a1" "ready")).
    + apply record_observed. simpl. tauto.
    + apply record_observed. simpl. tauto.
    + apply record_observed. simpl. tauto.
    + simpl. tauto.
    + lia.
  - apply (proj2 (asset_polling_checks 0 "portfolios" (JString "a1")
                                       (server (env direct_world)) 0 [])
                 (record_response "a1" "ready") (JString "ready")).
    + apply record_observed. simpl. tauto.
    + reflexivity.
    + simpl. tauto.
Defined.

Lemma asset_list_shapes_witness :
  asset_list "portfolios" true listing_world
  = (Ret (JArray [record_value "a1" "ready"; record_value "a2" "ready"]),
     mkWorld (mkNet (server (env listing_world)) 1)
             [EvRequest (ClientGet "/{tenant}/portfolios/assets?latest=true")])
  /\ asset_list "portfolios" false array_world
     = (Raise (Exception "Unexpected content type: <class 'list'>."),
        mkWorld (mkNet (server (env array_world)) 1)
                [EvRequest (ClientGet "/{tenant}/portfolios/assets?latest=false")]).
Proof.
  split.
  - apply (proj1 (asset_list_shapes "portfolios" true (server (env listing_world)) 0 []
                                    (plain (encode listing_text)) eq_refl)
                 [("count", JInt 2); ("total", JInt 10);
                  ("content", JArray [record_value "a1" "ready"; record_value "a2" "ready"])]
                 (JInt 2) (JInt 10)).
    + repeat split.
    + reflexivity.
    + reflexivity.
    + reflexivity.
  - apply (proj2 (asset_list_shapes "portfolios" false (server (env array_world)) 0 []
                                    (plain (encode "[]")) eq_refl) []).
    repeat split.
Defined.

(** What is PUT is the payload without the spaces around it; and an
    answer without [Location] that decodes to an empty object is not
    returned: the call raises [KeyError]. *)
Lemma asset_post_strips_and_needs_id :
  nth 1 (trace (snd (asset_post 2 "portfolios" "name" (PStr " payload-text ")
                                None false true true upload_world))) EvCall
  = EvRequest (RequestsPut "https://upload/a1" (encode "payload-text") true)
  /\ encode "payload-text" <> encode " payload-text "
  /\ headers_get (headers (plain (encode "{}"))) "Location" = None
  /\ get_content (plain (encode "{}")) (with_get_from_location false defaults)
                 (after (post_request "portfolios" "name" (PStr "payload-text") None false)
                        empty_object_world)
     = (Ret (Structured (JObject [])),
        after (post_request "portfolios" "name" (PStr "payload-text") None false)
              empty_object_world)
  /\ fst (asset_post 2 "portfolios" "name" (PStr "payload-text")
                     None false true true empty_object_world)
     = Raise (KeyError "id").
Proof.
  split; [reflexivity|]. split; [discriminate|]. repeat split.
Qed.

Lemma asset_post_create_witness :
  asset_post 2 "portfolios" "name" (PStr "payload-text") None false true true upload_world
  = (Ret (Structured (record_value "a1" "ready")),
     mkWorld (mkNet (server (env upload_world)) 6)
             [EvRequest (ClientPost "/{tenant}/portfolios/assets?assetName=name"
                                    (Some (PStr "payload-text")));
              EvRequest (RequestsPut "https://upload/a1" (encode "payload-text") true);
              EvRequest (ClientGet "/{tenant}/portfolios/assets/a1");
              EvRequest (ClientGet "/{tenant}/portfolios/assets/a1");
              EvSleep 1;
              EvRequest (ClientGet "/{tenant}/portfolios/assets/a1");
              EvSleep 1;
              EvRequest (ClientGet "/{tenant}/portfolios/assets/a1")])
  /\ asset_post 0 "portfolios" "name" (PStr "payload-text") None false true true direct_world
     = (Ret (Structured (record_value "a1" "ready")),
        mkWorld (mkNet (server (env direct_world)) 1)
                [EvRequest (ClientPost "/{tenant}/portfolios/assets?assetName=name"
                                       (Some (PStr "payload-text")))]).
Proof.
  split.
  - destruct (asset_post_create (lib := examples_lib) 2 "portfolios" "name" (PStr "payload-text") None
                                false true true (server (env upload_world)) 0 []
                                (mkResponse OK [("Location", "https://upload/a1")]
                                            (encode (record_text "a1" "uploading")))
                                (record_value "a1" "uploading") (JString "a1")
                                eq_refl eq_refl eq_refl eq_refl) as [_ Hupload].
    destruct (Hupload "https://upload/a1" "payload-text" (plain [])
                      (record_response "a1" "ready") (record_value "a1" "ready")
                      eq_refl eq_refl eq_refl) as [_ Hwait].
    + repeat split.
    + apply (Hwait eq_refl
                   [record_response "a1" "uploading"; record_response "a1" "processing"]
                   (record_response "a1" "ready") (JString "ready")).
      * repeat constructor; eexists; (split; [apply record_observed; simpl; tauto
                                             | reflexivity]).
      * apply record_observed. simpl. tauto.
      * reflexivity.
      * simpl. tauto.
      * simpl. lia.
  - apply (proj1 (asset_post_create (lib := examples_lib) 0 "portfolios" "name" (PStr "payload-text") None
                                    false true true (server (env direct_world)) 0 []
                                    (record_response "a1" "ready")
                                    (record_value "a1" "ready") (JString "a1")
                                    eq_refl eq_refl eq_refl eq_refl)).
    reflexivity.
Defined.

(** The decorators at work together: a [Location] that is out of reach
    twice is asked for three times, with sleeps of 1 and 2 in between. *)
Lemma get_content_retries_the_redirect :
  get_content (redirect "https://files/a1") raw_options
              (world_of [Refused; Refused; Served (plain latin1_body)])
  = (Ret (RawBytes latin1_body),
     mkWorld (mkNet (scripted [Refused; Refused; Served (plain latin1_body)]) 3)
             [EvRequest (RequestsGet "https://files/a1" true); EvSleep 1;
              EvRequest (RequestsGet "https://files/a1" true); EvSleep 2;
              EvRequest (RequestsGet "https://files/a1" true)]).
Proof. reflexivity. Qed.

(** The poller of the copy and import jobs reads [state], accepts the
    status 202 as well, and returns the record it read last. *)
Lemma copy_workspace_polling_returns_the_record :
  copy_workspace_polling 2 "portfolios" (JString "c1") copy_world
  = (Ret (Structured (job_value "c1" "done")),
     mkWorld (mkNet (server (env copy_world)) 3)
             [EvRequest (ClientGet "/{tenant}/portfolios/assets/copy/c1");
              EvRequest (ClientGet "/{tenant}/portfolios/assets/copy/c1");
              EvSleep 1;
              EvRequest (ClientGet "/{tenant}/portfolios/assets/copy/c1");
              EvSleep 1]).
Proof. reflexivity. Qed.

(** * Further properties *)

(** ** [retry] at its limit *)

Lemma total_powers (n j : nat) :
  total (map (fun k => (2 ^ Z.of_nat k)%Z) (seq j n))
  = (2 ^ Z.of_nat j * (2 ^ Z.of_nat n - 1))%Z.
Proof.
  revert j. induction n as [|n IH]; intro j; simpl seq; simpl map; simpl total.
  - change (Z.of_nat 0) with 0%Z. rewrite Z.pow_0_r. lia.
  - fold (total (map (fun k => (2 ^ Z.of_nat k)%Z) (seq (S j) n))).
    rewrite IH. rewrite !Nat2Z.inj_succ, !Z.pow_succ_r by lia. nia.
Qed.

(** X1.  [retry(times)] on an operation that fails to connect on each of
    its first [times] invocations: the operation is invoked [times + 1]
    times, the outcome of the last invocation is the outcome of the call,
    and the wrapper has slept [2^times - 1] in all. *)
Theorem retry_exhausted {Env A : Type} (op : Env -> outcome A * Env)
        (times : nat) (e : Env) (tr : list event) :
  (forall k, (k < times)%nat ->
             fst (op (env_after op k e)) = Raise ConnectionError) ->
  retry times (invoke op) (mkWorld e tr)
  = (fst (op (env_after op times e)),
     mkWorld (env_after op (S times) e) (tr ++ attempts (S times)))
  /\ calls_in (attempts (S times)) = S times
  /\ total (sleeps_in (attempts (S times))) = (2 ^ Z.of_nat times - 1)%Z.
Proof.
  intro Hfail. split; [|split].
  - apply (retry_run op times times e tr); [lia | exact Hfail | now right].
  - apply attempts_calls. lia.
  - rewrite attempts_sleeps. replace (S times - 1)%nat with times by lia.
    rewrite total_powers. change (Z.of_nat 0) with 0%Z. rewrite Z.pow_0_r. lia.
Qed.

Lemma retry_exhausted_witness :
  retry 3 (invoke unreachable) (mkWorld 0%nat [])
  = (Raise ConnectionError,
     mkWorld 4%nat [EvCall; EvSleep 1; EvCall; EvSleep 2; EvCall; EvSleep 4; EvCall])
  /\ calls_in (attempts 4) = 4%nat
  /\ total (sleeps_in (attempts 4)) = 7%Z.
Proof.
  apply (retry_exhausted unreachable 3 0%nat []).
  intros k Hk. reflexivity.
Defined.

(** ** [get_content] behind [retry] *)

Section DecoderRetry.
Context {lib : PyLib}.

Lemma get_content_body_redirect (r : Response) (o : options) (url : string)
      (sv : nat -> request -> reply) (k : nat) (tr : list event) :
  accepted r o = true ->
  get_from_location o = true ->
  location_of r = Some url ->
  get_content_body r o (mkWorld (mkNet sv k) tr)
  = (reply_outcome o (sv k (RequestsGet url (verify o))),
     mkWorld (mkNet sv (S k)) (tr ++ [EvRequest (RequestsGet url (verify o))])).
Proof.
  intros Hacc Hgfl Hloc. unfold get_content_body. rewrite Hacc, Hgfl, Hloc.
  unfold bind, send, answer, after. simpl.
  destruct (sv k (RequestsGet url (verify o))); reflexivity.
Qed.

Lemma reply_outcome_connects (o : options) (a : reply) :
  a <> Refused -> reply_outcome o a <> Raise ConnectionError.
Proof.
  destruct a; simpl; intro H; [apply decode_response_connects | now elim H | discriminate].
Qed.

(** The loop of [retry] around [get_content] when the [Location] is out
    of reach [n] times. *)
Lemma get_content_loop_refused (r : Response) (o : options) (url : string)
      (sv : nat -> request -> reply) (n : nat) :
  accepted r o = true ->
  get_from_location o = true ->
  location_of r = Some url ->
  forall (remaining : nat) (delay : Z) (k : nat) (tr : list event),
    (n <= remaining)%nat ->
    (forall i, (i < n)%nat -> sv (k + i)%nat (RequestsGet url (verify o)) = Refused) ->
    (sv (k + n)%nat (RequestsGet url (verify o)) <> Refused \/ n = remaining) ->
    retry_loop remaining delay (get_content_body r o) (mkWorld (mkNet sv k) tr)
    = (reply_outcome o (sv (k + n)%nat (RequestsGet url (verify o))),
       mkWorld (mkNet sv (S (k + n)))
               (tr ++ retried (RequestsGet url (verify o)) n delay)).
Proof.
  intros Hacc Hgfl Hloc.
  induction n as [|n IH]; intros remaining delay k tr Hle Hrefused Hlast.
  - rewrite Nat.add_0_r in *. simpl retried.
    destruct remaining as [|rem].
    + simpl. now apply get_content_body_redirect.
    + destruct Hlast as [Hne|Heq]; [|discriminate].
      rewrite retry_loop_S, (get_content_body_redirect r o url sv k tr Hacc Hgfl Hloc).
      pose proof (reply_outcome_connects o _ Hne) as Hc.
      destruct (reply_outcome o (sv k (RequestsGet url (verify o)))) as [c|x|];
        try reflexivity.
      destruct x; try reflexivity. now elim Hc.
  - destruct remaining as [|rem]; [lia|].
    pose proof (Hrefused 0%nat ltac:(lia)) as H0. rewrite Nat.add_0_r in H0.
    rewrite retry_loop_S, (get_content_body_redirect r o url sv k tr Hacc Hgfl Hloc), H0.
    simpl reply_outcome. simpl is_ConnectionError. cbv iota.
    unfold record. simpl env. simpl trace.
    rewrite (IH rem (delay * 2)%Z (S k)
                ((tr ++ [EvRequest (RequestsGet url (verify o))]) ++ [EvSleep delay])).
    + replace (S k + n)%nat with (k + S n)%nat by lia.
      f_equal. f_equal. simpl retried. rewrite <- !app_assoc. reflexivity.
    + lia.
    + intros i Hi. replace (S k + i)%nat with (k + S i)%nat by lia.
      apply Hrefused. lia.
    + replace (S k + n)%nat with (k + S n)%nat by lia.
      destruct Hlast as [Hne|Heq]; [left; exact Hne | right; lia].
Qed.

Lemma retried_sleeps (rq : request) (n j : nat) :
  sleeps_in (retried rq n (2 ^ Z.of_nat j))
  = map (fun i => (2 ^ Z.of_nat i)%Z) (seq j n).
Proof.
  revert j. induction n as [|n IH]; intro j; simpl; [reflexivity|].
  f_equal. rewrite <- IH. do 2 f_equal.
  rewrite Nat2Z.inj_succ, Z.pow_succ_r by lia. lia.
Qed.

(** X2.  [get_content] on an accepted response with a [Location] to
    follow, when the GET of it fails to connect [n] times, [n <= 10],
    and is then answered: the answer is decoded as if it had come at
    once; the GET has been sent [n + 1] times, with sleeps of 1, 2, ...,
    2^(n-1) in between. *)
Theorem get_content_rides_out_refusals (r r' : Response) (o : options) (url : string)
        (sv : nat -> request -> reply) (n k : nat) (tr : list event) :
  accepted r o = true ->
  get_from_location o = true ->
  location_of r = Some url ->
  (n <= 10)%nat ->
  (forall i, (i < n)%nat -> sv (k + i)%nat (RequestsGet url (verify o)) = Refused) ->
  sv (k + n)%nat (RequestsGet url (verify o)) = Served r' ->
  get_content r o (mkWorld (mkNet sv k) tr)
  = (decode_response r' o,
     mkWorld (mkNet sv (S (k + n)))
             (tr ++ retried (RequestsGet url (verify o)) n 1))
  /\ sleeps_in (retried (RequestsGet url (verify o)) n 1)
     = map (fun i => (2 ^ Z.of_nat i)%Z) (seq 0 n).
Proof.
  intros Hacc Hgfl Hloc Hn Hrefused Hserved. split.
  - unfold get_content, exception_handler, retry.
    rewrite (get_content_loop_refused r o url sv n Hacc Hgfl Hloc 10 1%Z k tr Hn Hrefused).
    + now rewrite Hserved.
    + left. rewrite Hserved. discriminate.
  - apply (retried_sleeps _ n 0).
Qed.

(** X3.  [get_content] on an accepted response with a [Location] that
    stays out of reach: after eleven GETs, and 1023 slept in all, the
    connection error reaches the caller. *)
Theorem get_content_gives_up (r : Response) (o : options) (url : string)
        (sv : nat -> request -> reply) (k : nat) (tr : list event) :
  accepted r o = true ->
  get_from_location o = true ->
  location_of r = Some url ->
  (forall i, (i < 11)%nat -> sv (k + i)%nat (RequestsGet url (verify o)) = Refused) ->
  get_content r o (mkWorld (mkNet sv k) tr)
  = (Raise ConnectionError,
     mkWorld (mkNet sv (k + 11))
             (tr ++ retried (RequestsGet url (verify o)) 10 1))
  /\ total (sleeps_in (retried (RequestsGet url (verify o)) 10 1)) = 1023%Z.
Proof.
  intros Hacc Hgfl Hloc Hrefused. split.
  - unfold get_content, exception_handler, retry.
    rewrite (get_content_loop_refused r o url sv 10 Hacc Hgfl Hloc 10 1%Z k tr).
    + rewrite (Hrefused 10%nat ltac:(lia)). simpl reply_outcome.
      do 3 f_equal. lia.
    + lia.
    + intros i Hi. apply Hrefused. lia.
    + now right.
  - reflexivity.
Qed.

End DecoderRetry.

Lemma get_content_rides_out_refusals_witness :
  get_content (redirect "https://files/a1") raw_options
              (world_of [Refused; Refused; Served (plain latin1_body)])
  = (Ret (RawBytes latin1_body),
     mkWorld (mkNet (scripted [Refused; Refused; Served (plain latin1_body)]) 3)
             [EvRequest (RequestsGet "https://files/a1" true); EvSleep 1;
              EvRequest (RequestsGet "https://files/a1" true); EvSleep 2;
              EvRequest (RequestsGet "https://files/a1" true)])
  /\ sleeps_in (retried (RequestsGet "https://files/a1" true) 2 1) = [1%Z; 2%Z].
Proof.
  apply (get_content_rides_out_refusals
           (redirect "https://files/a1") (plain latin1_body) raw_options
           "https://files/a1" (scripted [Refused; Refused; Served (plain latin1_body)])
           2 0 []).
  - reflexivity.
  - reflexivity.
  - reflexivity.
  - lia.
  - intros i Hi. destruct i as [|[|i]]; [reflexivity | reflexivity | lia].
  - reflexivity.
Defined.

Lemma get_content_gives_up_witness :
  get_content (redirect "https://files/a1") raw_options (world_of [])
  = (Raise ConnectionError,
     mkWorld (mkNet (scripted []) 11)
             (retried (RequestsGet "https://files/a1" true) 10 1))
  /\ total (sleeps_in (retried (RequestsGet "https://files/a1" true) 10 1)) = 1023%Z.
Proof.
  apply (get_content_gives_up (redirect "https://files/a1") raw_options
                              "https://files/a1" (scripted []) 0 []).
  - reflexivity.
  - reflexivity.
  - reflexivity.
  - intros i Hi. unfold scripted. destruct i as [|i]; reflexivity.
Defined.

(** ** The text that comes back *)

Lemma emit_inv (seq out pending : bytes) (r : option (bytes * bytes)) :
  emit seq r = Some (out, pending) ->
  exists out', r = Some (out', pending) /\ out = seq ++ out'.
Proof.
  destruct r as [[out' pending']|]; simpl; intro H; [|discriminate].
  inversion H; subst. now exists out'.
Qed.

Ltac scan_step :=
  match goal with
  | H : emit _ _ = Some _ |- _ =>
      apply emit_inv in H; destruct H as (? & ? & ?); subst
  | H : Some _ = Some _ |- _ => inversion H; subst; clear H
  | H : None = Some _ |- _ => discriminate H
  | H : context [match ?l with [] => _ | _ :: _ => _ end] |- _ => destruct l
  | H : context [if ?c then _ else _] |- _ => destruct c
  end.

(** The decoder loses nothing: text and unfinished tail make up the
    chunk. *)
Lemma utf8_scan_split (n : nat) :
  forall (b out pending : bytes),
    (List.length b <= n)%nat ->
    utf8_scan b = Some (out, pending) ->
    out ++ pending = b.
Proof.
  induction n as [|n IH]; intros b out pending Hlen Hscan.
  - destruct b; [|simpl in Hlen; lia]. simpl in Hscan. now inversion Hscan.
  - destruct b as [|b1 r1]; [simpl in Hscan; now inversion Hscan|].
    simpl in Hscan, Hlen.
    destruct (utf8_length b1) as [|[|[|[|[|?]]]]]; try discriminate;
      repeat scan_step; simpl in *; try reflexivity;
      repeat f_equal; (eapply IH; [|eassumption]); lia.
Qed.

Lemma decode_encode (b : bytes) (text : string) :
  decode b = Some text -> encode text = b.
Proof.
  unfold decode, encode. intro H.
  destruct (utf8_scan b) as [[out pending]|] eqn:Hscan; [|discriminate].
  destruct pending; [|discriminate]. inversion H; subst.
  rewrite list_byte_of_string_of_list_byte.
  rewrite <- (utf8_scan_split (List.length b) b out [] (le_n _) Hscan).
  now rewrite app_nil_r.
Qed.

Section TextFacts.
Context {lib : PyLib}.

Lemma parse_not_text (r : Response) (o : options) (text : string) :
  parse r o <> Some (Text text).
Proof.
  unfold parse. destruct (negb (csv_content o)).
  - destruct (json_loads (content r)); discriminate.
  - destruct (if unzip o then _ else _); [|discriminate].
    destruct (read_csv _ _); discriminate.
Qed.

(** X4.  When [get_content] returns text, the text is the body, byte for
    byte: encoded again as UTF-8 it gives back the body that was decoded. *)
Theorem get_content_text_is_the_body (r r' : Response) (o : options)
        (w w' w'' : World Net) (text : string) :
  accepted r o = true ->
  fetched o r w r' w' ->
  get_content r o w = (Ret (Text text), w'') ->
  encode text = content r'.
Proof.
  intros Hacc Hf Hget.
  rewrite (get_content_fetched r r' o w w' Hacc Hf) in Hget.
  unfold decode_response in Hget.
  destruct (negb (load o)); [discriminate|].
  destruct (parse r' o) as [c|] eqn:Hparse.
  - inversion Hget; subst. now elim (parse_not_text r' o text).
  - destruct (decode (content r')) as [t|] eqn:Hdec; [|discriminate].
    inversion Hget; subst. now apply decode_encode.
Qed.

End TextFacts.

Lemma get_content_text_is_the_body_witness :
  encode "not json" = content (plain (encode "not json")).
Proof.
  apply (get_content_text_is_the_body
           (plain (encode "not json")) (plain (encode "not json")) defaults
           (world_of []) (world_of []) (world_of []) "not json").
  - reflexivity.
  - apply fetched_direct. right. reflexivity.
  - reflexivity.
Defined.

(** ** The single-call verbs *)

Lemma bind_Raise {Env A B : Type} (m : M Env A) (f : A -> M Env B)
      (w w' : World Env) (e : exn) :
  m w = (Raise e, w') -> bind m f w = (Raise e, w').
Proof. intro H. unfold bind. now rewrite H. Qed.

Lemma send_refused (sv : nat -> request -> reply) (k : nat) (tr : list event)
      (rq : request) :
  sv k rq = Refused ->
  send rq (mkWorld (mkNet sv k) tr)
  = (Raise ConnectionError, mkWorld (mkNet sv (S k)) (tr ++ [EvRequest rq])).
Proof. intro H. unfold send, answer, after. simpl. now rewrite H. Qed.

Section VerbFacts.
Context {lib : PyLib}.

(** X5.  [asset_list] reads [count] and [total] for its log line before
    it returns: on a decoded mapping that lacks one of them the call
    raises [KeyError] for it, whether or not the mapping has [content]. *)
Theorem asset_list_missing_key (collection : string) (latest : bool)
        (sv : nat -> request -> reply) (k : nat) (tr : list event)
        (r : Response) (fields : list (string * json)) :
  sv k (ClientGet (list_endpoint collection latest)) = Served r ->
  decodes_to r (JObject fields) ->
  (dict_get fields "count" = None ->
   asset_list collection latest (mkWorld (mkNet sv k) tr)
   = (Raise (KeyError "count"),
      mkWorld (mkNet sv (S k))
              (tr ++ [EvRequest (ClientGet (list_endpoint collection latest))])))
  /\ (dict_get fields "count" <> None ->
      dict_get fields "total" = None ->
      asset_list collection latest (mkWorld (mkNet sv k) tr)
      = (Raise (KeyError "total"),
         mkWorld (mkNet sv (S k))
                 (tr ++ [EvRequest (ClientGet (list_endpoint collection latest))]))).
Proof.
  intros Hans Hdec.
  assert (Hrun : asset_list collection latest (mkWorld (mkNet sv k) tr)
                 = (_ <- lift (getitem (Structured (JObject fields)) "count") ;;
                    _ <- lift (getitem (Structured (JObject fields)) "total") ;;
                    lift (getitem (Structured (JObject fields)) "content"))
                     (mkWorld (mkNet sv (S k))
                        (tr ++ [EvRequest (ClientGet (list_endpoint collection latest))]))).
  { unfold asset_list, exception_handler.
    rewrite (bind_Ret _ _ _ _ _ (send_served sv k tr _ r Hans)).
    now rewrite (bind_Ret _ _ _ _ _ (get_content_decodes r _ _ Hdec)). }
  rewrite Hrun. unfold getitem. split.
  - intro Hcount. now rewrite Hcount.
  - intros Hcount Htotal. destruct (dict_get fields "count"); [|now elim Hcount].
    now rewrite Htotal.
Qed.

(** X6.  [asset_versions] returns a decoded list as it is, the empty list
    too, and on any other decoded value raises the exception that names
    the type of the value. *)
Theorem asset_versions_shapes (collection : string) (asset_id : json)
        (sv : nat -> request -> reply) (k : nat) (tr : list event)
        (r : Response) (j : json) :
  sv k (ClientGet (versions_endpoint collection asset_id)) = Served r ->
  decodes_to r j ->
  asset_versions collection asset_id (mkWorld (mkNet sv k) tr)
  = (match j with
     | JArray _ => Ret (Structured j)
     | _ => Raise (Exception ("Unexpected content type: "
                                ++ type_name (Structured j) ++ ".")%string)
     end,
     mkWorld (mkNet sv (S k))
             (tr ++ [EvRequest (ClientGet (versions_endpoint collection asset_id))])).
Proof.
  intros Hans Hdec. unfold asset_versions, exception_handler.
  rewrite (bind_Ret _ _ _ _ _ (send_served sv k tr _ r Hans)).
  rewrite (bind_Ret _ _ _ _ _ (get_content_decodes r _ _ Hdec)).
  destruct j; reflexivity.
Qed.

(** X7.  [asset_rename] returns the last element of the decoded list; on
    an empty list it raises the error of [pop]; and on a decoded mapping
    it returns the last of its keys. *)
Theorem asset_rename_takes_the_last (collection : string) (asset_id : json)
        (asset_name : string)
        (sv : nat -> request -> reply) (k : nat) (tr : list event) (r : Response) :
  sv k (ClientPut (rename_endpoint collection asset_id asset_name) None) = Served r ->
  (forall items last,
      decodes_to r (JArray (items ++ [last])) ->
      asset_rename collection asset_id asset_name (mkWorld (mkNet sv k) tr)
      = (Ret last,
         mkWorld (mkNet sv (S k))
                 (tr ++ [EvRequest (ClientPut (rename_endpoint collection asset_id asset_name)
                                              None)])))
  /\ (decodes_to r (JArray []) ->
      asset_rename collection asset_id asset_name (mkWorld (mkNet sv k) tr)
      = (Raise (Exception "pop from empty list"),
         mkWorld (mkNet sv (S k))
                 (tr ++ [EvRequest (ClientPut (rename_endpoint collection asset_id asset_name)
                                              None)])))
  /\ (forall fields key value,
         decodes_to r (JObject (fields ++ [(key, value)])) ->
         asset_rename collection asset_id asset_name (mkWorld (mkNet sv k) tr)
         = (Ret (JString key),
            mkWorld (mkNet sv (S k))
                    (tr ++ [EvRequest (ClientPut (rename_endpoint collection asset_id
                                                                  asset_name) None)]))).
Proof.
  intro Hans.
  assert (Hrun : forall j, decodes_to r j ->
            asset_rename collection asset_id asset_name (mkWorld (mkNet sv k) tr)
            = (elements <- lift (iterate (Structured j)) ;; lift (pop elements))
                (mkWorld (mkNet sv (S k))
                   (tr ++ [EvRequest (ClientPut (rename_endpoint collection asset_id
                                                                 asset_name) None)]))).
  { intros j Hdec. unfold asset_rename, exception_handler.
    rewrite (bind_Ret _ _ _ _ _ (send_served sv k tr _ r Hans)).
    now rewrite (bind_Ret _ _ _ _ _ (get_content_decodes r _ _ Hdec)). }
  split; [|split].
  - intros items last Hdec. rewrite (Hrun _ Hdec).
    unfold bind, lift, iterate, pop. now rewrite rev_unit.
  - intro Hdec. now rewrite (Hrun _ Hdec).
  - intros fields key value Hdec. rewrite (Hrun _ Hdec).
    unfold bind, lift, iterate, pop. rewrite map_app. simpl map.
    now rewrite rev_unit.
Qed.

End VerbFacts.

Section VerbGates.
Context {lib : PyLib}.

Lemma get_content_rejected_default (r : Response) (o : options) (w : World Net) :
  accept o = None ->
  accepted r defaults = false ->
  get_content r o w = (Raise (AriumAPACResponseException r), w).
Proof.
  intros Ho Hacc. apply get_content_rejected.
  unfold accepted in *. now rewrite Ho.
Qed.

Ltac rejected :=
  intros sv k tr r Hans Hacc; cbv beta delta [exception_handler]; cbv zeta;
  rewrite (bind_Ret _ _ _ _ _ (send_served sv k tr _ r Hans));
  erewrite bind_Raise;
  [reflexivity | apply get_content_rejected_default; [reflexivity | exact Hacc]].

Ltac refused :=
  intros sv k tr Hans; cbv beta delta [exception_handler]; cbv zeta;
  rewrite (bind_Raise _ _ _ _ _ (send_refused sv k tr _ Hans));
  reflexivity.

(** X8.  Every verb passes on the refusal of a status: when the answer
    to its request has a status other than 200 and 204, the call raises
    [AriumAPACResponseException] carrying that answer; nothing else is
    sent, not by [asset_post] under [retry] either. *)
Theorem verbs_reject_unexpected_status
        (collection : string) (asset_id : json) (name text file : string)
        (flag status csv_content unzip load wait verify : bool) (fuel : nat)
        (ids : option (list string)) (data : payload)
        (params : option (list (string * string))) :
  rejects (asset_get collection asset_id status)
          (ClientGet (asset_endpoint collection asset_id))
  /\ rejects (asset_list_reports collection asset_id status)
             (ClientGet (reports_endpoint collection asset_id))
  /\ rejects (asset_get_report collection asset_id file status csv_content unzip load)
             (ClientGet (report_endpoint collection asset_id file))
  /\ rejects (asset_set_description collection asset_id text)
             (ClientPut (description_endpoint collection asset_id) (Some text))
  /\ rejects (asset_rename collection asset_id name)
             (ClientPut (rename_endpoint collection asset_id name) None)
  /\ rejects (asset_list collection flag) (ClientGet (list_endpoint collection flag))
  /\ rejects (asset_versions collection asset_id)
             (ClientGet (versions_endpoint collection asset_id))
  /\ rejects (asset_get_description collection asset_id)
             (ClientGet (asset_endpoint collection asset_id))
  /\ rejects (asset_get_payload_description collection asset_id)
             (ClientGet (payload_description_endpoint collection asset_id))
  /\ rejects (asset_update_payload_description collection asset_id text)
             (ClientPut (payload_description_endpoint collection asset_id) (Some text))
  /\ rejects (asset_delete collection asset_id)
             (ClientDelete (asset_endpoint collection asset_id))
  /\ rejects (asset_copy collection asset_id name)
             (ClientPost (copy_endpoint collection asset_id name) None)
  /\ rejects (asset_lock collection asset_id flag)
             (ClientPut (lock_endpoint collection asset_id flag) None)
  /\ rejects (asset_is_empty collection) (ClientGet (empty_endpoint collection))
  /\ rejects (asset_copy_workspace fuel collection name text ids wait)
             (ClientPost (copy_workspace_endpoint collection)
                         (Some (PJson (copy_workspace_request name text ids))))
  /\ rejects (asset_get_data verify collection asset_id flag)
             (ClientGet (data_endpoint collection asset_id flag))
  /\ rejects (asset_post fuel collection name data params flag wait verify)
             (post_request collection name data params flag).
Proof.
  repeat split.
  1-16: (unfold asset_get, asset_list_reports, asset_get_report,
             asset_set_description, asset_rename, asset_list, asset_versions,
             asset_get_description, asset_get_payload_description,
             asset_update_payload_description, asset_delete, asset_copy, asset_lock,
             asset_is_empty, asset_copy_workspace, asset_get_data; rejected).
  intros sv k tr r Hans Hacc. unfold asset_post, exception_handler, post_request in *.
  assert (Hbody : asset_post_body fuel collection name data params flag wait verify
                                  (mkWorld (mkNet sv k) tr)
                  = (Raise (AriumAPACResponseException r),
                     mkWorld (mkNet sv (S k))
                             (tr ++ [EvRequest (ClientPost
                                                  (post_endpoint collection name params flag)
                                                  (if negb flag then Some data else None))]))).
  { unfold asset_post_body. cbv zeta.
    rewrite (bind_Ret _ _ _ _ _ (send_served sv k tr _ r Hans)).
    erewrite bind_Raise;
      [reflexivity | apply get_content_rejected_default; [reflexivity | exact Hacc]]. }
  rewrite retry_first_try; rewrite Hbody; [reflexivity | discriminate].
Qed.

(** X9.  The verbs other than [asset_post] and [asset_import] are not
    wrapped in [retry]: a request of theirs that fails to connect is not
    repeated; the connection error reaches the caller after one request
    and no sleep. *)
Theorem verbs_do_not_retry
        (collection : string) (asset_id : json) (name text file : string)
        (flag status csv_content unzip load wait verify : bool) (fuel : nat)
        (ids : option (list string)) :
  gives_way (asset_get collection asset_id status)
            (ClientGet (asset_endpoint collection asset_id))
  /\ gives_way (asset_list_reports collection asset_id status)
               (ClientGet (reports_endpoint collection asset_id))
  /\ gives_way (asset_get_report collection asset_id file status csv_content unzip load)
               (ClientGet (report_endpoint collection asset_id file))
  /\ gives_way (asset_set_description collection asset_id text)
               (ClientPut (description_endpoint collection asset_id) (Some text))
  /\ gives_way (asset_rename collection asset_id name)
               (ClientPut (rename_endpoint collection asset_id name) None)
  /\ gives_way (asset_list collection flag) (ClientGet (list_endpoint collection flag))
  /\ gives_way (asset_versions collection asset_id)
               (ClientGet (versions_endpoint collection asset_id))
  /\ gives_way (asset_get_description collection asset_id)
               (ClientGet (asset_endpoint collection asset_id))
  /\ gives_way (asset_get_payload_description collection asset_id)
               (ClientGet (payload_description_endpoint collection asset_id))
  /\ gives_way (asset_update_payload_description collection asset_id text)
               (ClientPut (payload_description_endpoint collection asset_id) (Some text))
  /\ gives_way (asset_delete collection asset_id)
               (ClientDelete (asset_endpoint collection asset_id))
  /\ gives_way (asset_copy collection asset_id name)
               (ClientPost (copy_endpoint collection asset_id name) None)
  /\ gives_way (asset_lock collection asset_id flag)
               (ClientPut (lock_endpoint collection asset_id flag) None)
  /\ gives_way (asset_is_empty collection) (ClientGet (empty_endpoint collection))
  /\ gives_way (asset_copy_workspace fuel collection name text ids wait)
               (ClientPost (copy_workspace_endpoint collection)
                           (Some (PJson (copy_workspace_request name text ids))))
  /\ gives_way (asset_get_data verify collection asset_id flag)
               (ClientGet (data_endpoint collection asset_id flag)).
Proof.
  repeat split;
    unfold asset_get, asset_list_reports, asset_get_report,
      asset_set_description, asset_rename, asset_list, asset_versions,
      asset_get_description, asset_get_payload_description,
      asset_update_payload_description, asset_delete, asset_copy, asset_lock,
      asset_is_empty, asset_copy_workspace, asset_get_data; refused.
Qed.

End VerbGates.

(** ** The pollers *)

Section PollerFacts.
Context {lib : PyLib}.

Lemma repeat_snoc {T : Type} (x : T) (n : nat) : repeat x (S n) = repeat x n ++ [x].
Proof. induction n as [|n IH]; simpl in *; [reflexivity | now rewrite <- IH]. Qed.

(** The loop of [asset_polling] while every check reads a pending
    status: it uses up whatever fuel it is given. *)
Lemma asset_polling_loop_pending (collection : string) (asset_id : json)
      (sv : nat -> request -> reply) :
  forall (fuel k : nat) (tr : list event) (asset : Content) (s : json),
    getitem asset "status" = Ret s ->
    in_flight s = true ->
    (forall i, exists r,
        sv (k + i)%nat (ClientGet (asset_endpoint collection asset_id)) = Served r
        /\ pending r) ->
    asset_polling_loop fuel collection asset_id asset (mkWorld (mkNet sv k) tr)
    = (OutOfFuel,
       mkWorld (mkNet sv (k + fuel))
               (tr ++ List.concat
                        (repeat [EvRequest (ClientGet (asset_endpoint collection asset_id));
                                 EvSleep 1] fuel))).
Proof.
  induction fuel as [|fuel IH]; intros k tr asset s Hs Hfl Hall.
  - rewrite asset_polling_loop_eq.
    rewrite (bind_lift _ _ _ s Hs), Hfl. unfold out_of_fuel.
    simpl. now rewrite Nat.add_0_r, app_nil_r.
  - destruct (Hall 0%nat) as (r & Hans & s' & (j & Hdec & Hs') & Hfl').
    rewrite Nat.add_0_r in Hans.
    rewrite asset_polling_loop_eq.
    rewrite (bind_lift _ _ _ s Hs), Hfl.
    rewrite (bind_Ret _ _ _ _ _
               (asset_get_decodes collection asset_id false sv k tr r j Hans Hdec)).
    unfold bind at 1, sleep at 1, record. simpl env. simpl trace.
    rewrite (IH (S k) _ (Structured j) s' Hs' Hfl').
    + f_equal. f_equal; [f_equal; lia|].
      simpl. rewrite <- !app_assoc. reflexivity.
    + intro i. replace (S k + i)%nat with (k + S i)%nat by lia. apply Hall.
Qed.

(** X10.  [asset_polling] has no bound of its own: as long as every check
    reads uploading or processing it goes on, whatever number of passes
    it is allowed; after [fuel] passes it has sent [fuel + 1] requests
    and is still in its loop. *)
Theorem asset_polling_never_gives_up (collection : string) (asset_id : json)
        (sv : nat -> request -> reply) (k : nat) (tr : list event) :
  (forall i, exists r,
      sv (k + i)%nat (ClientGet (asset_endpoint collection asset_id)) = Served r
      /\ pending r) ->
  forall fuel,
    asset_polling fuel collection asset_id (mkWorld (mkNet sv k) tr)
    = (OutOfFuel,
       mkWorld (mkNet sv (k + S fuel))
               (tr ++ checks (asset_endpoint collection asset_id) fuel)).
Proof.
  intros Hall fuel.
  destruct (Hall 0%nat) as (r & Hans & s & (j & Hdec & Hs) & Hfl).
  rewrite Nat.add_0_r in Hans. unfold asset_polling.
  rewrite (bind_Ret _ _ _ _ _
             (asset_get_decodes collection asset_id false sv k tr r j Hans Hdec)).
  unfold bind at 1.
  rewrite (asset_polling_loop_pending collection asset_id sv fuel (S k) _
             (Structured j) s Hs Hfl).
  - f_equal. f_equal; [f_equal; lia|].
    unfold checks. simpl. rewrite <- !app_assoc. reflexivity.
  - intro i. replace (S k + i)%nat with (k + S i)%nat by lia. apply Hall.
Qed.

(** X11.  [asset_polling] on a first check whose decoded value cannot be
    asked for its status, a mapping without the key or a value that is
    no mapping: the error of the subscript reaches the caller after that
    one check. *)
Theorem asset_polling_needs_a_status (fuel : nat) (collection : string) (asset_id : json)
        (sv : nat -> request -> reply) (k : nat) (tr : list event)
        (r : Response) (j : json) (e : exn) :
  sv k (ClientGet (asset_endpoint collection asset_id)) = Served r ->
  decodes_to r j ->
  getitem (Structured j) "status" = Raise e ->
  asset_polling fuel collection asset_id (mkWorld (mkNet sv k) tr)
  = (Raise e,
     mkWorld (mkNet sv (S k))
             (tr ++ [EvRequest (ClientGet (asset_endpoint collection asset_id))])).
Proof.
  intros Hans Hdec He. unfold asset_polling.
  rewrite (bind_Ret _ _ _ _ _
             (asset_get_decodes collection asset_id false sv k tr r j Hans Hdec)).
  rewrite asset_polling_loop_eq. unfold bind, lift. now rewrite He.
Qed.

Lemma get_content_job_decodes (r : Response) (j : json) (w : World Net) :
  job_decodes_to r j ->
  get_content r (with_accept db_accept defaults) w = (Ret (Structured j), w).
Proof.
  intros (Hacc & Hloc & Hjson).
  rewrite (get_content_fetched r r (with_accept db_accept defaults) w w Hacc
             (fetched_direct (with_accept db_accept defaults) r w (or_intror Hloc))).
  unfold decode_response, parse. simpl. now rewrite Hjson.
Qed.

Lemma _assets_db_polling_loop_eq (fuel : nat) (db collection : string) (copy_id : json)
      (content : Content) :
  _assets_db_polling_loop fuel db collection copy_id content
  = (state <- lift (getitem content "state") ;;
     if in_flight state then
       match fuel with
       | O => out_of_fuel
       | S fuel' =>
           response <- send (ClientGet (db_endpoint db collection copy_id)) ;;
           content <- get_content response (with_accept db_accept defaults) ;;
           sleep 1 ;;
           _assets_db_polling_loop fuel' db collection copy_id content
       end
     else ret content).
Proof. destruct fuel; reflexivity. Qed.

Lemma _assets_db_polling_loop_run (db collection : string) (copy_id : json)
      (sv : nat -> request -> reply) (r_last : Response) (j_last s_last : json)
      (rs : list Response) :
  job_decodes_to r_last j_last ->
  getitem (Structured j_last) "state" = Ret s_last ->
  in_flight s_last = false ->
  forall (fuel k : nat) (tr : list event) (content : Content) (s : json),
    getitem content "state" = Ret s ->
    in_flight s = true ->
    Forall job_pending rs ->
    answers sv k (ClientGet (db_endpoint db collection copy_id)) (rs ++ [r_last]) ->
    (List.length rs < fuel)%nat ->
    _assets_db_polling_loop fuel db collection copy_id content (mkWorld (mkNet sv k) tr)
    = (Ret (Structured j_last),
       mkWorld (mkNet sv (S (List.length rs) + k))
               (tr ++ List.concat
                        (repeat [EvRequest (ClientGet (db_endpoint db collection copy_id));
                                 EvSleep 1] (S (List.length rs))))).
Proof.
  intros Hdec_last Hs_last Hdone.
  induction rs as [|r rs IH]; intros fuel k tr content s Hs Hfl Hall Hans Hfuel.
  - destruct fuel as [|fuel]; [simpl in Hfuel; lia|].
    destruct Hans as [Hans _].
    rewrite _assets_db_polling_loop_eq.
    rewrite (bind_lift _ _ _ s Hs), Hfl.
    rewrite (bind_Ret _ _ _ _ _ (send_served sv k tr _ r_last Hans)).
    rewrite (bind_Ret _ _ _ _ _ (get_content_job_decodes r_last j_last _ Hdec_last)).
    unfold bind at 1, sleep at 1, record. simpl env. simpl trace.
    rewrite _assets_db_polling_loop_eq.
    rewrite (bind_lift _ _ _ s_last Hs_last), Hdone.
    unfold ret. simpl. rewrite <- app_assoc. reflexivity.
  - destruct fuel as [|fuel]; [simpl in Hfuel; lia|].
    destruct Hans as [Hans Hrest].
    inversion Hall as [|? ? (s' & (j & Hdec & Hs') & Hfl') Hall']; subst.
    rewrite _assets_db_polling_loop_eq.
    rewrite (bind_lift _ _ _ s Hs), Hfl.
    rewrite (bind_Ret _ _ _ _ _ (send_served sv k tr _ r Hans)).
    rewrite (bind_Ret _ _ _ _ _ (get_content_job_decodes r j _ Hdec)).
    unfold bind at 1, sleep at 1, record. simpl env. simpl trace.
    rewrite (IH fuel (S k)
                ((tr ++ [EvRequest (ClientGet (db_endpoint db collection copy_id))])
                   ++ [EvSleep 1])
                (Structured j) s' Hs' Hfl' Hall' Hrest ltac:(simpl in Hfuel; lia)).
    f_equal. f_equal.
    + f_equal. simpl. lia.
    + simpl. rewrite <- !app_assoc. reflexivity.
Qed.

Lemma _assets_db_polling_run (db collection : string) (copy_id : json)
      (sv : nat -> request -> reply) (rs : list Response) (r_last : Response)
      (j_last s_last : json) (fuel k : nat) (tr : list event) :
  Forall job_pending rs ->
  job_decodes_to r_last j_last ->
  getitem (Structured j_last) "state" = Ret s_last ->
  in_flight s_last = false ->
  answers sv k (ClientGet (db_endpoint db collection copy_id)) (rs ++ [r_last]) ->
  (List.length rs <= fuel)%nat ->
  _assets_db_polling fuel db collection copy_id (mkWorld (mkNet sv k) tr)
  = (Ret (Structured j_last),
     mkWorld (mkNet sv (S (List.length rs) + k))
             (tr ++ checks (db_endpoint db collection copy_id) (List.length rs))).
Proof.
  intros Hall Hdec_last Hs_last Hdone Hans Hfuel. unfold _assets_db_polling.
  destruct rs as [|r rs].
  - destruct Hans as [Hans _].
    rewrite (bind_Ret _ _ _ _ _ (send_served sv k tr _ r_last Hans)).
    rewrite (bind_Ret _ _ _ _ _ (get_content_job_decodes r_last j_last _ Hdec_last)).
    rewrite _assets_db_polling_loop_eq.
    rewrite (bind_lift _ _ _ s_last Hs_last), Hdone. reflexivity.
  - destruct Hans as [Hans Hrest].
    inversion Hall as [|? ? (s' & (j & Hdec & Hs') & Hfl') Hall']; subst.
    rewrite (bind_Ret _ _ _ _ _ (send_served sv k tr _ r Hans)).
    rewrite (bind_Ret _ _ _ _ _ (get_content_job_decodes r j _ Hdec)).
    rewrite (_assets_db_polling_loop_run db collection copy_id sv r_last j_last s_last rs
               Hdec_last Hs_last Hdone fuel (S k)
               (tr ++ [EvRequest (ClientGet (db_endpoint db collection copy_id))])
               (Structured j) s' Hs' Hfl' Hall' Hrest ltac:(simpl in Hfuel; lia)).
    f_equal. f_equal.
    + f_equal. simpl. lia.
    + unfold checks. simpl. rewrite <- !app_assoc. reflexivity.
Qed.

(** X12.  The pollers of the copy and import jobs: when the checks read
    [n] states among uploading and processing and then another state,
    the poller makes [n + 1] checks, sleeps 1 after each check but the
    first, and returns the record read last, whatever its state. *)
Theorem job_pollers_return_the_last_record (collection : string) (copy_id : json)
        (sv : nat -> request -> reply) (rs : list Response) (r_last : Response)
        (j_last s_last : json) (fuel k : nat) (tr : list event) :
  Forall job_pending rs ->
  job_decodes_to r_last j_last ->
  getitem (Structured j_last) "state" = Ret s_last ->
  in_flight s_last = false ->
  (List.length rs <= fuel)%nat ->
  (answers sv k (ClientGet (db_endpoint "copy" collection copy_id)) (rs ++ [r_last]) ->
   copy_workspace_polling fuel collection copy_id (mkWorld (mkNet sv k) tr)
   = (Ret (Structured j_last),
      mkWorld (mkNet sv (S (List.length rs) + k))
              (tr ++ checks (db_endpoint "copy" collection copy_id) (List.length rs))))
  /\ (answers sv k (ClientGet (db_endpoint "import" collection copy_id)) (rs ++ [r_last]) ->
      import_polling fuel collection copy_id (mkWorld (mkNet sv k) tr)
      = (Ret (Structured j_last),
         mkWorld (mkNet sv (S (List.length rs) + k))
                 (tr ++ checks (db_endpoint "import" collection copy_id) (List.length rs)))).
Proof.
  intros Hall Hdec Hs Hdone Hfuel. split; intro Hans.
  - now apply (_assets_db_polling_run "copy" collection copy_id sv rs r_last j_last s_last).
  - now apply (_assets_db_polling_run "import" collection copy_id sv rs r_last j_last s_last).
Qed.

End PollerFacts.

(** ** Verbs that do more than one thing *)

Lemma retry_loop_first_try {Env A : Type} (func : M Env A) (n : nat) (delay : Z)
      (w : World Env) :
  fst (func w) <> Raise ConnectionError ->
  retry_loop n delay func w = func w.
Proof.
  intro H. destruct n as [|n]; [reflexivity|].
  rewrite retry_loop_S. destruct (func w) as [[a|e|] w']; try reflexivity.
  destruct e; try reflexivity. now elim H.
Qed.

Section ComposedVerbs.
Context {lib : PyLib}.

(** X13.  [asset_copy_workspace]: without [wait] the decoded answer to
    the POST is the result; with [wait] the job named by the [id] of the
    answer is polled and its last record is the result.  A list of asset
    ids that is empty is sent as no list at all. *)
Theorem asset_copy_workspace_run (fuel : nat) (collection from_tenant to_tenant : string)
        (asset_ids : option (list string))
        (sv : nat -> request -> reply) (k : nat) (tr : list event)
        (r0 : Response) (j0 : json) :
  sv k (ClientPost (copy_workspace_endpoint collection)
                   (Some (PJson (copy_workspace_request from_tenant to_tenant asset_ids))))
  = Served r0 ->
  decodes_to r0 j0 ->
  asset_copy_workspace fuel collection from_tenant to_tenant asset_ids false
                       (mkWorld (mkNet sv k) tr)
  = (Ret (Structured j0),
     mkWorld (mkNet sv (S k))
             (tr ++ [EvRequest
                       (ClientPost (copy_workspace_endpoint collection)
                          (Some (PJson (copy_workspace_request from_tenant to_tenant
                                                               asset_ids))))]))
  /\ (forall copy_id rs r_last j_last s_last,
         getitem (Structured j0) "id" = Ret copy_id ->
         Forall job_pending rs ->
         job_decodes_to r_last j_last ->
         getitem (Structured j_last) "state" = Ret s_last ->
         in_flight s_last = false ->
         answers sv (S k) (ClientGet (db_endpoint "copy" collection copy_id))
                 (rs ++ [r_last]) ->
         (List.length rs <= fuel)%nat ->
         asset_copy_workspace fuel collection from_tenant to_tenant asset_ids true
                              (mkWorld (mkNet sv k) tr)
         = (Ret (Structured j_last),
            mkWorld (mkNet sv (S (List.length rs) + S k))
                    (tr ++ [EvRequest
                              (ClientPost (copy_workspace_endpoint collection)
                                 (Some (PJson (copy_workspace_request from_tenant to_tenant
                                                                      asset_ids))))]
                        ++ checks (db_endpoint "copy" collection copy_id) (List.length rs))))
  /\ copy_workspace_request from_tenant to_tenant (Some [])
     = copy_workspace_request from_tenant to_tenant None.
Proof.
  intros Hans Hdec. split; [|split].
  - unfold asset_copy_workspace, exception_handler. cbv zeta.
    rewrite (bind_Ret _ _ _ _ _ (send_served sv k tr _ r0 Hans)).
    now rewrite (bind_Ret _ _ _ _ _ (get_content_decodes r0 j0 _ Hdec)).
  - intros copy_id rs r_last j_last s_last Hid Hall Hlast Hs Hdone Hpoll Hfuel.
    unfold asset_copy_workspace, exception_handler. cbv zeta.
    rewrite (bind_Ret _ _ _ _ _ (send_served sv k tr _ r0 Hans)).
    rewrite (bind_Ret _ _ _ _ _ (get_content_decodes r0 j0 _ Hdec)).
    rewrite (bind_lift _ _ _ copy_id Hid). unfold copy_workspace_polling.
    rewrite (_assets_db_polling_run "copy" collection copy_id sv rs r_last j_last s_last
               fuel (S k) _ Hall Hlast Hs Hdone Hpoll Hfuel).
    now rewrite <- app_assoc.
  - reflexivity.
Qed.

(** X14.  [asset_get_report] opens the body as an archive only when the
    caller allows it and the name of the file ends in .zip: the answer is
    decoded with [unzip] set to the conjunction of the two. *)
Theorem asset_get_report_unzip (collection : string) (asset_id : json) (file : string)
        (status csv_content unzip load : bool)
        (sv : nat -> request -> reply) (k : nat) (tr : list event) (r : Response) :
  sv k (ClientGet (report_endpoint collection asset_id file)) = Served r ->
  accepted r defaults = true ->
  location_of r = None ->
  asset_get_report collection asset_id file status csv_content unzip load
                   (mkWorld (mkNet sv k) tr)
  = (decode_response r (mkOptions None load true true csv_content
                                  (if endswith file ".zip" then unzip else false)),
     mkWorld (mkNet sv (S k))
             (tr ++ [EvRequest (ClientGet (report_endpoint collection asset_id file))])).
Proof.
  intros Hans Hacc Hloc. unfold asset_get_report, exception_handler. cbv zeta.
  rewrite (bind_Ret _ _ _ _ _ (send_served sv k tr _ r Hans)).
  replace (unzip && endswith file ".zip")%bool
    with (if endswith file ".zip" then unzip else false)
    by (destruct (endswith file ".zip"), unzip; reflexivity).
  unfold bind.
  rewrite (get_content_fetched r r
             (mkOptions None load true true csv_content
                        (if endswith file ".zip" then unzip else false))
             (mkWorld (mkNet sv (S k))
                      (tr ++ [EvRequest (ClientGet (report_endpoint collection asset_id file))]))
             _ Hacc (fetched_direct _ r _ (or_intror Hloc))).
  destruct (decode_response r _); reflexivity.
Qed.

(** X15.  [asset_get_data] returns bytes, never a parsed value, and
    follows a [Location] whenever the answer has one, whatever the caller
    passed as [get_from_location]: that argument only chooses the mode
    asked for in the query.  The GET of the [Location] uses the [verify]
    of the client. *)
Theorem asset_get_data_bytes (client_verify : bool) (collection : string)
        (asset_id : json) (get_from_location : bool)
        (sv : nat -> request -> reply) (k : nat) (tr : list event) (r : Response) :
  sv k (ClientGet (data_endpoint collection asset_id get_from_location)) = Served r ->
  accepted r defaults = true ->
  (location_of r = None ->
   asset_get_data client_verify collection asset_id get_from_location
                  (mkWorld (mkNet sv k) tr)
   = (Ret (RawBytes (content r)),
      mkWorld (mkNet sv (S k))
              (tr ++ [EvRequest (ClientGet (data_endpoint collection asset_id
                                                          get_from_location))])))
  /\ (forall url r',
         location_of r = Some url ->
         sv (S k) (RequestsGet url client_verify) = Served r' ->
         asset_get_data client_verify collection asset_id get_from_location
                        (mkWorld (mkNet sv k) tr)
         = (Ret (RawBytes (content r')),
            mkWorld (mkNet sv (S (S k)))
                    (tr ++ [EvRequest (ClientGet (data_endpoint collection asset_id
                                                                get_from_location));
                            EvRequest (RequestsGet url client_verify)]))).
Proof.
  intros Hans Hacc. split.
  - intro Hloc. unfold asset_get_data, exception_handler. cbv zeta.
    rewrite (bind_Ret _ _ _ _ _ (send_served sv k tr _ r Hans)).
    assert (Hhdr : headers_get (headers r) "Location" = None
                   \/ headers_get (headers r) "Location" = Some "").
    { unfold location_of in Hloc.
      destruct (headers_get (headers r) "Location") as [h|]; [right | now left].
      destruct (String.eqb_spec h ""); [now subst | discriminate]. }
    unfold bind.
    destruct Hhdr as [Hh|Hh]; rewrite Hh.
    + rewrite (get_content_fetched r r
                 (mkOptions None false false client_verify false true)
                 (mkWorld (mkNet sv (S k))
                    (tr ++ [EvRequest (ClientGet (data_endpoint collection asset_id
                                                                get_from_location))]))
                 _ Hacc (fetched_direct _ r _ (or_intror Hloc))).
      reflexivity.
    + rewrite (get_content_fetched r r
                 (mkOptions None false true client_verify false true)
                 (mkWorld (mkNet sv (S k))
                    (tr ++ [EvRequest (ClientGet (data_endpoint collection asset_id
                                                                get_from_location))]))
                 _ Hacc (fetched_direct _ r _ (or_intror Hloc))).
      reflexivity.
  - intros url r' Hloc Hget. unfold asset_get_data, exception_handler. cbv zeta.
    rewrite (bind_Ret _ _ _ _ _ (send_served sv k tr _ r Hans)).
    assert (Hhdr : headers_get (headers r) "Location" <> None).
    { unfold location_of in Hloc. destruct (headers_get (headers r) "Location");
        [discriminate | discriminate Hloc]. }
    destruct (headers_get (headers r) "Location") as [h|] eqn:Hh; [|now elim Hhdr].
    unfold bind.
    rewrite (get_content_fetched r r' (mkOptions None false true client_verify false true)
               (mkWorld (mkNet sv (S k))
                  (tr ++ [EvRequest (ClientGet (data_endpoint collection asset_id
                                                              get_from_location))]))
               _ Hacc
               (fetched_redirect (mkOptions None false true client_verify false true)
                                 r (mkWorld (mkNet sv (S k))
                                      (tr ++ [EvRequest
                                                (ClientGet (data_endpoint collection asset_id
                                                              get_from_location))]))
                                 url r' eq_refl Hloc Hget)).
    unfold after. simpl. rewrite <- app_assoc. reflexivity.
Qed.

Lemma asset_post_body_put_refused (fuel : nat) (collection asset_name text : string)
      (params : option (list (string * string))) (presigned wait verify : bool)
      (sv : nat -> request -> reply) (k : nat) (tr : list event)
      (r0 : Response) (j0 : json) (url : string) :
  sv k (post_request collection asset_name (PStr text) params presigned) = Served r0 ->
  accepted r0 defaults = true ->
  json_loads (content r0) = Some j0 ->
  headers_get (headers r0) "Location" = Some url ->
  sv (S k) (RequestsPut url (strip (encode text)) verify) = Refused ->
  asset_post_body fuel collection asset_name (PStr text) params presigned wait verify
                  (mkWorld (mkNet sv k) tr)
  = (Raise ConnectionError,
     mkWorld (mkNet sv (S (S k)))
             (tr ++ [EvRequest (post_request collection asset_name (PStr text) params
                                             presigned);
                     EvRequest (RequestsPut url (strip (encode text)) verify)])).
Proof.
  intros Hpost Hacc Hjson Hloc Hput. unfold post_request in *.
  unfold asset_post_body. cbv zeta.
  rewrite (bind_Ret _ _ _ _ _ (send_served sv k tr _ r0 Hpost)).
  rewrite (bind_Ret _ _ _ _ _ (get_content_initial r0 j0 _ Hacc Hjson)).
  rewrite Hloc. rewrite (bind_lift _ _ _ (encode text) eq_refl).
  rewrite (bind_Raise _ _ _ _ _ (send_refused sv (S k) _ _ Hput)).
  now rewrite <- app_assoc.
Qed.

Lemma asset_post_body_upload (fuel : nat) (collection asset_name text : string)
      (params : option (list (string * string))) (presigned verify : bool)
      (sv : nat -> request -> reply) (k : nat) (tr : list event)
      (r0 r_put r_final : Response) (j0 asset_id j_final : json) (url : string) :
  sv k (post_request collection asset_name (PStr text) params presigned) = Served r0 ->
  accepted r0 defaults = true ->
  json_loads (content r0) = Some j0 ->
  getitem (Structured j0) "id" = Ret asset_id ->
  headers_get (headers r0) "Location" = Some url ->
  sv (S k) (RequestsPut url (strip (encode text)) verify) = Served r_put ->
  sv (S (S k)) (ClientGet (asset_endpoint collection asset_id)) = Served r_final ->
  decodes_to r_final j_final ->
  asset_post_body fuel collection asset_name (PStr text) params presigned false verify
                  (mkWorld (mkNet sv k) tr)
  = (Ret (Structured j_final),
     mkWorld (mkNet sv (S (S (S k))))
             (tr ++ [EvRequest (post_request collection asset_name (PStr text) params
                                             presigned);
                     EvRequest (RequestsPut url (strip (encode text)) verify);
                     EvRequest (ClientGet (asset_endpoint collection asset_id))])).
Proof.
  intros Hpost Hacc Hjson Hid Hloc Hput Hget Hfinal. unfold post_request in *.
  unfold asset_post_body. cbv zeta.
  rewrite (bind_Ret _ _ _ _ _ (send_served sv k tr _ r0 Hpost)).
  rewrite (bind_Ret _ _ _ _ _ (get_content_initial r0 j0 _ Hacc Hjson)).
  rewrite Hloc. rewrite (bind_lift _ _ _ (encode text) eq_refl).
  rewrite (bind_Ret _ _ _ _ _ (send_served sv (S k) _ _ r_put Hput)).
  unfold bind at 1, ret at 1.
  rewrite (bind_lift _ _ _ asset_id Hid).
  rewrite (asset_get_decodes collection asset_id false sv (S (S k)) _ r_final j_final
                             Hget Hfinal).
  rewrite <- !app_assoc. reflexivity.
Qed.

(** X16.  [retry] wraps the whole of [asset_post]: when the PUT of the
    payload fails to connect, the wrapper sleeps and the function starts
    over, so that the POST that creates the asset is sent a second time;
    the record returned is that of the asset the second POST created. *)
Theorem asset_post_posts_again (fuel : nat) (collection asset_name text : string)
        (params : option (list (string * string))) (presigned verify : bool)
        (sv : nat -> request -> reply) (k : nat) (tr : list event)
        (r0 r1 r_put r_final : Response) (j0 j1 asset_id j_final : json)
        (url0 url1 : string) :
  sv k (post_request collection asset_name (PStr text) params presigned) = Served r0 ->
  accepted r0 defaults = true ->
  json_loads (content r0) = Some j0 ->
  headers_get (headers r0) "Location" = Some url0 ->
  sv (1 + k)%nat (RequestsPut url0 (strip (encode text)) verify) = Refused ->
  sv (2 + k)%nat (post_request collection asset_name (PStr text) params presigned)
  = Served r1 ->
  accepted r1 defaults = true ->
  json_loads (content r1) = Some j1 ->
  getitem (Structured j1) "id" = Ret asset_id ->
  headers_get (headers r1) "Location" = Some url1 ->
  sv (3 + k)%nat (RequestsPut url1 (strip (encode text)) verify) = Served r_put ->
  sv (4 + k)%nat (ClientGet (asset_endpoint collection asset_id)) = Served r_final ->
  decodes_to r_final j_final ->
  asset_post fuel collection asset_name (PStr text) params presigned false verify
             (mkWorld (mkNet sv k) tr)
  = (Ret (Structured j_final),
     mkWorld (mkNet sv (5 + k))
             (tr ++ [EvRequest (post_request collection asset_name (PStr text) params
                                             presigned);
                     EvRequest (RequestsPut url0 (strip (encode text)) verify);
                     EvSleep 1;
                     EvRequest (post_request collection asset_name (PStr text) params
                                             presigned);
                     EvRequest (RequestsPut url1 (strip (encode text)) verify);
                     EvRequest (ClientGet (asset_endpoint collection asset_id))])).
Proof.
  intros Hpost0 Hacc0 Hjson0 Hloc0 Hput0 Hpost1 Hacc1 Hjson1 Hid Hloc1 Hput1 Hget Hfinal.
  unfold asset_post, exception_handler, retry.
  rewrite retry_loop_S.
  rewrite (asset_post_body_put_refused fuel collection asset_name text params presigned
             false verify sv k tr r0 j0 url0 Hpost0 Hacc0 Hjson0 Hloc0 Hput0).
  simpl is_ConnectionError. cbv iota. unfold record. simpl env. simpl trace.
  rewrite retry_loop_first_try;
    rewrite (asset_post_body_upload fuel collection asset_name text params presigned
               verify sv (S (S k)) _ r1 r_put r_final j1 asset_id j_final url1
               Hpost1 Hacc1 Hjson1 Hid Hloc1 Hput1 Hget Hfinal);
    [|discriminate].
  rewrite <- !app_assoc. reflexivity.
Qed.

Lemma read_csv_rows_raises (delimiter : ascii) (data : list bytes) :
  forall (buffer : bytes) (r : Reader) (e : exn),
    read_csv_rows delimiter buffer r data = Raise e ->
    e = UnicodeDecodeError \/ e = csv_Error.
Proof.
  induction data as [|chunk data IH]; intros buffer r e H; simpl in H.
  - destruct buffer; [|inversion H; now left].
    destruct (_ || _)%bool; discriminate.
  - destruct (utf8_scan (buffer ++ chunk)) as [[out pending]|]; [|inversion H; now left].
    destruct out as [|b out]; [now apply IH in H|].
    destruct (parse_line _ _ _) as [r'|]; [|inversion H; now right].
    destruct (csv_state_eqb _ _); [|now apply IH in H].
    destruct (read_csv_rows delimiter pending parse_reset data) eqn:Hrest;
      try discriminate.
    inversion H; subst. now apply IH in Hrest.
Qed.

(** X17.  [retry] does nothing for [get_content_from_url]: the function
    is a generator, so the call the wrapper guards only makes the
    generator, and the GET is sent when the generator is consumed.  A GET
    that fails to connect then raises at once, after one request and no
    sleep. *)
Theorem get_content_from_url_is_not_retried (url : string) (csv_output raw : bool)
        (delimiter : ascii) (verify : bool)
        (sv : nat -> request -> reply) (k : nat) (tr : list event) :
  sv k (RequestsGet url verify) = Refused ->
  get_content_from_url url csv_output raw delimiter verify (mkWorld (mkNet sv k) tr)
  = (Ret (get_content_from_url_body url csv_output raw delimiter verify),
     mkWorld (mkNet sv k) tr)
  /\ (generator <- get_content_from_url url csv_output raw delimiter verify ;; generator)
       (mkWorld (mkNet sv k) tr)
     = (Raise ConnectionError,
        mkWorld (mkNet sv (S k)) (tr ++ [EvRequest (RequestsGet url verify)])).
Proof.
  intro Hans.
  assert (Hcall : get_content_from_url url csv_output raw delimiter verify
                                       (mkWorld (mkNet sv k) tr)
                  = (Ret (get_content_from_url_body url csv_output raw delimiter verify),
                     mkWorld (mkNet sv k) tr)).
  { unfold get_content_from_url. rewrite retry_first_try; [reflexivity | discriminate]. }
  split; [exact Hcall|].
  rewrite (bind_Ret _ _ _ _ _ Hcall). unfold get_content_from_url_body.
  destruct csv_output;
    now rewrite (bind_Raise _ _ _ _ _ (send_refused sv k tr _ Hans)).
Qed.

(** X18.  With [csv_output] the generator of [get_content_from_url] does
    not look at the status of the answer: whatever the status, the body
    is read as CSV, and the exception of the status gate is never raised;
    without [csv_output] and [raw] an unaccepted status raises it. *)
Theorem get_content_from_url_csv_has_no_gate (url : string) (raw : bool)
        (delimiter : ascii) (verify : bool)
        (sv : nat -> request -> reply) (k : nat) (tr : list event) (r : Response) :
  sv k (RequestsGet url verify) = Served r ->
  (forall x,
      fst (get_content_from_url_body url true raw delimiter verify
                                     (mkWorld (mkNet sv k) tr))
      <> Raise (AriumAPACResponseException x))
  /\ (forall rows,
         read_csv_rows delimiter [] parse_reset (splitlines (content r)) = Ret rows ->
         get_content_from_url_body url true false delimiter verify (mkWorld (mkNet sv k) tr)
         = (Ret (map ItemRow rows),
            mkWorld (mkNet sv (S k)) (tr ++ [EvRequest (RequestsGet url verify)])))
  /\ (accepted r defaults = false ->
      get_content_from_url_body url false false delimiter verify (mkWorld (mkNet sv k) tr)
      = (Raise (AriumAPACResponseException r),
         mkWorld (mkNet sv (S k)) (tr ++ [EvRequest (RequestsGet url verify)]))).
Proof.
  intro Hans. split; [|split].
  - intro x. unfold get_content_from_url_body.
    rewrite (bind_Ret _ _ _ _ _ (send_served sv k tr _ r Hans)).
    unfold get_csv_content, exception_handler. destruct raw; [discriminate|].
    unfold bind, lift.
    destruct (read_csv_rows delimiter [] parse_reset (splitlines (content r)))
      as [rows|e|] eqn:Hrows; simpl; try discriminate.
    destruct (read_csv_rows_raises _ _ _ _ _ Hrows); subst; discriminate.
  - intros rows Hrows. unfold get_content_from_url_body.
    rewrite (bind_Ret _ _ _ _ _ (send_served sv k tr _ r Hans)).
    unfold get_csv_content, exception_handler.
    now rewrite (bind_lift _ _ _ rows Hrows).
  - intro Hacc. unfold get_content_from_url_body.
    rewrite (bind_Ret _ _ _ _ _ (send_served sv k tr _ r Hans)).
    now rewrite (bind_Raise _ _ _ _ _ (get_content_rejected r defaults _ Hacc)).
Qed.

End ComposedVerbs.

(** ** The further properties on the examples *)

Lemma asset_list_missing_key_witness :
  asset_list "portfolios" true empty_object_world
  = (Raise (KeyError "count"),
     mkWorld (mkNet (server (env empty_object_world)) 1)
             [EvRequest (ClientGet "/{tenant}/portfolios/assets?latest=true")]).
Proof.
  apply (proj1 (asset_list_missing_key (lib := examples_lib) "portfolios" true
                  (server (env empty_object_world)) 0 []
                  (plain (encode "{}")) [] eq_refl
                  (conj eq_refl (conj eq_refl eq_refl)))).
  reflexivity.
Defined.

Lemma asset_versions_shapes_witness :
  asset_versions "portfolios" (JString "a1") array_world
  = (Ret (Structured (JArray [])),
     mkWorld (mkNet (server (env array_world)) 1)
             [EvRequest (ClientGet "/{tenant}/portfolios/assets/a1/versions")]).
Proof.
  apply (asset_versions_shapes (lib := examples_lib) "portfolios" (JString "a1")
           (server (env array_world)) 0 [] (plain (encode "[]")) (JArray []) eq_refl
           (conj eq_refl (conj eq_refl eq_refl))).
Defined.

Lemma asset_rename_takes_the_last_witness :
  asset_rename (lib := more_lib) "portfolios" (JString "a1") "final" names_world
  = (Ret (JString "final"),
     mkWorld (mkNet (server (env names_world)) 1)
             [EvRequest (ClientPut "/{tenant}/portfolios/assets/a1/move?assetName=final"
                                   None)]).
Proof.
  apply (proj1 (asset_rename_takes_the_last (lib := more_lib) "portfolios" (JString "a1")
                  "final" (server (env names_world)) 0 []
                  (plain (encode names_text)) eq_refl)
               [JString "draft"] (JString "final")).
  repeat split.
Defined.

Lemma asset_polling_never_gives_up_witness :
  asset_polling 2 "portfolios" (JString "a1") (mkWorld (mkNet stuck_server 0) [])
  = (OutOfFuel,
     mkWorld (mkNet stuck_server 3)
             [EvRequest (ClientGet "/{tenant}/portfolios/assets/a1");
              EvRequest (ClientGet "/{tenant}/portfolios/assets/a1"); EvSleep 1;
              EvRequest (ClientGet "/{tenant}/portfolios/assets/a1"); EvSleep 1]).
Proof.
  apply (asset_polling_never_gives_up (lib := examples_lib) "portfolios" (JString "a1")
           stuck_server 0 []).
  intro i. exists (record_response "a1" "uploading"). split; [reflexivity|].
  exists (JString "uploading"). split; [|reflexivity].
  exists (record_value "a1" "uploading"). repeat split.
Defined.

Lemma asset_polling_needs_a_status_witness :
  asset_polling 2 "portfolios" (JString "a1") empty_object_world
  = (Raise (KeyError "status"),
     mkWorld (mkNet (server (env empty_object_world)) 1)
             [EvRequest (ClientGet "/{tenant}/portfolios/assets/a1")]).
Proof.
  apply (asset_polling_needs_a_status (lib := examples_lib) 2 "portfolios" (JString "a1")
           (server (env empty_object_world)) 0 [] (plain (encode "{}")) (JObject [])
           (KeyError "status") eq_refl (conj eq_refl (conj eq_refl eq_refl)) eq_refl).
Defined.

Lemma job_observed (status : Z) (id state : string) :
  In status [OK; ACCEPTED] ->
  In (id, state) [("c1", "uploading"); ("c1", "processing"); ("c1", "done")] ->
  job_decodes_to (lib := examples_lib)
                 (mkResponse status [] (encode (job_text id state))) (job_value id state).
Proof.
  intros Hs H. simpl in Hs, H.
  destruct Hs as [Hs|[Hs|[]]]; subst;
    destruct H as [H|[H|[H|[]]]]; inversion H; subst; repeat split.
Qed.

Lemma job_pollers_return_the_last_record_witness :
  copy_workspace_polling 2 "portfolios" (JString "c1") copy_world
  = (Ret (Structured (job_value "c1" "done")),
     mkWorld (mkNet (server (env copy_world)) 3)
             [EvRequest (ClientGet "/{tenant}/portfolios/assets/copy/c1");
              EvRequest (ClientGet "/{tenant}/portfolios/assets/copy/c1"); EvSleep 1;
              EvRequest (ClientGet "/{tenant}/portfolios/assets/copy/c1"); EvSleep 1]).
Proof.
  apply (proj1 (job_pollers_return_the_last_record (lib := examples_lib)
                  "portfolios" (JString "c1") (server (env copy_world))
                  [mkResponse ACCEPTED [] (encode (job_text "c1" "uploading"));
                   mkResponse ACCEPTED [] (encode (job_text "c1" "processing"))]
                  (plain (encode (job_text "c1" "done")))
                  (job_value "c1" "done") (JString "done") 2 0 []
                  ltac:(repeat constructor; eexists;
                        (split; [eexists; (split; [apply job_observed; simpl; tauto
                                                  | reflexivity])
                                | reflexivity]))
                  ltac:(apply job_observed; simpl; tauto)
                  eq_refl eq_refl ltac:(simpl; lia))).
  simpl. tauto.
Defined.

Lemma asset_copy_workspace_run_witness :
  asset_copy_workspace 2 "portfolios" "workspace1" "workspace2" (Some ["a1"]) true
                       copy_workspace_world
  = (Ret (Structured (job_value "c1" "done")),
     mkWorld (mkNet (server (env copy_workspace_world)) 4)
             [EvRequest
                (ClientPost "/{tenant}/portfolios/assets/copy"
                   (Some (PJson (JObject [("from_tenant", JString "workspace1");
                                          ("to_tenant", JString "workspace2");
                                          ("assets", JArray [JString "a1"])]))));
              EvRequest (ClientGet "/{tenant}/portfolios/assets/copy/c1");
              EvRequest (ClientGet "/{tenant}/portfolios/assets/copy/c1"); EvSleep 1;
              EvRequest (ClientGet "/{tenant}/portfolios/assets/copy/c1"); EvSleep 1]).
Proof.
  destruct (asset_copy_workspace_run (lib := examples_lib) 2 "portfolios"
              "workspace1" "workspace2" (Some ["a1"])
              (server (env copy_workspace_world)) 0 []
              (plain (encode (job_text "c1" "uploading"))) (job_value "c1" "uploading")
              eq_refl (conj eq_refl (conj eq_refl eq_refl))) as (_ & Hwait & _).
  apply (Hwait (JString "c1")
               [mkResponse ACCEPTED [] (encode (job_text "c1" "uploading"));
                mkResponse ACCEPTED [] (encode (job_text "c1" "processing"))]
               (plain (encode (job_text "c1" "done")))
               (job_value "c1" "done") (JString "done")).
  - reflexivity.
  - repeat constructor; eexists;
      (split; [eexists; (split; [apply job_observed; simpl; tauto | reflexivity])
              | reflexivity]).
  - apply job_observed; simpl; tauto.
  - reflexivity.
  - reflexivity.
  - simpl. tauto.
  - simpl. lia.
Defined.

Lemma asset_get_report_unzip_witness :
  asset_get_report "portfolios" (JString "a1") "rows.csv" true true true true report_world
  = (Ret (Tabular [["a"; "b"]; ["1"; "2"]]),
     mkWorld (mkNet (server (env report_world)) 1)
             [EvRequest (ClientGet "/{tenant}/portfolios/assets/a1/reports/rows.csv")]).
Proof.
  apply (asset_get_report_unzip (lib := examples_lib) "portfolios" (JString "a1")
           "rows.csv" true true true true (server (env report_world)) 0 []
           (plain (encode csv_text)) eq_refl eq_refl eq_refl).
Defined.

Lemma asset_get_data_bytes_witness :
  asset_get_data true "portfolios" (JString "a1") false presigned_world
  = (Ret (RawBytes latin1_body),
     mkWorld (mkNet (server (env presigned_world)) 2)
             [EvRequest (ClientGet
                           "/{tenant}/portfolios/assets/a1/payload?assetPayloadMode=auto");
              EvRequest (RequestsGet "https://files/a1" true)]).
Proof.
  apply (proj2 (asset_get_data_bytes (lib := examples_lib) true "portfolios" (JString "a1")
                  false (server (env presigned_world)) 0 []
                  (redirect "https://files/a1") eq_refl eq_refl)
               "https://files/a1" (plain latin1_body) eq_refl eq_refl).
Defined.

Lemma asset_post_posts_again_witness :
  asset_post (lib := more_lib) 0 "portfolios" "name" (PStr "payload-text") None
             false false true upload_again_world
  = (Ret (Structured (record_value "a2" "ready")),
     mkWorld (mkNet (server (env upload_again_world)) 5)
             [EvRequest (ClientPost "/{tenant}/portfolios/assets?assetName=name"
                                    (Some (PStr "payload-text")));
              EvRequest (RequestsPut "https://upload/a1" (encode "payload-text") true);
              EvSleep 1;
              EvRequest (ClientPost "/{tenant}/portfolios/assets?assetName=name"
                                    (Some (PStr "payload-text")));
              EvRequest (RequestsPut "https://upload/a2" (encode "payload-text") true);
              EvRequest (ClientGet "/{tenant}/portfolios/assets/a2")]).
Proof.
  apply (asset_post_posts_again (lib := more_lib) 0 "portfolios" "name" "payload-text"
           None false true (server (env upload_again_world)) 0 []
           (mkResponse OK [("Location", "https://upload/a1")]
                       (encode (record_text "a1" "uploading")))
           (mkResponse OK [("Location", "https://upload/a2")]
                       (encode (record_text "a2" "uploading")))
           (plain []) (record_response "a2" "ready")
           (record_value "a1" "uploading") (record_value "a2" "uploading")
           (JString "a2") (record_value "a2" "ready")
           "https://upload/a1" "https://upload/a2"
           eq_refl eq_refl eq_refl eq_refl eq_refl eq_refl eq_refl eq_refl eq_refl
           eq_refl eq_refl eq_refl (conj eq_refl (conj eq_refl eq_refl))).
Defined.

Lemma get_content_from_url_is_not_retried_witness :
  (generator <- get_content_from_url "https://files/a1" false false "," true ;; generator)
    (world_of [])
  = (Raise ConnectionError,
     mkWorld (mkNet (scripted []) 1) [EvRequest (RequestsGet "https://files/a1" true)]).
Proof.
  apply (proj2 (get_content_from_url_is_not_retried (lib := examples_lib)
                  "https://files/a1" false false "," true (scripted []) 0 [] eq_refl)).
Defined.

Lemma get_content_from_url_csv_has_no_gate_witness :
  get_content_from_url_body "https://files/a1" true false "," true not_found_csv_world
  = (Ret [ItemRow ["a"; "b"]; ItemRow ["1"; "2"]],
     mkWorld (mkNet (server (env not_found_csv_world)) 1)
             [EvRequest (RequestsGet "https://files/a1" true)]).
Proof.
  destruct (get_content_from_url_csv_has_no_gate (lib := examples_lib)
              "https://files/a1" false "," true (server (env not_found_csv_world)) 0 []
              (mkResponse 404 [] (encode csv_text)) eq_refl) as (_ & Hrows & _).
  apply (Hrows [["a"; "b"]; ["1"; "2"]]). reflexivity.
Defined.

(** ** Tables without quoting *)

Lemma line_char_byte (c : ascii) :
  line_char c = true ->
  byte_of_ascii c <> x0a /\ byte_of_ascii c <> x0d
  /\ utf8_length (byte_of_ascii c) = 1%nat.
Proof.
  destruct c as [[] [] [] [] [] [] [] []]; intro H; vm_compute in H;
    try discriminate H; vm_compute; repeat split; discriminate.
Qed.

Lemma splitlines_from_ordinary (b : byte) (line r : bytes) :
  b <> x0a -> b <> x0d ->
  splitlines_from line (b :: r) = splitlines_from (b :: line) r.
Proof.
  intros Ha Hd. destruct b; try reflexivity; [now elim Ha | now elim Hd].
Qed.

Lemma encode_app (a b : string) : encode (a ++ b)%string = encode a ++ encode b.
Proof.
  unfold encode, list_byte_of_string.
  induction a as [|c a IH]; simpl; [reflexivity | now f_equal].
Qed.

Lemma splitlines_from_line (s : string) :
  all_chars line_char s = true ->
  forall (line rest : bytes),
    splitlines_from line (encode s ++ x0a :: rest)
    = (rev line ++ encode s) :: splitlines_from [] rest.
Proof.
  induction s as [|c s IH]; intros Hs line rest.
  - simpl. now rewrite app_nil_r.
  - simpl in Hs. apply andb_prop in Hs. destruct Hs as [Hc Hs].
    destruct (line_char_byte c Hc) as (Ha & Hd & _).
    change (encode (String c s)) with (byte_of_ascii c :: encode s).
    simpl app. rewrite (splitlines_from_ordinary _ _ _ Ha Hd), (IH Hs).
    simpl rev. now rewrite <- app_assoc.
Qed.

Lemma splitlines_document (rows : list (list string)) :
  Forall (fun row => all_chars line_char (csv_line row) = true) rows ->
  splitlines (encode (csv_document rows)) = map (fun row => encode (csv_line row)) rows.
Proof.
  unfold splitlines. induction rows as [|row rows IH]; intro H; [reflexivity|].
  inversion H as [|? ? Hrow Hrows]; subst. simpl csv_document.
  rewrite encode_app. change (encode (String "010" (csv_document rows)))
    with (x0a :: encode (csv_document rows)).
  rewrite (splitlines_from_line _ Hrow). simpl. now rewrite (IH Hrows).
Qed.

Lemma utf8_scan_ascii (s : string) :
  all_chars line_char s = true ->
  utf8_scan (encode s) = Some (encode s, []).
Proof.
  induction s as [|c s IH]; intro Hs; [reflexivity|].
  simpl in Hs. apply andb_prop in Hs. destruct Hs as [Hc Hs].
  destruct (line_char_byte c Hc) as (_ & _ & Hlen).
  change (encode (String c s)) with (byte_of_ascii c :: encode s).
  simpl utf8_scan. rewrite Hlen, (IH Hs). reflexivity.
Qed.

Lemma iterdecode_lines (lines : list string) :
  Forall (fun l => all_chars line_char l = true /\ l <> EmptyString) lines ->
  iterdecode (map encode lines) = Some lines.
Proof.
  unfold iterdecode. induction lines as [|l lines IH]; intro H; [reflexivity|].
  inversion H as [|? ? [Hl Hne] Hrest]; subst. simpl.
  rewrite (utf8_scan_ascii l Hl), (IH Hrest).
  destruct l as [|c l]; [now elim Hne|].
  change (encode (String c l)) with (byte_of_ascii c :: encode l).
  change (byte_of_ascii c :: encode l) with (encode (String c l)).
  now rewrite string_of_list_byte_of_string.
Qed.

Lemma plain_char_facts (c : ascii) :
  plain_char c = true ->
  is_newline c = false /\ Ascii.eqb c quotechar = false
  /\ Ascii.eqb c "," = false /\ starts_char c = true.
Proof.
  unfold plain_char, line_char, starts_char. intro H.
  apply andb_prop in H. destruct H as [H Hd].
  apply andb_prop in H. destruct H as [H Hq].
  apply andb_prop in H. destruct H as [Hnl Hlt].
  apply negb_true_iff in Hd, Hq, Hnl. apply Nat.ltb_lt in Hlt.
  repeat split; trivial.
  apply negb_true_iff.
  destruct (Nat.leb_spec 128 (nat_of_ascii c)); [lia | reflexivity].
Qed.

(** The characters of a plain field, read inside a field. *)
Lemma parse_line_in_field (cs : string) :
  all_chars plain_char cs = true ->
  forall (buf : list ascii) (n : N) (fs : list string) (tail : string),
    (n + N.of_nat (String.length cs) <= field_limit)%N ->
    parse_line "," (mkReader IN_FIELD buf n fs) (cs ++ tail)
    = parse_line "," (mkReader IN_FIELD (rev (list_ascii_of_string cs) ++ buf)
                               (n + N.of_nat (String.length cs)) fs) tail.
Proof.
  induction cs as [|c cs IH]; intros Hcs buf n fs tail Hlen.
  - simpl. now rewrite N.add_0_r.
  - simpl in Hcs. apply andb_prop in Hcs. destruct Hcs as [Hc Hcs].
    destruct (plain_char_facts c Hc) as (Hnl & Hq & Hd & Hstart).
    simpl String.length in *. rewrite Nat2N.inj_succ in *.
    simpl append. simpl parse_line.
    unfold parse_process_char. simpl state.
    rewrite Hnl, Hd. unfold parse_add_char. rewrite Hstart. simpl field_len.
    destruct (N.leb_spec field_limit n) as [Hbad|_]; [lia|].
    simpl. rewrite (IH Hcs); [|lia].
    simpl rev. rewrite <- app_assoc. simpl app.
    f_equal. f_equal. lia.
Qed.

(** A plain field, read from the start of a field or of a record. *)
Lemma parse_line_field (st : csv_state) (f : string) (fs : list string) (tail : string) :
  st = START_RECORD \/ st = START_FIELD ->
  plain_field f ->
  f <> EmptyString ->
  parse_line "," (mkReader st [] 0 fs) (f ++ tail)
  = parse_line "," (mkReader IN_FIELD (rev (list_ascii_of_string f))
                             (N.of_nat (String.length f)) fs) tail.
Proof.
  intros Hst [Hf Hlen] Hne. destruct f as [|c cs]; [now elim Hne|].
  simpl in Hf. apply andb_prop in Hf. destruct Hf as [Hc Hcs].
  destruct (plain_char_facts c Hc) as (Hnl & Hq & Hd & Hstart).
  simpl String.length in *. rewrite Nat2N.inj_succ in *.
  unfold field_limit in *.
  assert (Hstep : parse_process_char "," (mkReader st [] 0 fs) (Chr c)
                  = Some (mkReader IN_FIELD [c] 1 fs)).
  { destruct Hst; subst st; unfold parse_process_char; simpl state;
      rewrite ?Hnl; unfold start_field; rewrite Hnl, Hq, Hd;
      unfold parse_add_char; rewrite Hstart; reflexivity. }
  simpl append. simpl parse_line. rewrite Hstep.
  rewrite (parse_line_in_field cs Hcs [c] 1 fs tail); [|unfold field_limit; lia].
  simpl rev. f_equal. f_equal. lia.
Qed.

Lemma string_of_rev_rev (f : string) :
  string_of_list_ascii (rev (rev (list_ascii_of_string f))) = f.
Proof. now rewrite rev_involutive, string_of_list_ascii_of_string. Qed.

Lemma append_empty (s : string) : (s ++ EmptyString)%string = s.
Proof. induction s as [|c s IH]; simpl; [reflexivity | now rewrite IH]. Qed.

Lemma parse_line_end_in_field (buf : list ascii) (n : N) (fs : list string) :
  parse_line "," (mkReader IN_FIELD buf n fs) EmptyString
  = Some (mkReader START_RECORD [] 0 (string_of_list_ascii (rev buf) :: fs)).
Proof. reflexivity. Qed.

Lemma parse_line_comma_in_field (buf : list ascii) (n : N) (fs : list string)
      (tail : string) :
  parse_line "," (mkReader IN_FIELD buf n fs) (String "," tail)
  = parse_line "," (mkReader START_FIELD [] 0 (string_of_list_ascii (rev buf) :: fs)) tail.
Proof. reflexivity. Qed.

(** A plain row, its line read to the end. *)
Lemma parse_line_row (row : list string) :
  Forall plain_field row ->
  row <> [] ->
  forall (st : csv_state) (fs : list string),
    st = START_FIELD \/ (st = START_RECORD /\ row <> [EmptyString]) ->
    parse_line "," (mkReader st [] 0 fs) (csv_line row)
    = Some (mkReader START_RECORD [] 0 (rev row ++ fs)).
Proof.
  induction row as [|f row IH]; intros Hrow Hne st fs Hst; [now elim Hne|].
  inversion Hrow as [|? ? Hf Hrest]; subst.
  destruct row as [|g row].
  - (* the last field of the line *)
    unfold csv_line. simpl String.concat. simpl rev. simpl app.
    destruct f as [|c cs].
    + destruct Hst as [Hst|[_ Hbad]]; [subst st; reflexivity | now elim Hbad].
    + rewrite <- (append_empty (String c cs)).
      rewrite (parse_line_field st (String c cs) fs EmptyString);
        [|destruct Hst as [?|[? _]]; auto | exact Hf | discriminate].
      rewrite parse_line_end_in_field.
      now rewrite (string_of_rev_rev (String c cs)), append_empty.
  - (* a field followed by a comma *)
    assert (Hnext : parse_line "," (mkReader START_FIELD [] 0 (f :: fs))
                               (csv_line (g :: row))
                    = Some (mkReader START_RECORD [] 0 (rev (g :: row) ++ f :: fs))).
    { apply IH; [exact Hrest | discriminate | now left]. }
    change (csv_line (f :: g :: row))
      with (f ++ String "," (csv_line (g :: row)))%string.
    replace (rev (f :: g :: row) ++ fs) with (rev (g :: row) ++ f :: fs)
      by (simpl; now rewrite <- !app_assoc).
    destruct f as [|c cs].
    + simpl append. simpl parse_line.
      destruct Hst as [Hst|[Hst _]]; subst st; exact Hnext.
    + rewrite (parse_line_field st (String c cs) fs _);
        [|destruct Hst as [?|[? _]]; auto | exact Hf | discriminate].
      rewrite parse_line_comma_in_field.
      rewrite (string_of_rev_rev (String c cs)). exact Hnext.
Qed.

Lemma reader_rows_plain (rows : list (list string)) :
  Forall plain_row rows ->
  reader_rows "," parse_reset (map csv_line rows) = Some rows.
Proof.
  induction rows as [|row rows IH]; intro H; [reflexivity|].
  inversion H as [|? ? (Hne & Hne' & Hfields) Hrest]; subst.
  simpl map. simpl reader_rows. unfold parse_reset at 1.
  rewrite (parse_line_row row Hfields Hne START_RECORD []); [|right; now split].
  simpl. rewrite (IH Hrest). simpl. now rewrite app_nil_r, rev_involutive.
Qed.

Lemma plain_is_line (f : string) :
  all_chars plain_char f = true -> all_chars line_char f = true.
Proof.
  induction f as [|c f IH]; simpl; [reflexivity|]. intro H.
  apply andb_prop in H. destruct H as [Hc Hf]. rewrite (IH Hf).
  unfold plain_char in Hc.
  apply andb_prop in Hc. destruct Hc as [Hc _].
  apply andb_prop in Hc. destruct Hc as [Hc _].
  now rewrite Hc.
Qed.

Lemma all_chars_app (p : ascii -> bool) (a b : string) :
  all_chars p (a ++ b)%string = (all_chars p a && all_chars p b)%bool.
Proof.
  induction a as [|c a IH]; simpl; [reflexivity|]. now rewrite IH, andb_assoc.
Qed.

Lemma csv_line_chars (row : list string) :
  Forall plain_field row -> all_chars line_char (csv_line row) = true.
Proof.
  unfold csv_line. induction row as [|f row IH]; intro H; [reflexivity|].
  inversion H as [|? ? [Hf _] Hrest]; subst.
  destruct row as [|g row]; simpl String.concat.
  - now apply plain_is_line.
  - rewrite all_chars_app, (plain_is_line f Hf). simpl.
    change (line_char ",") with true. simpl. now apply IH.
Qed.

Lemma csv_line_not_empty (row : list string) :
  row <> [] -> row <> [EmptyString] -> csv_line row <> EmptyString.
Proof.
  intros Hne Hne'. destruct row as [|f [|g row]]; [now elim Hne | |].
  - unfold csv_line. simpl. intro H. subst. now elim Hne'.
  - unfold csv_line. simpl String.concat. destruct f; simpl; discriminate.
Qed.

Lemma read_csv_plain (rows : list (list string)) :
  Forall plain_row rows ->
  read_csv (splitlines (encode (csv_document rows))) "," = Some rows.
Proof.
  intro H. unfold read_csv, csv_reader.
  rewrite splitlines_document.
  - rewrite <- (map_map csv_line encode), iterdecode_lines.
    + now apply reader_rows_plain.
    + apply Forall_map. apply (Forall_impl _ (P := plain_row)); [|exact H].
      intros row (Hne & Hne' & Hf). split;
        [now apply csv_line_chars | now apply csv_line_not_empty].
  - apply (Forall_impl _ (P := plain_row)); [|exact H].
    intros row (_ & _ & Hf). now apply csv_line_chars.
Qed.

Section TableFacts.
Context {lib : PyLib}.

(** X19.  Every table of plain fields comes back as it is: when the body,
    or with [unzip] the single entry of the archive the body is, is the
    text of the table, the fields joined by commas and each row ended by
    LF, [get_content] under [load] and [csv_content] returns the rows of
    the table, field for field.  (A row that is the empty field alone is
    an empty line, which the decoding skips; it is not a plain row.) *)
Theorem get_content_reads_plain_tables (r r' : Response) (o : options)
        (w w' : World Net) (rows : list (list string)) :
  accepted r o = true ->
  fetched o r w r' w' ->
  load o = true ->
  csv_content o = true ->
  Forall plain_row rows ->
  (if unzip o
   then exists name, ZipFile (content r') = Some [(name, encode (csv_document rows))]
   else content r' = encode (csv_document rows)) ->
  get_content r o w = (Ret (Tabular rows), w').
Proof.
  intros Hacc Hf Hload Hcsv Hrows Hbody.
  rewrite (get_content_fetched r r' o w w' Hacc Hf).
  unfold decode_response, parse. rewrite Hload, Hcsv. simpl negb. cbv iota.
  destruct (unzip o).
  - destruct Hbody as [name Hzip]. rewrite Hzip. simpl namelist.
    unfold zip_read. simpl rev. simpl find. rewrite String.eqb_refl. simpl option_map.
    cbv iota beta. now rewrite (read_csv_plain rows Hrows).
  - rewrite Hbody. now rewrite (read_csv_plain rows Hrows).
Qed.

End TableFacts.

Lemma people_plain : Forall plain_row people.
Proof.
  repeat constructor; try discriminate; unfold field_limit; simpl; lia.
Qed.

Lemma get_content_reads_plain_tables_witness :
  get_content (plain (encode (csv_document people))) (csv_options false) (world_of [])
  = (Ret (Tabular people), world_of []).
Proof.
  apply (get_content_reads_plain_tables (lib := examples_lib)
           (plain (encode (csv_document people))) (plain (encode (csv_document people)))
           (csv_options false) (world_of []) (world_of []) people).
  - reflexivity.
  - apply fetched_direct. right. reflexivity.
  - reflexivity.
  - reflexivity.
  - exact people_plain.
  - reflexivity.
Defined.

(** ** The generator of rows *)

(** Consumed to its end, the generator yields what [list(read_csv(...))]
    returns. *)
Lemma read_csv_rows_agrees (delimiter : ascii) (data : list bytes) :
  forall (buffer : bytes) (r : Reader) (lines : list string) (rows : list (list string)),
    iterdecode_from buffer data = Some lines ->
    reader_rows delimiter r lines = Some rows ->
    read_csv_rows delimiter buffer r data = Ret rows.
Proof.
  induction data as [|chunk data IH]; intros buffer r lines rows Hdec Hrows.
  - simpl in *. destruct buffer; [|discriminate]. inversion Hdec; subst.
    simpl in Hrows. destruct (_ || _)%bool; now inversion Hrows.
  - simpl in *.
    destruct (utf8_scan (buffer ++ chunk)) as [[out pending]|]; [|discriminate].
    destruct (iterdecode_from pending data) as [rest|] eqn:Hrest; [|discriminate].
    inversion Hdec; subst; clear Hdec.
    destruct out as [|b out]; [now apply (IH pending r rest)|].
    cbn [reader_rows] in Hrows.
    destruct (parse_line delimiter r (string_of_list_byte (b :: out))) as [r'|];
      [|discriminate].
    destruct (csv_state_eqb (state r') START_RECORD).
    + destruct (reader_rows delimiter parse_reset rest) as [rows'|] eqn:Hrows';
        [|discriminate].
      inversion Hrows; subst.
      now rewrite (IH pending parse_reset rest rows' Hrest Hrows').
    + now apply (IH pending r' rest).
Qed.

Section GeneratorFacts.
Context {lib : PyLib}.

(** X20.  The generator of [get_content_from_url] with [csv_output],
    consumed to its end, yields the rows of every table of plain fields,
    one item a row, whatever the status of the answer. *)
Theorem get_content_from_url_yields_plain_tables (url : string) (verify : bool)
        (sv : nat -> request -> reply) (k : nat) (tr : list event)
        (r : Response) (rows : list (list string)) :
  sv k (RequestsGet url verify) = Served r ->
  Forall plain_row rows ->
  content r = encode (csv_document rows) ->
  (generator <- get_content_from_url url true false "," verify ;; generator)
    (mkWorld (mkNet sv k) tr)
  = (Ret (map ItemRow rows),
     mkWorld (mkNet sv (S k)) (tr ++ [EvRequest (RequestsGet url verify)])).
Proof.
  intros Hans Hrows Hbody.
  assert (Hcall : get_content_from_url url true false "," verify (mkWorld (mkNet sv k) tr)
                  = (Ret (get_content_from_url_body url true false "," verify),
                     mkWorld (mkNet sv k) tr)).
  { unfold get_content_from_url. rewrite retry_first_try; [reflexivity | discriminate]. }
  rewrite (bind_Ret _ _ _ _ _ Hcall). unfold get_content_from_url_body.
  rewrite (bind_Ret _ _ _ _ _ (send_served sv k tr _ r Hans)).
  unfold get_csv_content, exception_handler. rewrite Hbody.
  pose proof (read_csv_plain rows Hrows) as Hread. unfold read_csv in Hread.
  destruct (iterdecode (splitlines (encode (csv_document rows)))) as [lines|] eqn:Hdec;
    [|discriminate].
  now rewrite (bind_lift _ _ _ rows
                 (read_csv_rows_agrees "," _ [] parse_reset lines rows Hdec Hread)).
Qed.


End GeneratorFacts.

Lemma get_content_from_url_yields_plain_tables_witness :
  (generator <- get_content_from_url "https://files/people.csv" true false "," true ;;
   generator) people_world
  = (Ret (map ItemRow people),
     mkWorld (mkNet (server (env people_world)) 1)
             [EvRequest (RequestsGet "https://files/people.csv" true)]).
Proof.
  apply (get_content_from_url_yields_plain_tables (lib := examples_lib)
           "https://files/people.csv" true (server (env people_world)) 0 []
           (mkResponse 404 [] (encode (csv_document people))) people
           eq_refl people_plain eq_refl).
Defined.


(** ** The query of [asset_post] *)

Lemma count_char_app (c : ascii) (a b : string) :
  count_char c (a ++ b)%string = (count_char c a + count_char c b)%nat.
Proof.
  induction a as [|x a IH]; simpl; [reflexivity|]. rewrite IH. lia.
Qed.

Lemma quote_plus_first (c : ascii) (s : string) :
  quote_plus (String c s) = (quote_plus (String c EmptyString) ++ quote_plus s)%string.
Proof.
  simpl. destruct (always_safe c); [reflexivity|].
  destruct (Ascii.eqb c " "); reflexivity.
Qed.

Lemma quote_plus_one_clean (c : ascii) :
  count_char "&" (quote_plus (String c EmptyString)) = 0%nat
  /\ count_char "=" (quote_plus (String c EmptyString)) = 0%nat.
Proof.
  destruct c as [[] [] [] [] [] [] [] []]; vm_compute; split; reflexivity.
Qed.

(** What [quote_plus] returns has neither an ampersand nor an equals
    sign. *)
Lemma quote_plus_clean (s : string) :
  count_char "&" (quote_plus s) = 0%nat /\ count_char "=" (quote_plus s) = 0%nat.
Proof.
  induction s as [|c s [IHa IHe]]; [split; reflexivity|].
  rewrite quote_plus_first, !count_char_app, IHa, IHe.
  destruct (quote_plus_one_clean c) as [Ha He]. now rewrite Ha, He.
Qed.

Lemma pair_counts (key value : string) :
  count_char "&" (quote_plus key ++ "=" ++ quote_plus value)%string = 0%nat
  /\ count_char "=" (quote_plus key ++ "=" ++ quote_plus value)%string = 1%nat.
Proof.
  destruct (quote_plus_clean key) as [Hka Hke].
  destruct (quote_plus_clean value) as [Hva Hve].
  rewrite !count_char_app, Hka, Hke.
  change ("=" ++ quote_plus value)%string with (String "=" (quote_plus value)).
  cbn [count_char]. rewrite Hva, Hve. split; reflexivity.
Qed.

Lemma concat_counts (texts : list string) :
  Forall (fun t => count_char "&" t = 0%nat /\ count_char "=" t = 1%nat) texts ->
  count_char "&" (String.concat "&" texts) = (List.length texts - 1)%nat
  /\ count_char "=" (String.concat "&" texts) = List.length texts.
Proof.
  induction texts as [|t texts IH]; intro H; [split; reflexivity|].
  inversion H as [|? ? [Ha He] Hrest]; subst.
  destruct (IH Hrest) as [IHa IHe].
  destruct texts as [|u texts].
  - cbn [String.concat List.length]. now rewrite Ha, He.
  - change (String.concat "&" (t :: u :: texts))
      with (t ++ String "&" (String.concat "&" (u :: texts)))%string.
    rewrite !count_char_app. cbn [count_char]. rewrite Ha, He, IHa, IHe.
    cbn [List.length]. change (Ascii.eqb "&" "&") with true.
    change (Ascii.eqb "&" "=") with false. split; lia.
Qed.

Lemma urlencode_counts (query : list (string * string)) :
  count_char "&" (urlencode query) = (List.length query - 1)%nat
  /\ count_char "=" (urlencode query) = List.length query.
Proof.
  unfold urlencode.
  rewrite <- (length_map (fun kv => (quote_plus (fst kv) ++ "=" ++ quote_plus (snd kv))%string)
                         query).
  apply concat_counts. apply Forall_map. apply Forall_forall.
  intros [key value] _. apply pair_counts.
Qed.

Lemma dict_update_head (other : list (string * string)) :
  forall (key value : string) (d : list (string * string)),
  exists value' d', dict_update ((key, value) :: d) other = (key, value') :: d'.
Proof.
  unfold dict_update. induction other as [|[k v] other IH]; intros key value d; simpl.
  - now exists value, d.
  - destruct (String.eqb key k); apply IH.
Qed.

(** X22.  The query [asset_post] builds: its first parameter is
    [assetName], which [params] may give another value but not another
    place; and whatever characters the name and [params] hold, the query
    has one equals sign for each parameter and one ampersand between two
    parameters, the rest being percent-encoded. *)
Theorem asset_post_query (collection asset_name : string)
        (params : option (list (string * string))) (presigned : bool) :
  exists query,
    post_endpoint collection asset_name params presigned
    = ("/{tenant}/" ++ collection ++ "/assets?" ++ urlencode query)%string
    /\ (exists value rest, query = ("assetName", value) :: rest)
    /\ (params = None ->
        query = ("assetName", asset_name)
                  :: (if presigned then [("assetPayloadMode", "True")] else []))
    /\ count_char "&" (urlencode query) = (List.length query - 1)%nat
    /\ count_char "=" (urlencode query) = List.length query.
Proof.
  unfold post_endpoint. cbv zeta.
  set (base := [("assetName", asset_name)]
                 ++ (if presigned then [("assetPayloadMode", "True")] else [])).
  exists (match params with Some p => dict_update base p | None => base end).
  split; [reflexivity|]. split; [|split; [|apply urlencode_counts]].
  - destruct params as [p|].
    + apply dict_update_head.
    + now exists asset_name, (if presigned then [("assetPayloadMode", "True")] else []).
  - intro Hp. now subst params.
Qed.

(** ** [asset_post] behind [retry] *)

(** The loop of [retry] around a function that gives way when its first
    request is refused, on a server that refuses it [n] times. *)
Lemma retry_loop_refused {A : Type} (func : M Net A) (rq : request)
      (sv : nat -> request -> reply) (n : nat) :
  (forall k tr, sv k rq = Refused ->
                func (mkWorld (mkNet sv k) tr)
                = (Raise ConnectionError,
                   mkWorld (mkNet sv (S k)) (tr ++ [EvRequest rq]))) ->
  forall (remaining : nat) (delay : Z) (k : nat) (tr : list event),
    (n <= remaining)%nat ->
    (forall i, (i < n)%nat -> sv (k + i)%nat rq = Refused) ->
    retry_loop remaining delay func (mkWorld (mkNet sv k) tr)
    = retry_loop (remaining - n) (delay * 2 ^ Z.of_nat n) func
                 (mkWorld (mkNet sv (k + n)) (tr ++ refused rq n delay)).
Proof.
  intro Hfunc. induction n as [|n IH]; intros remaining delay k tr Hle Hrefused.
  - simpl refused. rewrite Nat.sub_0_r, Nat.add_0_r, app_nil_r.
    change (Z.of_nat 0) with 0%Z. rewrite Z.pow_0_r, Z.mul_1_r. reflexivity.
  - destruct remaining as [|rem]; [lia|].
    rewrite retry_loop_S, (Hfunc k tr); [|rewrite <- (Nat.add_0_r k); apply Hrefused; lia].
    simpl is_ConnectionError. cbv iota. unfold record. simpl env. simpl trace.
    rewrite (IH rem (delay * 2)%Z (S k)); [|lia|].
    + f_equal.
      * rewrite Nat2Z.inj_succ, Z.pow_succ_r by lia. lia.
      * f_equal; [f_equal; lia|]. simpl refused. now rewrite <- !app_assoc.
    + intros i Hi. replace (S k + i)%nat with (k + S i)%nat by lia.
      apply Hrefused. lia.
Qed.

Lemma refused_sleeps (rq : request) (n j : nat) :
  sleeps_in (refused rq n (2 ^ Z.of_nat j))
  = map (fun i => (2 ^ Z.of_nat i)%Z) (seq j n).
Proof.
  revert j. induction n as [|n IH]; intro j; simpl; [reflexivity|].
  f_equal. rewrite <- IH. do 2 f_equal.
  rewrite Nat2Z.inj_succ, Z.pow_succ_r by lia. lia.
Qed.

Section PostRetry.
Context {lib : PyLib}.

Lemma asset_post_body_gives_way (fuel : nat) (collection asset_name : string)
      (data : payload) (params : option (list (string * string)))
      (presigned wait verify : bool) (sv : nat -> request -> reply) :
  forall k tr,
    sv k (post_request collection asset_name data params presigned) = Refused ->
    asset_post_body fuel collection asset_name data params presigned wait verify
                    (mkWorld (mkNet sv k) tr)
    = (Raise ConnectionError,
       mkWorld (mkNet sv (S k))
               (tr ++ [EvRequest (post_request collection asset_name data params
                                               presigned)])).
Proof.
  intros k tr Hans. unfold post_request in *. unfold asset_post_body. cbv zeta.
  now rewrite (bind_Raise _ _ _ _ _ (send_refused sv k tr _ Hans)).
Qed.

(** X23.  [asset_post] when its POST fails to connect.  After [n <= 10]
    refusals, with sleeps of 1, 2, ..., 2^(n-1) after them, a POST that
    is answered with the asset itself (no [Location]) ends the call with
    that answer; after eleven refusals the connection error reaches the
    caller, 1023 having been slept in all, and nothing but the eleven
    POSTs has been sent. *)
Theorem asset_post_rides_out_refusals (fuel : nat) (collection asset_name : string)
        (data : payload) (params : option (list (string * string)))
        (presigned wait verify : bool)
        (sv : nat -> request -> reply) (k : nat) (tr : list event) :
  (forall n r0 j0 asset_id,
      (n <= 10)%nat ->
      (forall i, (i < n)%nat ->
                 sv (k + i)%nat (post_request collection asset_name data params presigned)
                 = Refused) ->
      sv (k + n)%nat (post_request collection asset_name data params presigned)
      = Served r0 ->
      accepted r0 defaults = true ->
      json_loads (content r0) = Some j0 ->
      getitem (Structured j0) "id" = Ret asset_id ->
      headers_get (headers r0) "Location" = None ->
      asset_post fuel collection asset_name data params presigned wait verify
                 (mkWorld (mkNet sv k) tr)
      = (Ret (Structured j0),
         mkWorld (mkNet sv (S (k + n)))
                 (tr ++ refused (post_request collection asset_name data params presigned)
                                n 1
                     ++ [EvRequest (post_request collection asset_name data params
                                                 presigned)]))
      /\ sleeps_in (refused (post_request collection asset_name data params presigned) n 1)
         = map (fun i => (2 ^ Z.of_nat i)%Z) (seq 0 n))
  /\ ((forall i, (i < 11)%nat ->
                 sv (k + i)%nat (post_request collection asset_name data params presigned)
                 = Refused) ->
      asset_post fuel collection asset_name data params presigned wait verify
                 (mkWorld (mkNet sv k) tr)
      = (Raise ConnectionError,
         mkWorld (mkNet sv (k + 11))
                 (tr ++ refused (post_request collection asset_name data params presigned)
                                10 1
                     ++ [EvRequest (post_request collection asset_name data params
                                                 presigned)]))
      /\ total (sleeps_in (refused (post_request collection asset_name data params
                                                 presigned) 10 1)) = 1023%Z).
Proof.
  split.
  - intros n r0 j0 asset_id Hn Hrefused Hpost Hacc Hjson Hid Hloc.
    split; [|apply (refused_sleeps _ n 0)].
    unfold asset_post, exception_handler, retry.
    rewrite (retry_loop_refused _ _ sv n
               (asset_post_body_gives_way fuel collection asset_name data params
                                          presigned wait verify sv)
               10 1%Z k tr Hn Hrefused).
    assert (Hbody : asset_post_body fuel collection asset_name data params presigned
                      wait verify
                      (mkWorld (mkNet sv (k + n))
                         (tr ++ refused (post_request collection asset_name data params
                                                      presigned) n 1))
                    = (Ret (Structured j0),
                       mkWorld (mkNet sv (S (k + n)))
                         (tr ++ refused (post_request collection asset_name data params
                                                      presigned) n 1
                             ++ [EvRequest (post_request collection asset_name data params
                                                         presigned)]))).
    { unfold post_request in *. unfold asset_post_body. cbv zeta.
      rewrite (bind_Ret _ _ _ _ _ (send_served sv (k + n) _ _ r0 Hpost)).
      rewrite (bind_Ret _ _ _ _ _ (get_content_initial r0 j0 _ Hacc Hjson)).
      rewrite Hloc, (bind_lift _ _ _ asset_id Hid). unfold ret.
      now rewrite <- app_assoc. }
    rewrite retry_loop_first_try; rewrite Hbody; [reflexivity | discriminate].
  - intro Hrefused. split; [|reflexivity].
    unfold asset_post, exception_handler, retry.
    rewrite (retry_loop_refused _ _ sv 10
               (asset_post_body_gives_way fuel collection asset_name data params
                                          presigned wait verify sv)
               10 1%Z k tr (le_n _)); [|intros i Hi; apply Hrefused; lia].
    simpl retry_loop.
    rewrite (asset_post_body_gives_way fuel collection asset_name data params
               presigned wait verify sv (k + 10)); [|apply Hrefused; lia].
    f_equal. f_equal; [f_equal; lia | now rewrite <- app_assoc].
Qed.

End PostRetry.

Lemma asset_post_rides_out_refusals_witness :
  asset_post 0 "portfolios" "name" (PStr "payload-text") None false true true late_world
  = (Ret (Structured (record_value "a1" "ready")),
     mkWorld (mkNet (server (env late_world)) 3)
             [EvRequest (ClientPost "/{tenant}/portfolios/assets?assetName=name"
                                    (Some (PStr "payload-text"))); EvSleep 1;
              EvRequest (ClientPost "/{tenant}/portfolios/assets?assetName=name"
                                    (Some (PStr "payload-text"))); EvSleep 2;
              EvRequest (ClientPost "/{tenant}/portfolios/assets?assetName=name"
                                    (Some (PStr "payload-text")))])
  /\ sleeps_in (refused (post_request "portfolios" "name" (PStr "payload-text") None false)
                        2 1) = [1%Z; 2%Z].
Proof.
  apply (proj1 (asset_post_rides_out_refusals (lib := examples_lib) 0 "portfolios" "name"
                  (PStr "payload-text") None false true true
                  (server (env late_world)) 0 [])
               2%nat (record_response "a1" "ready") (record_value "a1" "ready")
               (JString "a1")).
  - lia.
  - intros i Hi. destruct i as [|[|i]]; [reflexivity | reflexivity | lia].
  - reflexivity.
  - reflexivity.
  - reflexivity.
  - reflexivity.
  - reflexivity.
Defined.
